(** * amazon-demo-proxy: the signed-offer token scheme and the idempotent
      purchase handler of [server.js], with the payment configuration of
      [src/payments/exact.js].

    The development is a shallow embedding.  JavaScript strings are lists
    of UTF-16 code units, Buffers are lists of bytes, JavaScript values are
    an inductive type, the in-memory [Map]s are finite maps, and the
    effects of a request (the clock, [Math.random], the HTTP call to the
    order API) are read from an explicit environment and recorded in an
    explicit state. *)

From Stdlib Require Import NArith ZArith List String Ascii Bool Lia SpecFloat.
From stdpp Require Import base option gmap.
Import ListNotations.

Local Open Scope N_scope.
Local Open Scope list_scope.

(** ** Strings and buffers *)

(** A JavaScript string: its UTF-16 code units, each below [2^16]. *)
Abbreviation jsstring := (list N).

(** A Node.js [Buffer]: its bytes, each below [2^8]. *)
Abbreviation Buffer := (list N).

(** The code units of an ASCII literal of the source. *)
Definition js (s : string) : jsstring :=
  List.map N_of_ascii (list_ascii_of_string s).

Definition code_unit (c : N) : Prop := c < 65536.
Definition is_byte (b : N) : Prop := b < 256.

Definition jsstring_eqb (a b : jsstring) : bool :=
  bool_decide (a = b).

(** The same, for a literal written with apostrophes where the text has
    double quotes. *)
Definition jsq (s : string) : jsstring :=
  List.map (fun c => if c =? 39 then 34 else c) (js s).

Module Node.

(** *** [Buffer.from(s, 'hex')] and [digest('hex')]

    The hex decoder reads pairs of digits and stops at the first pair
    that is not two hex digits; a trailing single character is dropped.
    Characters are looked up by their low eight bits. *)

Definition unhex (c : N) : option N :=
  let c := c mod 256 in
  if (48 <=? c) && (c <=? 57) then Some (c - 48)
  else if (65 <=? c) && (c <=? 70) then Some (c - 55)
  else if (97 <=? c) && (c <=? 102) then Some (c - 87)
  else None.

Fixpoint hexDecode (s : jsstring) : Buffer :=
  match s with
  | a :: b :: rest =>
      match unhex a, unhex b with
      | Some x, Some y => (16 * x + y) :: hexDecode rest
      | _, _ => []
      end
  | _ => []
  end.

Definition hexdigit (n : N) : N := if n <? 10 then 48 + n else 87 + n.

Definition hexEncode (b : Buffer) : jsstring :=
  flat_map (fun x => [hexdigit (x / 16); hexdigit (x mod 16)]) b.

(** *** [buffer.toString('base64')] and [Buffer.from(s, 'base64')] *)

Definition b64char (n : N) : N :=
  if n <? 26 then 65 + n
  else if n <? 52 then 71 + n
  else if n <? 62 then n - 4
  else if n =? 62 then 43
  else 47.

Fixpoint base64Encode (b : Buffer) : jsstring :=
  match b with
  | [] => []
  | [x] => [b64char (x / 4); b64char ((x mod 4) * 16); 61; 61]
  | [x; y] =>
      [b64char (x / 4); b64char ((x mod 4) * 16 + y / 16);
       b64char ((y mod 16) * 4); 61]
  | x :: y :: z :: rest =>
      b64char (x / 4) :: b64char ((x mod 4) * 16 + y / 16)
        :: b64char ((y mod 16) * 4 + z / 64) :: b64char (z mod 64)
        :: base64Encode rest
  end.

(** The decoding table accepts the standard and the URL-safe alphabet. *)
Definition unbase64 (c : N) : option N :=
  if (65 <=? c) && (c <=? 90) then Some (c - 65)
  else if (97 <=? c) && (c <=? 122) then Some (c - 71)
  else if (48 <=? c) && (c <=? 57) then Some (c + 4)
  else if (c =? 43) || (c =? 45) then Some 62
  else if (c =? 47) || (c =? 95) then Some 63
  else None.

(** The decoder never fails: a character outside the table is skipped,
    and the first ['='] ends the input. *)
Fixpoint base64Sextets (s : jsstring) : list N :=
  match s with
  | [] => []
  | c :: rest =>
      match unbase64 (c mod 256) with
      | Some v => v :: base64Sextets rest
      | None => if c mod 256 =? 61 then [] else base64Sextets rest
      end
  end.

Fixpoint base64Bytes (v : list N) : Buffer :=
  match v with
  | a :: b :: c :: d :: rest =>
      (a * 4 + b / 16) :: ((b mod 16) * 16 + c / 4) :: ((c mod 4) * 64 + d)
        :: base64Bytes rest
  | [a; b; c] => [a * 4 + b / 16; (b mod 16) * 16 + c / 4]
  | [a; b] => [a * 4 + b / 16]
  | _ => []
  end.

Definition base64Decode (s : jsstring) : Buffer :=
  base64Bytes (base64Sextets s).

(** *** [Buffer.from(s)] (UTF-8) and [buffer.toString('utf8')] *)

Definition replacement : Buffer := [239; 191; 189].

Definition utf8OfCodePoint (cp : N) : Buffer :=
  if cp <? 128 then [cp]
  else if cp <? 2048 then [192 + cp / 64; 128 + cp mod 64]
  else if cp <? 65536 then
    [224 + cp / 4096; 128 + (cp / 64) mod 64; 128 + cp mod 64]
  else
    [240 + cp / 262144; 128 + (cp / 4096) mod 64;
     128 + (cp / 64) mod 64; 128 + cp mod 64].

Definition isHighSurrogate (c : N) : bool := (55296 <=? c) && (c <? 56320).
Definition isLowSurrogate (c : N) : bool := (56320 <=? c) && (c <? 57344).

(** A surrogate pair is one code point; a lone surrogate is written as
    U+FFFD. *)
Fixpoint utf8Encode (s : jsstring) : Buffer :=
  match s with
  | [] => []
  | c :: rest =>
      if isHighSurrogate c then
        match rest with
        | d :: rest' =>
            if isLowSurrogate d then
              utf8OfCodePoint (65536 + (c - 55296) * 1024 + (d - 56320))
                ++ utf8Encode rest'
            else replacement ++ utf8Encode rest
        | [] => replacement
        end
      else if isLowSurrogate c then replacement ++ utf8Encode rest
      else utf8OfCodePoint c ++ utf8Encode rest
  end.

(** The decoder is the state machine of the Encoding standard: an
    ill-formed sequence yields U+FFFD and decoding resumes at the
    offending byte. *)
Record utf8State := mkUtf8 {
  u_cp : N; u_seen : N; u_needed : N; u_lower : N; u_upper : N }.

Definition utf8Init : utf8State := mkUtf8 0 0 0 128 191.

Definition utf16OfCodePoint (cp : N) : jsstring :=
  if cp <? 65536 then [cp]
  else [55296 + (cp - 65536) / 1024; 56320 + (cp - 65536) mod 1024].

Definition utf8Lead (b : N) : jsstring * utf8State :=
  if b <? 128 then ([b], utf8Init)
  else if (194 <=? b) && (b <=? 223) then ([], mkUtf8 (b mod 32) 0 1 128 191)
  else if (224 <=? b) && (b <=? 239) then
    ([], mkUtf8 (b mod 16) 0 2 (if b =? 224 then 160 else 128)
                (if b =? 237 then 159 else 191))
  else if (240 <=? b) && (b <=? 244) then
    ([], mkUtf8 (b mod 8) 0 3 (if b =? 240 then 144 else 128)
                (if b =? 244 then 143 else 191))
  else ([65533], utf8Init).

Definition utf8Step (st : utf8State) (b : N) : jsstring * utf8State :=
  if u_needed st =? 0 then utf8Lead b
  else if (b <? u_lower st) || (u_upper st <? b) then
    let '(out, st') := utf8Lead b in (65533 :: out, st')
  else
    let cp := u_cp st * 64 + b mod 64 in
    if u_seen st + 1 =? u_needed st then (utf16OfCodePoint cp, utf8Init)
    else ([], mkUtf8 cp (u_seen st + 1) (u_needed st) 128 191).

Fixpoint utf8Run (st : utf8State) (bytes : Buffer) : jsstring :=
  match bytes with
  | [] => if u_needed st =? 0 then [] else [65533]
  | b :: rest =>
      let '(out, st') := utf8Step st b in out ++ utf8Run st' rest
  end.

Definition utf8Decode (bytes : Buffer) : jsstring := utf8Run utf8Init bytes.

End Node.

(** ** SHA-256 and HMAC ([crypto.createHmac('sha256', key)]) *)

Module Sha256.

Definition w32 (x : N) : N := x mod 4294967296.
Definition add32 (x y : N) : N := w32 (x + y).
Definition rotr (n x : N) : N :=
  N.lor (N.shiftr x n) (w32 (N.shiftl x (32 - n))).
Definition not32 (x : N) : N := N.lxor x 4294967295.

Definition Ch (x y z : N) : N := N.lxor (N.land x y) (N.land (not32 x) z).
Definition Maj (x y z : N) : N :=
  N.lxor (N.lxor (N.land x y) (N.land x z)) (N.land y z).
Definition Sigma0 (x : N) : N := N.lxor (N.lxor (rotr 2 x) (rotr 13 x)) (rotr 22 x).
Definition Sigma1 (x : N) : N := N.lxor (N.lxor (rotr 6 x) (rotr 11 x)) (rotr 25 x).
Definition sigma0 (x : N) : N := N.lxor (N.lxor (rotr 7 x) (rotr 18 x)) (N.shiftr x 3).
Definition sigma1 (x : N) : N := N.lxor (N.lxor (rotr 17 x) (rotr 19 x)) (N.shiftr x 10).

(** The constants, as the standard defines them: the first 32 bits of
    the fractional parts of the cube roots (for the round constants) and
    of the square roots (for the initial hash) of the first primes. *)
Definition isPrime (p : N) : bool :=
  (1 <? p) && forallb (fun d => negb (p mod N.of_nat d =? 0)) (seq 2 (N.to_nat p - 2)).

Definition firstPrimes (n : nat) : list N :=
  firstn n (List.filter isPrime (List.map N.of_nat (seq 0 320))).

(** The integer part of the [e]-th root of [x], one bit at a time. *)
Fixpoint rootBits (bits : nat) (e x r : N) : N :=
  match bits with
  | O => r
  | S b =>
      let candidate := r + 2 ^ N.of_nat b in
      rootBits b e x (if candidate ^ e <=? x then candidate else r)
  end.

Definition fraction32 (e p : N) : N := w32 (rootBits 40 e (p * 2 ^ (32 * e)) 0).

Definition K : list N := Eval vm_compute in List.map (fraction32 3) (firstPrimes 64).

Record hash := mkHash { h0 : N; h1 : N; h2 : N; h3 : N; h4 : N; h5 : N; h6 : N; h7 : N }.

Definition H0 : hash := Eval vm_compute in
  match List.map (fraction32 2) (firstPrimes 8) with
  | [a; b; c; d; e; f; g; h] => mkHash a b c d e f g h
  | _ => mkHash 0 0 0 0 0 0 0 0
  end.

(** Padding: the bit 1, zeros up to 56 modulo 64 bytes, then the length
    in bits as a 64-bit big-endian integer. *)
Definition be_bytes (n : nat) (x : N) : Buffer :=
  List.map (fun i => (x / 256 ^ N.of_nat i) mod 256) (rev (seq 0 n)).

Definition pad (msg : Buffer) : Buffer :=
  let len := N.of_nat (List.length msg) in
  let zeros := N.to_nat ((119 - len mod 64) mod 64) in
  msg ++ [128] ++ repeat 0 zeros ++ be_bytes 8 (8 * len).

Fixpoint words (b : Buffer) : list N :=
  match b with
  | a :: b :: c :: d :: rest =>
      (((a * 256 + b) * 256 + c) * 256 + d) :: words rest
  | _ => []
  end.

(** The message schedule, kept most recent word first. *)
Fixpoint schedule (n : nat) (rev_w : list N) : list N :=
  match n with
  | O => rev_w
  | S n' =>
      let wd := add32 (add32 (sigma1 (nth 1 rev_w 0)) (nth 6 rev_w 0))
                      (add32 (sigma0 (nth 14 rev_w 0)) (nth 15 rev_w 0)) in
      schedule n' (wd :: rev_w)
  end.

Definition round (s : hash) (kw : N * N) : hash :=
  let '(k, wd) := kw in
  let t1 := add32 (add32 (add32 (h7 s) (Sigma1 (h4 s))) (Ch (h4 s) (h5 s) (h6 s)))
                  (add32 k wd) in
  let t2 := add32 (Sigma0 (h0 s)) (Maj (h0 s) (h1 s) (h2 s)) in
  mkHash (add32 t1 t2) (h0 s) (h1 s) (h2 s) (add32 (h3 s) t1) (h4 s) (h5 s) (h6 s).

Definition compress (s : hash) (block : list N) : hash :=
  let ws := rev (schedule 48 (rev block)) in
  let t := fold_left round (combine K ws) s in
  mkHash (add32 (h0 s) (h0 t)) (add32 (h1 s) (h1 t)) (add32 (h2 s) (h2 t))
         (add32 (h3 s) (h3 t)) (add32 (h4 s) (h4 t)) (add32 (h5 s) (h5 t))
         (add32 (h6 s) (h6 t)) (add32 (h7 s) (h7 t)).

Fixpoint blocks (n : nat) (ws : list N) (s : hash) : hash :=
  match n with
  | O => s
  | S n' => blocks n' (skipn 16 ws) (compress s (firstn 16 ws))
  end.

Definition digest_of (s : hash) : Buffer :=
  flat_map (be_bytes 4) [h0 s; h1 s; h2 s; h3 s; h4 s; h5 s; h6 s; h7 s].

Definition sha256 (msg : Buffer) : Buffer :=
  let ws := words (pad msg) in
  digest_of (blocks (List.length ws / 16) ws H0).

(** HMAC (RFC 2104) with a 64-byte block. *)
Definition hmac_key (key : Buffer) : Buffer :=
  let k := if (64 <? List.length key)%nat then sha256 key else key in
  k ++ repeat 0 (64 - List.length k)%nat.

Definition hmac (key msg : Buffer) : Buffer :=
  let k := hmac_key key in
  sha256 (List.map (N.lxor 92) k ++ sha256 (List.map (N.lxor 54) k ++ msg)).

End Sha256.

(** ** Numbers

    A JavaScript number is an IEEE 754 binary64 value.  Conversions from
    and to decimal text are exact: a literal denotes the correctly
    rounded value, and a number prints as the shortest decimal that reads
    back to it. *)

Module Num.

Local Open Scope Z_scope.

Abbreviation number := spec_float.

Definition prec : Z := 53.
Definition emax : Z := 1024.

Definition nan : number := S754_nan.
Definition zero : number := S754_zero false.
Definition mul : number -> number -> number := SFmul prec emax.
Definition ltb : number -> number -> bool := SFltb.

Definition eqb (x y : number) : bool :=
  match x, y with
  | S754_zero a, S754_zero b => Bool.eqb a b
  | S754_infinity a, S754_infinity b => Bool.eqb a b
  | S754_nan, S754_nan => true
  | S754_finite a m e, S754_finite b m' e' =>
      Bool.eqb a b && Pos.eqb m m' && Z.eqb e e'
  | _, _ => false
  end.

Definition isFinite (x : number) : bool :=
  match x with S754_zero _ | S754_finite _ _ _ => true | _ => false end.

Definition isNegative (x : number) : bool :=
  match x with S754_finite true _ _ | S754_infinity true => true | _ => false end.

(** [ofDecimal neg m e]: the number nearest to [(-1)^neg * m * 10^e],
    ties to even. *)
Definition ofDecimal (neg : bool) (m e : Z) : number :=
  if m <=? 0 then S754_zero neg
  else if 310 <? e then S754_infinity neg
  else if e + (Z.log2 m + 1) / 3 + 1 <? -330 then S754_zero neg
  else if 0 <=? e then
    match binary_normalize prec emax (m * 10 ^ e) 0 false with
    | S754_finite _ m' e' => S754_finite neg m' e'
    | S754_infinity _ => S754_infinity neg
    | S754_zero _ => S754_zero neg
    | S754_nan => S754_nan
    end
  else
    let '(mz, ez, lz) := SFdiv_core_binary prec emax m 0 (10 ^ (- e)) 0 in
    binary_round_aux prec emax neg mz ez lz.

Definition ofZ (z : Z) : number := ofDecimal (z <? 0) (Z.abs z) 0.
Definition ofN (n : N) : number := ofDecimal false (Z.of_N n) 0.

(** *** Decimal digits *)

Fixpoint uintChars (u : Decimal.uint) : jsstring :=
  match u with
  | Decimal.Nil => []
  | Decimal.D0 u => 48%N :: uintChars u
  | Decimal.D1 u => 49%N :: uintChars u
  | Decimal.D2 u => 50%N :: uintChars u
  | Decimal.D3 u => 51%N :: uintChars u
  | Decimal.D4 u => 52%N :: uintChars u
  | Decimal.D5 u => 53%N :: uintChars u
  | Decimal.D6 u => 54%N :: uintChars u
  | Decimal.D7 u => 55%N :: uintChars u
  | Decimal.D8 u => 56%N :: uintChars u
  | Decimal.D9 u => 57%N :: uintChars u
  end.

Definition decimalN (n : N) : jsstring := uintChars (N.to_uint n).
Definition decimalZ (z : Z) : jsstring :=
  if z <? 0 then 45%N :: decimalN (Z.to_N (- z)) else decimalN (Z.to_N z).

Definition isDigit (c : N) : bool := ((48 <=? c) && (c <=? 57))%N.

Fixpoint spanDigits (s : jsstring) : list N * jsstring :=
  match s with
  | c :: rest =>
      if isDigit c then let '(ds, r) := spanDigits rest in ((c - 48)%N :: ds, r)
      else ([], s)
  | [] => ([], [])
  end.

Definition digitsValue (ds : list N) : Z :=
  fold_left (fun a d => 10 * a + Z.of_N d) ds 0.

(** *** [Number::toString]

    For a positive finite [x = a / b]: the least [k] and an [s] of [k]
    digits with [s * 10^(n-k)] reading back to [x]; of two such [s], the
    one nearer to [x]. *)
Definition ratio (m : positive) (e : Z) : Z * Z :=
  if 0 <=? e then (Zpos m * 2 ^ e, 1) else (Zpos m, 2 ^ (- e)).

Definition scale10 (r : Z * Z) (j : Z) : Z * Z :=
  let '(a, b) := r in
  if 0 <=? j then (a, b * 10 ^ j) else (a * 10 ^ (- j), b).

Definition below10 (r : Z * Z) (n : Z) : bool :=
  let '(a, b) := scale10 r n in a <? b.

Definition decimalExponent (r : Z * Z) : Z :=
  let '(a, b) := r in
  let est := (Z.log2 a - Z.log2 b) * 30103 / 100000 in
  if below10 r (est - 1) then est - 1
  else if below10 r est then est
  else if below10 r (est + 1) then est + 1
  else if below10 r (est + 2) then est + 2
  else est + 3.

Definition candidate (x : number) (r : Z * Z) (n k : Z) : option Z :=
  let '(a, b) := scale10 r (n - k) in
  let lo := a / b in
  let hi := lo + 1 in
  let ok c := eqb (ofDecimal false c (n - k)) x in
  match ok lo, ok hi with
  | true, true =>
      match 2 * (a mod b) ?= b with
      | Lt => Some lo
      | Gt => Some hi
      | Eq => Some (if Z.even lo then lo else hi)
      end
  | true, false => Some lo
  | false, true => Some hi
  | false, false => None
  end.

Fixpoint shortest (fuel : nat) (x : number) (r : Z * Z) (n k : Z) : Z * Z :=
  match fuel with
  | O => let '(a, b) := scale10 r (n - k) in ((2 * a + b) / (2 * b), k)
  | S fuel' =>
      match candidate x r n k with
      | Some s => (s, k)
      | None => shortest fuel' x r n (k + 1)
      end
  end.

Fixpoint stripZeros (rev_digits : jsstring) : jsstring :=
  match rev_digits with
  | 48%N :: rest => stripZeros rest
  | _ => rev_digits
  end.

Definition zeros (n : Z) : jsstring := repeat 48%N (Z.to_nat n).

(** The digits of [s * 10^e10] without trailing zeros, and the position
    [n] of the decimal point. *)
Definition layout (digits : jsstring) (n : Z) : jsstring :=
  let k := Z.of_nat (List.length digits) in
  if (k <=? n) && (n <=? 21) then digits ++ zeros (n - k)
  else if (0 <? n) && (n <=? 21) then
    firstn (Z.to_nat n) digits ++ [46%N] ++ skipn (Z.to_nat n) digits
  else if (-6 <? n) && (n <=? 0) then
    [48%N; 46%N] ++ zeros (- n) ++ digits
  else
    let ex := (if n - 1 <? 0 then [45%N] else [43%N]) ++ decimalN (Z.to_N (Z.abs (n - 1))) in
    match digits with
    | [d] => [d; 101%N] ++ ex
    | d :: more => d :: 46%N :: more ++ [101%N] ++ ex
    | [] => []
    end.

Definition toStringPositive (m : positive) (e : Z) : jsstring :=
  let x := S754_finite false m e in
  let r := ratio m e in
  let n := decimalExponent r in
  let '(s, k) := shortest 17 x r n 1 in
  let all := decimalN (Z.to_N s) in
  let digits := rev (stripZeros (rev all)) in
  layout digits (Z.of_nat (List.length all) + (n - k)).

Definition toString (x : number) : jsstring :=
  match x with
  | S754_nan => js "NaN"
  | S754_zero _ => js "0"
  | S754_infinity false => js "Infinity"
  | S754_infinity true => js "-Infinity"
  | S754_finite false m e => toStringPositive m e
  | S754_finite true m e => 45%N :: toStringPositive m e
  end.

(** *** [x.toFixed(2)] *)
Definition toFixed2 (x : number) : jsstring :=
  match x with
  | S754_finite neg m e =>
      if ltb (S754_finite false m e) (ofDecimal false 1 21) then
        let '(a, b) := ratio m e in
        let n := (200 * a + b) / (2 * b) in
        let ds := decimalN (Z.to_N n) in
        let ds := repeat 48%N (3 - List.length ds) ++ ds in
        let cut := (List.length ds - 2)%nat in
        (if neg then [45%N] else []) ++ firstn cut ds ++ [46%N] ++ skipn cut ds
      else toString x
  | S754_zero _ => js "0.00"
  | _ => toString x
  end.

(** *** Reading decimal text *)

Definition isWhiteSpace (c : N) : bool :=
  ((c =? 9) || (c =? 10) || (c =? 11) || (c =? 12) || (c =? 13) || (c =? 32)
   || (c =? 160) || (c =? 5760) || ((8192 <=? c) && (c <=? 8202))
   || (c =? 8232) || (c =? 8233) || (c =? 8239) || (c =? 8287)
   || (c =? 12288) || (c =? 65279))%N.

Fixpoint trimStart (s : jsstring) : jsstring :=
  match s with
  | c :: rest => if isWhiteSpace c then trimStart rest else s
  | [] => []
  end.

Definition trim (s : jsstring) : jsstring := rev (trimStart (rev (trimStart s))).

Definition scanExponent (s : jsstring) : Z * jsstring :=
  match s with
  | c :: t =>
      if ((c =? 101) || (c =? 69))%N then
        let '(neg, t') :=
          match t with
          | 45%N :: u => (true, u)
          | 43%N :: u => (false, u)
          | _ => (false, t)
          end in
        match spanDigits t' with
        | ([], _) => (0, s)
        | (ds, r) => ((if neg then - digitsValue ds else digitsValue ds), r)
        end
      else (0, s)
  | [] => (0, [])
  end.

(** The longest prefix that is an unsigned decimal literal:
    mantissa, power of ten, and what follows. *)
Definition scanUnsignedDecimal (s : jsstring) : option (Z * Z * jsstring) :=
  let '(ip, r1) := spanDigits s in
  let '(fp, r2) :=
    match r1 with
    | 46%N :: t =>
        match ip, spanDigits t with
        | [], ([], _) => ([], r1)
        | _, (f, r) => (f, r)
        end
    | _ => ([], r1)
    end in
  match ip, fp with
  | [], [] => None
  | _, _ =>
      let '(ex, r3) := scanExponent r2 in
      Some (digitsValue (ip ++ fp), ex - Z.of_nat (List.length fp), r3)
  end.

Definition splitSign (s : jsstring) : bool * jsstring :=
  match s with
  | 45%N :: t => (true, t)
  | 43%N :: t => (false, t)
  | _ => (false, s)
  end.

Fixpoint startsWith (p s : jsstring) : bool :=
  match p, s with
  | [], _ => true
  | a :: p', b :: s' => (a =? b)%N && startsWith p' s'
  | _ :: _, [] => false
  end.

Definition parseFloat (s : jsstring) : number :=
  let '(neg, t) := splitSign (trimStart s) in
  if startsWith (js "Infinity") t then S754_infinity neg
  else match scanUnsignedDecimal t with
       | Some (m, e, _) => ofDecimal neg m e
       | None => nan
       end.

Definition radixDigit (radix c : N) : option N :=
  let v := (if isDigit c then Some (c - 48)
            else if (97 <=? c) && (c <=? 102) then Some (c - 87)
            else if (65 <=? c) && (c <=? 70) then Some (c - 55)
            else None)%N in
  match v with
  | Some d => if (d <? radix)%N then Some d else None
  | None => None
  end.

Fixpoint radixValue (radix : N) (s : jsstring) (acc : Z) : option Z :=
  match s with
  | [] => Some acc
  | c :: rest =>
      match radixDigit radix c with
      | Some d => radixValue radix rest (Z.of_N radix * acc + Z.of_N d)
      | None => None
      end
  end.

Definition nonDecimal (s : jsstring) : option number :=
  match s with
  | 48%N :: p :: (_ :: _) as ds =>
      let radix := (if (p =? 120) || (p =? 88) then 16
                    else if (p =? 111) || (p =? 79) then 8
                    else if (p =? 98) || (p =? 66) then 2 else 0)%N in
      if (radix =? 0)%N then None
      else match radixValue radix ds 0 with
           | Some v => Some (ofDecimal false v 0)
           | None => None
           end
  | _ => None
  end.

(** [StringToNumber]: the whole trimmed text must be a numeric literal. *)
Definition ofString (s : jsstring) : number :=
  let t := trim s in
  match t with
  | [] => zero
  | _ =>
      match nonDecimal t with
      | Some v => v
      | None =>
          let '(neg, u) := splitSign t in
          if jsstring_eqb u (js "Infinity") then S754_infinity neg
          else match scanUnsignedDecimal u with
               | Some (m, e, []) => ofDecimal neg m e
               | _ => nan
               end
      end
  end.

End Num.

(** ** JavaScript values and the operators the handler applies to them *)

Record jsError := mkError { err_name : string; err_message : jsstring }.

Inductive result (A : Type) : Type :=
| Ok (a : A)
| Throw (e : jsError).
Arguments Ok {A} a.
Arguments Throw {A} e.

#[local] Unset Elimination Schemes.
Inductive value : Type :=
| VUndefined
| VNull
| VBool (b : bool)
| VNum (n : Num.number)
| VStr (s : jsstring)
| VArr (elems : list value)
| VObj (props : list (jsstring * value)).
#[local] Set Elimination Schemes.

Module Js.

Fixpoint join (sep : jsstring) (parts : list jsstring) : jsstring :=
  match parts with
  | [] => []
  | [x] => x
  | x :: rest => x ++ sep ++ join sep rest
  end.

(** *** Objects: own properties in enumeration order

    Array-index keys come first in ascending order, the other keys
    follow in insertion order; writing an existing key keeps its place. *)
Definition arrayIndex (k : jsstring) : option N :=
  match k with
  | [] => None
  | c :: more =>
      if forallb Num.isDigit k && negb ((c =? 48) && negb (Nat.eqb (List.length more) 0))
      then let n := Z.to_N (Num.digitsValue (List.map (fun d => d - 48) k)) in
           if n <? 4294967295 then Some n else None
      else None
  end.

Fixpoint getProp (k : jsstring) (props : list (jsstring * value)) : option value :=
  match props with
  | [] => None
  | (k', v) :: rest => if jsstring_eqb k k' then Some v else getProp k rest
  end.

Fixpoint replaceProp (k : jsstring) (v : value) (props : list (jsstring * value))
  : list (jsstring * value) :=
  match props with
  | [] => []
  | (k', v') :: rest =>
      if jsstring_eqb k k' then (k', v) :: rest else (k', v') :: replaceProp k v rest
  end.

Fixpoint insertIndex (i : N) (k : jsstring) (v : value) (props : list (jsstring * value))
  : list (jsstring * value) :=
  match props with
  | [] => [(k, v)]
  | (k', v') :: rest =>
      match arrayIndex k' with
      | Some j => if j <? i then (k', v') :: insertIndex i k v rest else (k, v) :: props
      | None => (k, v) :: props
      end
  end.

Definition setProp (k : jsstring) (v : value) (props : list (jsstring * value))
  : list (jsstring * value) :=
  match getProp k props with
  | Some _ => replaceProp k v props
  | None =>
      match arrayIndex k with
      | Some i => insertIndex i k v props
      | None => props ++ [(k, v)]
      end
  end.

(** [{...a, ...}]: the own properties of [a] copied onto [props]. *)
Definition spread (a : value) (props : list (jsstring * value))
  : list (jsstring * value) :=
  match a with
  | VObj ps => fold_left (fun acc kv => setProp (fst kv) (snd kv) acc) ps props
  | VArr l =>
      fold_left (fun acc kv => setProp (fst kv) (snd kv) acc)
        (combine (List.map (fun i => Num.decimalN (N.of_nat i)) (seq 0 (List.length l))) l)
        props
  | VStr s =>
      fold_left (fun acc kv => setProp (fst kv) (snd kv) acc)
        (combine (List.map (fun i => Num.decimalN (N.of_nat i)) (seq 0 (List.length s)))
                 (List.map (fun c => VStr [c]) s))
        props
  | _ => props
  end.

(** *** Conversions *)

Definition ToBoolean (v : value) : bool :=
  match v with
  | VUndefined | VNull => false
  | VBool b => b
  | VNum (S754_zero _) | VNum S754_nan => false
  | VNum _ => true
  | VStr [] => false
  | VStr _ => true
  | VArr _ | VObj _ => true
  end.

Fixpoint ToString (v : value) : jsstring :=
  match v with
  | VUndefined => js "undefined"
  | VNull => js "null"
  | VBool true => js "true"
  | VBool false => js "false"
  | VNum n => Num.toString n
  | VStr s => s
  | VArr l =>
      join (js ",")
        ((fix each (l : list value) : list jsstring :=
            match l with
            | [] => []
            | VUndefined :: r | VNull :: r => [] :: each r
            | e :: r => ToString e :: each r
            end) l)
  | VObj _ => js "[object Object]"
  end.

Definition ToPrimitive (v : value) : value :=
  match v with
  | VArr _ | VObj _ => VStr (ToString v)
  | _ => v
  end.

Definition ToNumber (v : value) : Num.number :=
  match ToPrimitive v with
  | VUndefined => Num.nan
  | VNull => Num.zero
  | VBool true => Num.ofZ 1
  | VBool false => Num.zero
  | VNum n => n
  | VStr s => Num.ofString s
  | _ => Num.nan
  end.

Fixpoint stringLt (a b : jsstring) : bool :=
  match a, b with
  | _, [] => false
  | [], _ :: _ => true
  | x :: a', y :: b' => (x <? y) || ((x =? y) && stringLt a' b')
  end.

(** [a > b] *)
Definition gt (a b : value) : bool :=
  match ToPrimitive a, ToPrimitive b with
  | VStr x, VStr y => stringLt y x
  | x, y => Num.ltb (ToNumber y) (ToNumber x)
  end.

(** [a * b] *)
Definition times (a b : value) : Num.number := Num.mul (ToNumber a) (ToNumber b).

(** [a || b] *)
Definition or (a b : value) : value := if ToBoolean a then a else b.

(** [a === s] for a string [s] *)
Definition strictEqualsString (a : value) (s : jsstring) : bool :=
  match a with
  | VStr x => jsstring_eqb x s
  | _ => false
  end.

(** *** Property read [v.k]

    Own properties only; the handler reads no inherited property.  Reading a
    property of [undefined] or [null] raises a [TypeError]. *)
Definition cannotRead (what : string) (k : jsstring) : jsError :=
  mkError "TypeError"
    (js "Cannot read properties of " ++ js what ++ js " (reading '" ++ k ++ js "')").

Definition get (v : value) (k : jsstring) : result value :=
  match v with
  | VUndefined => Throw (cannotRead "undefined" k)
  | VNull => Throw (cannotRead "null" k)
  | VObj props => Ok (match getProp k props with Some x => x | None => VUndefined end)
  | VArr l =>
      if jsstring_eqb k (js "length") then Ok (VNum (Num.ofN (N.of_nat (List.length l))))
      else match arrayIndex k with
           | Some i => Ok (nth (N.to_nat i) l VUndefined)
           | None => Ok VUndefined
           end
  | VStr s =>
      if jsstring_eqb k (js "length") then Ok (VNum (Num.ofN (N.of_nat (List.length s))))
      else match arrayIndex k with
           | Some i => Ok (match nth_error s (N.to_nat i) with
                           | Some c => VStr [c]
                           | None => VUndefined
                           end)
           | None => Ok VUndefined
           end
  | VBool _ | VNum _ => Ok VUndefined
  end.

(** [typeof v === 'object'] *)
Definition typeofObject (v : value) : bool :=
  match v with VNull | VArr _ | VObj _ => true | _ => false end.

(** [Object.keys(v)] for a non-null object *)
Definition keys (v : value) : list jsstring :=
  match v with
  | VObj props => List.map fst props
  | VArr l => List.map (fun i => Num.decimalN (N.of_nat i)) (seq 0 (List.length l))
  | _ => []
  end.

End Js.

(** ** [JSON.stringify] and [JSON.parse] *)

Module JSON.

Definition unicodeEscape (c : N) : jsstring :=
  [92; 117; Node.hexdigit (c / 4096); Node.hexdigit ((c / 256) mod 16);
   Node.hexdigit ((c / 16) mod 16); Node.hexdigit (c mod 16)].

Fixpoint quoteChars (s : jsstring) : jsstring :=
  match s with
  | [] => []
  | c :: rest =>
      if c =? 34 then 92 :: 34 :: quoteChars rest
      else if c =? 92 then 92 :: 92 :: quoteChars rest
      else if c =? 8 then 92 :: 98 :: quoteChars rest
      else if c =? 12 then 92 :: 102 :: quoteChars rest
      else if c =? 10 then 92 :: 110 :: quoteChars rest
      else if c =? 13 then 92 :: 114 :: quoteChars rest
      else if c =? 9 then 92 :: 116 :: quoteChars rest
      else if c <? 32 then unicodeEscape c ++ quoteChars rest
      else if Node.isHighSurrogate c then
        match rest with
        | d :: rest' =>
            if Node.isLowSurrogate d then c :: d :: quoteChars rest'
            else unicodeEscape c ++ quoteChars rest
        | [] => unicodeEscape c
        end
      else if Node.isLowSurrogate c then unicodeEscape c ++ quoteChars rest
      else c :: quoteChars rest
  end.

Definition quote (s : jsstring) : jsstring := 34 :: quoteChars s ++ [34].

(** [None] stands for the result [undefined]. *)
Fixpoint stringify (v : value) : option jsstring :=
  match v with
  | VUndefined => None
  | VNull => Some (js "null")
  | VBool true => Some (js "true")
  | VBool false => Some (js "false")
  | VNum n => Some (if Num.isFinite n then Num.toString n else js "null")
  | VStr s => Some (quote s)
  | VArr l =>
      Some ([91] ++ Js.join [44]
              ((fix each (l : list value) : list jsstring :=
                  match l with
                  | [] => []
                  | e :: r =>
                      match stringify e with
                      | Some t => t
                      | None => js "null"
                      end :: each r
                  end) l) ++ [93])
  | VObj props =>
      Some ([123] ++ Js.join [44]
              ((fix each (ps : list (jsstring * value)) : list jsstring :=
                  match ps with
                  | [] => []
                  | (k, e) :: r =>
                      match stringify e with
                      | Some t => (quote k ++ [58] ++ t) :: each r
                      | None => each r
                      end
                  end) props) ++ [125])
  end.

(** *** The parser *)

Definition isWs (c : N) : bool := (c =? 9) || (c =? 10) || (c =? 13) || (c =? 32).

Fixpoint skipWs (s : jsstring) : jsstring :=
  match s with
  | c :: rest => if isWs c then skipWs rest else s
  | [] => []
  end.

Definition hex4 (a b c d : N) : option N :=
  match Node.unhex a, Node.unhex b, Node.unhex c, Node.unhex d with
  | Some x, Some y, Some z, Some w =>
      if (a <? 128) && (b <? 128) && (c <? 128) && (d <? 128)
      then Some (((x * 16 + y) * 16 + z) * 16 + w) else None
  | _, _, _, _ => None
  end.

(** The characters of a string literal after its opening quote. *)
Fixpoint parseChars (s : jsstring) : option (jsstring * jsstring) :=
  match s with
  | [] => None
  | c :: rest =>
      if c =? 34 then Some ([], rest)
      else if c =? 92 then
        match rest with
        | [] => None
        | e :: rest1 =>
            let simple (u : N) :=
              match parseChars rest1 with
              | Some (t, r) => Some (u :: t, r)
              | None => None
              end in
            if e =? 34 then simple 34
            else if e =? 92 then simple 92
            else if e =? 47 then simple 47
            else if e =? 98 then simple 8
            else if e =? 102 then simple 12
            else if e =? 110 then simple 10
            else if e =? 114 then simple 13
            else if e =? 116 then simple 9
            else if e =? 117 then
              match rest1 with
              | h1 :: h2 :: h3 :: h4 :: rest2 =>
                  match hex4 h1 h2 h3 h4, parseChars rest2 with
                  | Some u, Some (t, r) => Some (u :: t, r)
                  | _, _ => None
                  end
              | _ => None
              end
            else None
        end
      else if c <? 32 then None
      else
        match parseChars rest with
        | Some (t, r) => Some (c :: t, r)
        | None => None
        end
  end.

(** A number token: an optional minus sign; a single zero or a digit
    string without a leading zero; optionally a point and one or more
    digits; optionally an exponent mark, a sign and one or more digits. *)
Definition parseSign (s : jsstring) : bool * jsstring :=
  match s with
  | c :: t => if c =? 45 then (true, t) else (false, s)
  | [] => (false, s)
  end.

Definition parseInt (s : jsstring) : option (list N * jsstring) :=
  match s with
  | c :: t =>
      if c =? 48 then Some ([0], t)
      else match Num.spanDigits s with
           | ([], _) => None
           | (ds, r) => Some (ds, r)
           end
  | [] => None
  end.

Definition parseFrac (s : jsstring) : option (list N * jsstring) :=
  match s with
  | c :: t =>
      if c =? 46 then
        match Num.spanDigits t with
        | ([], _) => None
        | (f, r) => Some (f, r)
        end
      else Some ([], s)
  | [] => Some ([], s)
  end.

Definition parseExp (s : jsstring) : option (Z * jsstring) :=
  match s with
  | c :: t =>
      if (c =? 101) || (c =? 69) then
        let '(neg, t') := match t with
                          | d :: u => if d =? 45 then (true, u)
                                      else if d =? 43 then (false, u) else (false, t)
                          | [] => (false, t)
                          end in
        match Num.spanDigits t' with
        | ([], _) => None
        | (ds, r) => Some ((if neg then - Num.digitsValue ds else Num.digitsValue ds)%Z, r)
        end
      else Some (0%Z, s)
  | [] => Some (0%Z, s)
  end.

Definition parseNumber (s : jsstring) : option (Num.number * jsstring) :=
  let '(neg, s1) := parseSign s in
  match parseInt s1 with
  | None => None
  | Some (ip, r1) =>
      match parseFrac r1 with
      | None => None
      | Some (fp, r2) =>
          match parseExp r2 with
          | None => None
          | Some (x, r3) =>
              Some (Num.ofDecimal neg (Num.digitsValue (ip ++ fp))
                      (x - Z.of_nat (List.length fp)), r3)
          end
      end
  end.

Definition expect (lit : jsstring) (v : value) (s : jsstring) : option (value * jsstring) :=
  if Num.startsWith lit s then Some (v, skipn (List.length lit) s) else None.

Fixpoint parseValue (fuel : nat) (s : jsstring) {struct fuel} : option (value * jsstring) :=
  match fuel with
  | O => None
  | S f =>
      match skipWs s with
      | [] => None
      | c :: rest =>
          if c =? 123 then
            match skipWs rest with
            | c2 :: r2 =>
                if c2 =? 125 then Some (VObj [], r2)
                else match parseMembers f rest with
                     | Some (ps, r) =>
                         Some (VObj (fold_left (fun acc kv => Js.setProp (fst kv) (snd kv) acc) ps []), r)
                     | None => None
                     end
            | [] => None
            end
          else if c =? 91 then
            match skipWs rest with
            | c2 :: r2 =>
                if c2 =? 93 then Some (VArr [], r2)
                else match parseElements f rest with
                     | Some (vs, r) => Some (VArr vs, r)
                     | None => None
                     end
            | [] => None
            end
          else if c =? 34 then
            match parseChars rest with
            | Some (t, r) => Some (VStr t, r)
            | None => None
            end
          else if c =? 116 then expect (js "true") (VBool true) (c :: rest)
          else if c =? 102 then expect (js "false") (VBool false) (c :: rest)
          else if c =? 110 then expect (js "null") VNull (c :: rest)
          else match parseNumber (c :: rest) with
               | Some (n, r) => Some (VNum n, r)
               | None => None
               end
      end
  end
with parseElements (fuel : nat) (s : jsstring) {struct fuel} : option (list value * jsstring) :=
  match fuel with
  | O => None
  | S f =>
      match parseValue f s with
      | Some (v, r) =>
          match skipWs r with
          | c :: r' =>
              if c =? 44 then
                match parseElements f r' with
                | Some (vs, r'') => Some (v :: vs, r'')
                | None => None
                end
              else if c =? 93 then Some ([v], r')
              else None
          | [] => None
          end
      | None => None
      end
  end
with parseMembers (fuel : nat) (s : jsstring) {struct fuel}
  : option (list (jsstring * value) * jsstring) :=
  match fuel with
  | O => None
  | S f =>
      match skipWs s with
      | q :: s1 =>
          if q =? 34 then
            match parseChars s1 with
            | Some (k, r0) =>
                match skipWs r0 with
                | colon :: r1 =>
                    if colon =? 58 then
                      match parseValue f r1 with
                      | Some (v, r) =>
                          match skipWs r with
                          | c :: r' =>
                              if c =? 44 then
                                match parseMembers f r' with
                                | Some (ps, r'') => Some ((k, v) :: ps, r'')
                                | None => None
                                end
                              else if c =? 125 then Some ([(k, v)], r')
                              else None
                          | [] => None
                          end
                      | None => None
                      end
                    else None
                | [] => None
                end
            | None => None
            end
          else None
      | [] => None
      end
  end.

(** [None] stands for a [SyntaxError]. *)
Definition parse (text : jsstring) : option value :=
  match parseValue (S (List.length text)) text with
  | Some (v, r) => match skipWs r with [] => Some v | _ => None end
  | None => None
  end.

End JSON.

(** ** [new Date(ms).toISOString()] *)

Module DateFmt.

Local Open Scope Z_scope.

Definition pad (width : nat) (n : Z) : jsstring :=
  let ds := Num.decimalN (Z.to_N n) in
  repeat 48%N (width - List.length ds) ++ ds.

(** Year, month and day of a count of days since 1970-01-01. *)
Definition civil (days : Z) : Z * Z * Z :=
  let z := days + 719468 in
  let era := z / 146097 in
  let doe := z mod 146097 in
  let yoe := (doe - doe / 1460 + doe / 36524 - doe / 146096) / 365 in
  let doy := doe - (365 * yoe + yoe / 4 - yoe / 100) in
  let mp := (5 * doy + 2) / 153 in
  let d := doy - (153 * mp + 2) / 5 + 1 in
  let m := if mp <? 10 then mp + 3 else mp - 9 in
  let y := yoe + era * 400 + (if m <=? 2 then 1 else 0) in
  (y, m, d).

Definition toISOString (ms : Z) : jsstring :=
  let '(y, m, d) := civil (ms / 86400000) in
  let t := ms mod 86400000 in
  let year := if y <? 0 then 45%N :: pad 6 (- y)
              else if 9999 <? y then 43%N :: pad 6 y
              else pad 4 y in
  year ++ [45%N] ++ pad 2 m ++ [45%N] ++ pad 2 d ++ [84%N]
    ++ pad 2 (t / 3600000) ++ [58%N] ++ pad 2 (t / 60000 mod 60) ++ [58%N]
    ++ pad 2 (t / 1000 mod 60) ++ [46%N] ++ pad 3 (t mod 1000) ++ [90%N].

End DateFmt.

(** ** The server *)

(** *** Catalog *)

Record CatalogEntry := mkEntry {
  c_asin : jsstring; c_name : jsstring; c_sku : jsstring; c_price : Num.number }.

Record Catalog := mkCatalog { defaultASIN : jsstring; products : list CatalogEntry }.

(** The catalog used when [config/product-catalog.json] cannot be read. *)
Definition fallbackCatalog : Catalog :=
  mkCatalog (js "B08C7KG5LP")
    [mkEntry (js "B08C7KG5LP") (js "Apple AirPods (3rd Generation)") (js "B08C7KG5LP")
             (Num.ofDecimal false 16999 (-2));
     mkEntry (js "B01MTB55WH") (js "Apple AirPods (3rd Gen - Alt Listing)") (js "B01MTB55WH")
             (Num.ofDecimal false 16999 (-2))].

Record AsinValidation := mkValidation {
  valid : bool;
  v_asin : value;
  v_product : option CatalogEntry;
  reason : string;
  suggestions : list jsstring }.

(** *** Requests, responses, and the world around a request *)

Record PurchaseRequest := mkRequest {
  productBlob : option jsstring;
  signature : option jsstring;
  quantity : value;
  shipping : value;
  idempotencyKey : option jsstring;
  priceExpectation : value }.

Record Response := mkResponse { status : N; body : value }.

(** What one call of [fetch] to the order API comes to. *)
Inductive fetchOutcome :=
| Rejected (e : jsError)
| HttpStatus (code : N) (statusText : jsstring) (text : jsstring)
| HttpOk (data : value).

Record Env := mkEnv {
  clock : nat -> Z;
  random36 : nat -> jsstring;
  crossmint : nat -> jsstring -> fetchOutcome;
  process_env : gmap jsstring jsstring;
  catalogFile : option Catalog }.

Record IdempotencyRecord := mkRecord { i_result : value; i_timestamp : Z }.

Record PendingPayment := mkPayment {
  p_asin : value; p_originalAsin : value; p_quantity : value;
  p_product : CatalogEntry; p_totalPrice : Num.number;
  p_createdAt : Z; p_completedAt : Z; p_orderId : value;
  p_trackingInfo : value; p_shipping : value; p_rawCrossmintResponse : value }.

Record State := mkState {
  ticks : nat;
  draws : nat;
  orders : list jsstring;
  idempotencyCache : gmap jsstring IdempotencyRecord;
  pendingPayments : gmap jsstring PendingPayment;
  productCatalog : option Catalog }.

Definition initialState : State := mkState 0 0 [] ∅ ∅ None.

(** *** State and exceptions *)

Definition M (A : Type) : Type := State -> result A * State.

Definition ret {A} (a : A) : M A := fun s => (Ok a, s).
Definition throw {A} (e : jsError) : M A := fun s => (Throw e, s).
Definition lift {A} (r : result A) : M A := fun s => (r, s).
Definition bind {A B} (m : M A) (k : A -> M B) : M B :=
  fun s => match m s with
           | (Ok a, s') => k a s'
           | (Throw e, s') => (Throw e, s')
           end.
Definition catch {A} (m : M A) (handler : jsError -> M A) : M A :=
  fun s => match m s with
           | (Ok a, s') => (Ok a, s')
           | (Throw e, s') => handler e s'
           end.

Notation "x <- m ;; k" := (bind m (fun x => k))
  (at level 90, m at next level, right associativity).
Notation "m ;;; k" := (bind m (fun _ => k))
  (at level 90, right associativity).

Definition Error (msg : jsstring) : jsError := mkError "Error" msg.

(** [Date.now()] and [new Date()] *)
Definition now (env : Env) : M Z :=
  fun s => (Ok (clock env (ticks s)),
            mkState (S (ticks s)) (draws s) (orders s) (idempotencyCache s)
                    (pendingPayments s) (productCatalog s)).

(** [Math.random().toString(36).substr(2, 9)] *)
Definition random (env : Env) : M jsstring :=
  fun s => (Ok (random36 env (draws s)),
            mkState (ticks s) (S (draws s)) (orders s) (idempotencyCache s)
                    (pendingPayments s) (productCatalog s)).

Definition setCache (c : gmap jsstring IdempotencyRecord) : M unit :=
  fun s => (Ok tt, mkState (ticks s) (draws s) (orders s) c (pendingPayments s)
                           (productCatalog s)).

Definition setPayments (p : gmap jsstring PendingPayment) : M unit :=
  fun s => (Ok tt, mkState (ticks s) (draws s) (orders s) (idempotencyCache s) p
                           (productCatalog s)).

Definition setCatalog (c : Catalog) : M unit :=
  fun s => (Ok tt, mkState (ticks s) (draws s) (orders s) (idempotencyCache s)
                           (pendingPayments s) (Some c)).

Definition getState : M State := fun s => (Ok s, s).

(** *** Product catalog management *)

Definition loadProductCatalog (env : Env) : M Catalog :=
  let c := match catalogFile env with Some c => c | None => fallbackCatalog end in
  setCatalog c ;;; ret c.

Definition findAsin (asin : value) (ps : list CatalogEntry) : option CatalogEntry :=
  List.find (fun p => Js.strictEqualsString asin (c_asin p)) ps.

(** The body of [validateAsin] once the catalog is loaded. *)
Definition validateAsinIn (cat : Catalog) (asin : value) : AsinValidation :=
  if negb (Js.ToBoolean asin) then
    mkValidation true (VStr (defaultASIN cat))
      (findAsin (VStr (defaultASIN cat)) (products cat)) "used_default" []
  else
    match findAsin asin (products cat) with
    | Some product => mkValidation true asin (Some product) "found_in_catalog" []
    | None =>
        mkValidation false asin None "not_in_catalog"
          (firstn 3 (List.map c_asin (products cat)))
    end.

Definition validateAsin (env : Env) (asin : value) : M AsinValidation :=
  s <- getState ;;
  cat <- match productCatalog s with
         | Some c => ret c
         | None => loadProductCatalog env
         end ;;
  ret (validateAsinIn cat asin).

(** The catalog a request sees: the loaded one, or the one the first
    validation loads. *)
Definition catalogInEffect (env : Env) (s : State) : Catalog :=
  match productCatalog s with
  | Some c => c
  | None => match catalogFile env with Some c => c | None => fallbackCatalog end
  end.

(** *** Crypto utilities for stateless product signing *)

Definition replaceAll (from to : N) (s : jsstring) : jsstring :=
  List.map (fun c => if c =? from then to else c) s.

Definition removeAll (what : N) (s : jsstring) : jsstring :=
  List.filter (fun c => negb (c =? what)) s.

Definition base64urlEncode (buffer : Buffer) : jsstring :=
  removeAll 61 (replaceAll 47 95 (replaceAll 43 45 (Node.base64Encode buffer))).

Definition base64urlDecode (str : jsstring) : Buffer :=
  let str := str ++ repeat 61 ((4 - List.length str mod 4) mod 4)%nat in
  let str := replaceAll 95 47 (replaceAll 45 43 str) in
  Node.base64Decode str.

Definition SECRET : jsstring := js "PRODUCT_SIGNING_SECRET".

(** [crypto.createHmac('sha256', key).update(data).digest('hex')];
    an absent key is a [TypeError]. *)
Definition hmacHex (key : option jsstring) (data : jsstring) : result jsstring :=
  match key with
  | Some k => Ok (Node.hexEncode (Sha256.hmac (Node.utf8Encode k) (Node.utf8Encode data)))
  | None =>
      Throw (mkError "TypeError"
               (js "The " ++ [34] ++ js "key" ++ [34]
                  ++ js " argument must be of type string or an instance of ArrayBuffer, Buffer, TypedArray, DataView, KeyObject, or CryptoKey. Received undefined"))
  end.

Record SignedProduct := mkSigned { s_productBlob : jsstring; s_signature : jsstring }.

(** [base64urlEncode(Buffer.from(JSON.stringify(product)))]; [None] when
    [JSON.stringify] yields [undefined]. *)
Definition encodeProduct (product : value) : option jsstring :=
  match JSON.stringify product with
  | Some text => Some (base64urlEncode (Node.utf8Encode text))
  | None => None
  end.

Definition signProduct (env : Env) (product : value) : result SignedProduct :=
  match encodeProduct product with
  | None =>
      Throw (mkError "TypeError"
               (js "The first argument must be of type string or an instance of Buffer, ArrayBuffer, or Array or an Array-like Object. Received undefined"))
  | Some blob =>
      match hmacHex (process_env env !! SECRET) blob with
      | Ok sig => Ok (mkSigned blob sig)
      | Throw e => Throw e
      end
  end.

(** The offers that [searchAmazonProducts] signs. *)
Record ProductOffer := mkOffer {
  f_asin : jsstring;
  f_title : jsstring;
  f_url : jsstring;
  f_image : jsstring;
  f_amount : Num.number;
  f_currency : jsstring;
  f_offerId : option jsstring;
  f_source : jsstring;
  f_fetchedAt : jsstring }.

Definition offerValue (o : ProductOffer) : value :=
  VObj [(js "asin", VStr (f_asin o));
        (js "title", VStr (f_title o));
        (js "url", VStr (f_url o));
        (js "image", VStr (f_image o));
        (js "price", VObj [(js "amount", VNum (f_amount o));
                           (js "currency", VStr (f_currency o))]);
        (js "offerId", match f_offerId o with Some i => VStr i | None => VNull end);
        (js "meta", VObj [(js "source", VStr (f_source o));
                          (js "fetchedAt", VStr (f_fetchedAt o))])].

(** [crypto.timingSafeEqual(a, b)] raises a [RangeError] when the two
    buffers differ in length. *)
Definition timingSafeEqual (a b : Buffer) : result bool :=
  if Nat.eqb (List.length a) (List.length b) then Ok (bool_decide (a = b))
  else Throw (mkError "RangeError" (js "Input buffers must have the same byte length")).

Definition verifyProductSignature (env : Env) (productBlob signature : jsstring)
  : result bool :=
  match hmacHex (process_env env !! SECRET) productBlob with
  | Ok expectedSignature =>
      timingSafeEqual (Node.hexDecode signature) (Node.hexDecode expectedSignature)
  | Throw e => Throw e
  end.

Definition decodeProduct (productBlob : jsstring) : result value :=
  match JSON.parse (Node.utf8Decode (base64urlDecode productBlob)) with
  | Some product => Ok product
  | None => Throw (Error (js "Invalid product blob format"))
  end.

(** *** Amazon locator helper *)
Definition toAmazonLocator (p : value) : result jsstring :=
  match Js.get p (js "asin") with
  | Throw e => Throw e
  | Ok asin =>
      if Js.ToBoolean asin then Ok (js "amazon:" ++ Js.ToString asin)
      else match Js.get p (js "url") with
           | Throw e => Throw e
           | Ok url =>
               if Js.ToBoolean url then Ok (js "amazon:" ++ Js.ToString url)
               else Throw (Error (js "No ASIN or URL for productLocator"))
           end
  end.

(** *** Idempotency utilities *)

Definition TTL : Z := 3600000.

Definition checkIdempotency (env : Env) (key : jsstring) : M value :=
  s <- getState ;;
  match idempotencyCache s !! key with
  | Some existing =>
      t <- now env ;;
      if (t - i_timestamp existing <? TTL)%Z then ret (i_result existing)
      else setCache (delete key (idempotencyCache s)) ;;; ret VNull
  | None => ret VNull
  end.

Definition storeIdempotencyResult (env : Env) (key : jsstring) (r : value) : M unit :=
  t <- now env ;;
  s <- getState ;;
  setCache (<[key := mkRecord r t]> (idempotencyCache s)).

(** What the idempotency check of the handler finds for a request that
    arrives in state [s]: the handler reads the clock once for the request
    identifier, then once for the lookup. *)
Definition storedResult (env : Env) (key : option jsstring) (s : State) : option value :=
  match key with
  | Some (c :: k) =>
      match idempotencyCache s !! (c :: k) with
      | Some existing =>
          if (clock env (S (ticks s)) - i_timestamp existing <? TTL)%Z
          then Some (i_result existing) else None
      | None => None
      end
  | _ => None
  end.

(** The body of the [setInterval] callback that runs every 1800000 ms. *)
Definition reaper (env : Env) : M unit :=
  t <- now env ;;
  s <- getState ;;
  setCache (filter (fun kv => (t - i_timestamp (snd kv) < TTL)%Z) (idempotencyCache s)).

Definition REAPER_INTERVAL : Z := 1800000.

(** *** The order API *)

(** [callCrossmintAPI('/orders', { method: 'POST', body })] *)
Definition callCrossmintAPI (env : Env) (requestBody : jsstring) : M value :=
  fun s =>
    let s' := mkState (ticks s) (draws s) (orders s ++ [requestBody])
                      (idempotencyCache s) (pendingPayments s) (productCatalog s) in
    match crossmint env (List.length (orders s)) requestBody with
    | Rejected e => (Throw e, s')
    | HttpStatus code statusText text =>
        (Throw (Error (js "Crossmint API error: " ++ Num.decimalN code ++ js " "
                         ++ statusText ++ js " - " ++ text)), s')
    | HttpOk data => (Ok data, s')
    end.

(** Runtime schema validation for the order response: the order
    identifier and the raw response. *)
Definition validateCrossmintOrderResponse (data : value) : result (value * value) :=
  if negb (Js.ToBoolean data) || negb (Js.typeofObject data) then
    Throw (Error (js "Invalid Crossmint response: not an object"))
  else
    match Js.get data (js "orderId"), Js.get data (js "id"), Js.get data (js "order_id") with
    | Ok a, Ok b, Ok c =>
        let orderId := Js.or (Js.or a b) c in
        if negb (Js.ToBoolean orderId) then
          Throw (Error (js "Invalid Crossmint response: missing order identifier. Response structure: "
                          ++ match JSON.stringify (VArr (List.map VStr (Js.keys data))) with
                             | Some t => t
                             | None => []
                             end))
        else Ok (orderId, data)
    | Throw e, _, _ | _, Throw e, _ | _, _, Throw e => Throw e
    end.

(** *** Standardized error response *)
Definition createErrorResponse (env : Env) (stage code : string) (message : jsstring)
    (details : value) : M value :=
  t <- now env ;;
  ret (VObj [(js "ok", VBool false);
             (js "stage", VStr (js stage));
             (js "code", VStr (js code));
             (js "message", VStr message);
             (js "details",
              VObj (Js.setProp (js "timestamp") (VStr (DateFmt.toISOString t))
                      (Js.spread details [])))]).

Definition demoRecipient : value :=
  VObj [(js "name", VStr (js "Demo Customer"));
        (js "email", VStr (js "customer@example.com"));
        (js "address",
         VObj [(js "line1", VStr (js "123 Test Street"));
               (js "city", VStr (js "San Francisco"));
               (js "state", VStr (js "CA"));
               (js "postalCode", VStr (js "94105"));
               (js "country", VStr (js "US"))])].

Fixpoint includes (needle hay : jsstring) : bool :=
  Num.startsWith needle hay
  || match hay with
     | [] => false
     | _ :: t => includes needle t
     end.

Definition truthyString (o : option jsstring) : bool :=
  match o with
  | Some (_ :: _) => true
  | _ => false
  end.

Definition optionalString (o : option jsstring) : value :=
  match o with Some k => VStr k | None => VUndefined end.

(** *** The purchase endpoint

    The [try] block of the handler, in two parts: steps 1 to 4 check the
    offer and either answer at once or hand the checked offer on; the
    rest creates the order. *)
Record CheckedOffer := mkChecked {
  k_product : value;
  k_asin : value;
  k_title : value;
  k_validation : AsinValidation;
  k_catalogProduct : CatalogEntry }.

Definition catalogOrThrow : M Catalog :=
  s <- getState ;;
  match productCatalog s with
  | Some c => ret c
  | None => throw (Js.cannotRead "null" (js "products"))
  end.

Definition checkOffer (env : Env) (req : PurchaseRequest) (requestId : jsstring)
    (blob sig : jsstring) : M (Response + CheckedOffer) :=
  (* Step 1: verify HMAC signature *)
  ok <- lift (verifyProductSignature env blob sig) ;;
  if negb ok then
    r <- createErrorResponse env "auth" "INVALID_SIGNATURE"
           (js "Product signature verification failed")
           (VObj [(js "requestId", VStr requestId)]) ;;
    ret (inl (mkResponse 400 r))
  else
  (* Step 2: decode and validate product data *)
  match decodeProduct blob with
  | Throw error =>
      r <- createErrorResponse env "validation" "INVALID_PRODUCT_BLOB"
             (js "Failed to decode product data: " ++ err_message error)
             (VObj [(js "requestId", VStr requestId)]) ;;
      ret (inl (mkResponse 400 r))
  | Ok product =>
  asin <- lift (Js.get product (js "asin")) ;;
  title <- lift (Js.get product (js "title")) ;;
  (* Step 3: ASIN validation against product catalog *)
  asinValidation <- validateAsin env asin ;;
  if negb (valid asinValidation) then
    cat <- catalogOrThrow ;;
    r <- createErrorResponse env "catalog.validate" "ASIN_NOT_IN_CATALOG"
           (js "ASIN " ++ Js.ToString asin ++ js " is not in the approved product catalog")
           (VObj [(js "requestId", VStr requestId);
                  (js "providedAsin", asin);
                  (js "suggestions", VArr (List.map VStr (suggestions asinValidation)));
                  (js "availableAsins",
                   VArr (List.map (fun p => VStr (c_asin p)) (products cat)))]) ;;
    ret (inl (mkResponse 400 r))
  else
  (* Use validated ASIN (might be different if defaulted) *)
  match v_product asinValidation with
  | None => throw (Js.cannotRead "undefined" (js "name"))
  | Some catalogProduct =>
  (* Step 4: optional price validation (if priceExpectation provided) *)
  exceeded <-
    (if Js.ToBoolean (priceExpectation req) then
       price <- lift (Js.get product (js "price")) ;;
       amount <- lift (Js.get price (js "amount")) ;;
       expected <- lift (Js.get (priceExpectation req) (js "amount")) ;;
       ret (if Js.gt amount expected then Some (amount, expected) else None)
     else ret None) ;;
  match exceeded with
  | Some (amount, expected) =>
      r <- createErrorResponse env "sku.validate" "PRICE_EXCEEDED"
             (js "Current price $" ++ Js.ToString amount
                ++ js " exceeds expected price $" ++ Js.ToString expected)
             (VObj [(js "requestId", VStr requestId);
                    (js "currentPrice", amount);
                    (js "expectedPrice", expected)]) ;;
      ret (inl (mkResponse 400 r))
  | None => ret (inr (mkChecked product asin title asinValidation catalogProduct))
  end end end.

(** The Crossmint physical-products payload. *)
Definition orderRequest (email name line1 line2 city state postalCode country : value)
    (locator : jsstring) : value :=
  VObj [(js "recipient",
         VObj [(js "email", email);
               (js "physicalAddress",
                VObj [(js "name", name);
                      (js "line1", line1);
                      (js "line2", Js.or line2 (VStr []));
                      (js "city", city);
                      (js "state", state);
                      (js "postalCode", postalCode);
                      (js "country", Js.or country (VStr (js "US")))])]);
        (js "payment",
         VObj [(js "method", VStr (js "solana")); (js "currency", VStr (js "usdc"))]);
        (js "lineItems", VArr [VObj [(js "productLocator", VStr locator)]])].

Definition successResponse (orderId : value) (paymentId : jsstring)
    (asin title quantity amount : value) (totalPrice : jsstring)
    (tracking rawResponse : value) : value :=
  VObj [(js "ok", VBool true);
        (js "orderId", orderId);
        (js "status", VStr (js "confirmed"));
        (js "message", VStr (js "Purchase completed successfully!"));
        (js "order",
         VObj [(js "orderId", orderId);
               (js "paymentId", VStr paymentId);
               (js "asin", asin);
               (js "product", title);
               (js "quantity", quantity);
               (js "unitPrice", amount);
               (js "totalPrice", VNum (Num.parseFloat totalPrice));
               (js "estimatedDelivery", VStr (js "3-5 business days"));
               (js "tracking", tracking)]);
        (js "raw", rawResponse)].

Definition storeIfKeyed (env : Env) (req : PurchaseRequest) (r : value) : M unit :=
  if truthyString (idempotencyKey req)
  then storeIdempotencyResult env (default [] (idempotencyKey req)) r
  else ret tt.

(** What is computed before the order API is called. *)
Record PreparedOrder := mkPrepared {
  o_quantity : value;
  o_amount : value;
  o_totalPrice : jsstring;
  o_paymentId : jsstring;
  o_request : value }.

Definition prepareOrder (env : Env) (req : PurchaseRequest) (c : CheckedOffer)
  : M PreparedOrder :=
  let product := k_product c in
  let quantity := match quantity req with VUndefined => VNum (Num.ofZ 1) | q => q end in
  (* Use validated ASIN (might be different if defaulted) *)
  let validatedAsin := v_asin (k_validation c) in
  price <- lift (Js.get product (js "price")) ;;
  amount <- lift (Js.get price (js "amount")) ;;
  let totalPrice := Num.toFixed2 (Js.times amount quantity) in
  t <- now env ;;
  rnd <- random env ;;
  let paymentId := js "payment_" ++ Num.decimalZ t ++ js "_" ++ rnd in
  (* Use shipping info if available, fallback to demo address *)
  let recipientInfo := Js.or (shipping req) demoRecipient in
  (* Build product locator using validated ASIN *)
  offerId <- lift (Js.get product (js "offerId")) ;;
  let productLocator :=
    VObj ((js "asin", validatedAsin)
            :: (if Js.ToBoolean offerId then [(js "offerId", offerId)] else [])) in
  email <- lift (Js.get recipientInfo (js "email")) ;;
  name <- lift (Js.get recipientInfo (js "name")) ;;
  address <- lift (Js.get recipientInfo (js "address")) ;;
  line1 <- lift (Js.get address (js "line1")) ;;
  line2 <- lift (Js.get address (js "line2")) ;;
  city <- lift (Js.get address (js "city")) ;;
  state <- lift (Js.get address (js "state")) ;;
  postalCode <- lift (Js.get address (js "postalCode")) ;;
  country <- lift (Js.get address (js "country")) ;;
  locator <- lift (toAmazonLocator productLocator) ;;
  ret (mkPrepared quantity amount totalPrice paymentId
         (orderRequest email name line1 line2 city state postalCode country locator)).

(** What follows the answer of the order API. *)
Definition confirmOrder (env : Env) (req : PurchaseRequest) (c : CheckedOffer)
    (p : PreparedOrder) (rawOrderData : value) : M Response :=
  (* Validate and extract orderId from response *)
  validated <- lift (validateCrossmintOrderResponse rawOrderData) ;;
  let '(orderId, rawResponse) := validated in
  (* Store order details *)
  createdAt <- now env ;;
  completedAt <- now env ;;
  tracking <- lift (Js.get rawResponse (js "tracking")) ;;
  s <- getState ;;
  setPayments (<[o_paymentId p :=
                   mkPayment (v_asin (k_validation c)) (k_asin c) (o_quantity p)
                     (k_catalogProduct c) (Num.parseFloat (o_totalPrice p))
                     createdAt completedAt orderId tracking
                     (Js.or (shipping req) VNull) rawResponse]> (pendingPayments s)) ;;;
  (* Create standardized success response *)
  tracking' <- (if Js.ToBoolean tracking then ret tracking
                else t' <- now env ;; ret (VStr (js "TK" ++ Num.decimalZ t'))) ;;
  let response :=
    successResponse orderId (o_paymentId p) (k_asin c) (k_title c) (o_quantity p)
      (o_amount p) (o_totalPrice p) tracking' rawResponse in
  (* Store in idempotency cache if key provided *)
  storeIfKeyed env req response ;;;
  ret (mkResponse 200 response).

Definition createOrder (env : Env) (req : PurchaseRequest) (c : CheckedOffer) : M Response :=
  p <- prepareOrder env req c ;;
  rawOrderData <- callCrossmintAPI env (default [] (JSON.stringify (o_request p))) ;;
  confirmOrder env req c p rawOrderData.

Definition purchaseSteps (env : Env) (req : PurchaseRequest) (requestId : jsstring)
    (blob sig : jsstring) : M Response :=
  checked <- checkOffer env req requestId blob sig ;;
  match checked with
  | inl response => ret response
  | inr c => createOrder env req c
  end.

(** The [catch] block. *)
Definition purchaseFailed (env : Env) (req : PurchaseRequest) (requestId : jsstring)
    (error : jsError) : M Response :=
  let msg := err_message error in
  let '(stage, code, statusCode) :=
    if includes (js "Crossmint API error") msg then
      ("crossmint.createOrder", "CROSSMINT_API_ERROR", 502)%string
    else if includes (js "Invalid Crossmint response") msg then
      ("crossmint.validation", "CROSSMINT_INVALID_RESPONSE", 502)%string
    else if includes (js "Product signature verification failed") msg then
      ("auth", "INVALID_SIGNATURE", 400)%string
    else if includes (js "Invalid product blob") msg then
      ("validation", "INVALID_PRODUCT_BLOB", 400)%string
    else ("unknown", "INTERNAL_ERROR", 500)%string in
  errorResponse <- createErrorResponse env stage code msg
                     (VObj [(js "requestId", VStr requestId);
                            (js "originalError", VStr msg)]) ;;
  (* Store error in idempotency cache if key provided *)
  storeIfKeyed env req errorResponse ;;;
  ret (mkResponse statusCode errorResponse).

(** [app.post('/purchase', ...)] *)
Definition purchase (env : Env) (req : PurchaseRequest) : M Response :=
  t <- now env ;;
  rnd <- random env ;;
  let requestId := js "req_" ++ Num.decimalZ t ++ js "_" ++ rnd in
  (* Validate required fields *)
  match productBlob req, signature req with
  | Some (b :: blob), Some (g :: sig) =>
      (* Check idempotency *)
      existingResult <-
        (if truthyString (idempotencyKey req)
         then checkIdempotency env (default [] (idempotencyKey req))
         else ret VNull) ;;
      if Js.ToBoolean existingResult then ret (mkResponse 200 existingResult)
      else catch (purchaseSteps env req requestId (b :: blob) (g :: sig))
                 (purchaseFailed env req requestId)
  | pb, _ =>
      r <- createErrorResponse env "validation" "MISSING_REQUIRED_FIELDS"
             (js "productBlob and signature are required")
             (VObj [(js "requestId", VStr requestId);
                    (js "missing",
                     VArr [VStr (js (if truthyString pb then "signature" else "productBlob"))])]) ;;
      ret (mkResponse 400 r)
  end.

(** The handler always answers: the response and the state it leaves. *)
Definition handle (env : Env) (req : PurchaseRequest) (s : State) : option Response * State :=
  match purchase env req s with
  | (Ok r, s') => (Some r, s')
  | (Throw _, s') => (None, s')
  end.


(** *** Startup *)

Definition envSet (penv : gmap jsstring jsstring) (key : string) : bool :=
  truthyString (penv !! js key).




(** ** [src/payments/exact.js] *)

Record ExactConfig := mkExact {
  x_scheme : jsstring; x_asset : jsstring; x_chain : jsstring;
  x_recipient : jsstring; x_facilitatorUrl : jsstring }.

Definition envOr (penv : gmap jsstring jsstring) (key : string) (dflt : string) : jsstring :=
  match penv !! js key with
  | Some (c :: v) => c :: v
  | _ => js dflt
  end.

Definition getExactPaymentConfig (env : Env) : result ExactConfig :=
  let penv := process_env env in
  let asset := envOr penv "EXACT_ASSET" "USDC" in
  let chain := envOr penv "EXACT_CHAIN" "solana" in
  (* Fail fast if critical config is missing *)
  match penv !! js "EXACT_RECIPIENT" with
  | Some (c :: recipient) =>
      match penv !! js "FACILITATOR_URL" with
      | Some (d :: url) => Ok (mkExact (js "exact") asset chain (c :: recipient) (d :: url))
      | _ => Throw (Error (js "FACILITATOR_URL environment variable is required for exact payment scheme"))
      end
  | _ => Throw (Error (js "EXACT_RECIPIENT environment variable is required for exact payment scheme"))
  end.

(** [assertExactSchemeOnly()] *)
Definition assertExactSchemeOnly (env : Env) : result unit :=
  match getExactPaymentConfig env with
  | Throw e => Throw e
  | Ok config =>
      if jsstring_eqb (x_scheme config) (js "exact") then Ok tt
      else Throw (Error (js "Invalid payment scheme configuration: expected "
                           ++ [34] ++ js "exact" ++ [34] ++ js ", got " ++ [34]
                           ++ x_scheme config ++ [34]))
  end.

(** ** [src/payments/exact.js], the builders *)

(** Sequencing of computations that may raise. *)
Definition andThen {A B} (r : result A) (k : A -> result B) : result B :=
  match r with
  | Ok a => k a
  | Throw e => Throw e
  end.

Notation "x <~ r ;; k" := (andThen r (fun x => k))
  (at level 90, r at next level, right associativity).

(** [isNaN(x) || x <= 0] *)
Definition notPositive (x : Num.number) : bool :=
  match x with
  | S754_nan => true
  | _ => SFleb x Num.zero
  end.

(** [buildExactAccepts(inputConfig, input = {})] *)
Definition buildExactAccepts (env : Env) (inputConfig input : value) : result value :=
  let input := match input with VUndefined => VObj [] | i => i end in
  paymentConfig <~ getExactPaymentConfig env ;;
  (* Validate required fields *)
  rawAmount <~ Js.get inputConfig (js "amount") ;;
  if negb (Js.ToBoolean rawAmount) then
    Throw (Error (js "Amount is required for exact payment accepts"))
  else
  (* Normalize amount to string with proper decimal formatting *)
  let amount := match rawAmount with
                | VNum n => Num.toFixed2 n
                | v => Js.ToString v
                end in
  (* Validate amount is a valid number *)
  let numericAmount := Num.parseFloat amount in
  if notPositive numericAmount then
    Throw (Error (js "Invalid amount for exact payment: " ++ amount))
  else
  (* Build exact accepts entry *)
  asset <~ Js.get inputConfig (js "asset") ;;
  chain <~ Js.get inputConfig (js "chain") ;;
  recipient <~ Js.get inputConfig (js "recipient") ;;
  let exactEntry :=
    [(js "scheme", VStr (js "exact"));
     (js "amount", VStr amount);
     (js "asset", Js.or asset (VStr (x_asset paymentConfig)));
     (js "chain", Js.or chain (VStr (x_chain paymentConfig)));
     (js "recipient", Js.or recipient (VStr (x_recipient paymentConfig)))] in
  (* Add optional reference if provided *)
  reference <~ Js.get inputConfig (js "reference") ;;
  let exactEntry :=
    if Js.ToBoolean reference then Js.setProp (js "reference") reference exactEntry
    else exactEntry in
  let response :=
    [(js "x402Version", VNum (Num.ofZ 1));
     (js "accepts", VArr [VObj exactEntry])] in
  (* Add optional fields to response *)
  inputPaymentId <~ Js.get input (js "paymentId") ;;
  configPaymentId <~ Js.get inputConfig (js "paymentId") ;;
  let response :=
    if Js.ToBoolean (Js.or inputPaymentId configPaymentId)
    then Js.setProp (js "paymentId") (Js.or inputPaymentId configPaymentId) response
    else response in
  message <~ Js.get input (js "message") ;;
  let response :=
    if Js.ToBoolean message then Js.setProp (js "message") message response
    else response in
  Ok (VObj response).

(** One turn of the loop of [validateExactAccepts]. *)
Definition missingField (entry : value) (field : string) : result unit :=
  v <~ Js.get entry (js field) ;;
  if negb (Js.ToBoolean v) then
    Throw (Error (js "Missing required field " ++ [34] ++ js field ++ [34]
                    ++ js " in exact accepts entry"))
  else Ok tt.

Definition validateExactEntry (entry : value) : result unit :=
  if negb (Js.ToBoolean entry) || negb (Js.typeofObject entry) then
    Throw (Error (js "Invalid accepts entry: must be an object"))
  else
    scheme <~ Js.get entry (js "scheme") ;;
    if negb (Js.strictEqualsString scheme (js "exact")) then
      Throw (Error (js "Invalid scheme in accepts: expected " ++ [34] ++ js "exact" ++ [34]
                      ++ js ", got " ++ [34] ++ Js.ToString scheme ++ [34]))
    else
      (* Validate required fields for exact scheme *)
      _ <~ missingField entry "amount" ;;
      _ <~ missingField entry "asset" ;;
      _ <~ missingField entry "chain" ;;
      missingField entry "recipient".

Fixpoint validateExactEntries (entries : list value) : result unit :=
  match entries with
  | [] => Ok tt
  | entry :: rest => _ <~ validateExactEntry entry ;; validateExactEntries rest
  end.

(** [validateExactAccepts(accepts)] *)
Definition validateExactAccepts (accepts : value) : result unit :=
  match accepts with
  | VArr (entry :: rest) => validateExactEntries (entry :: rest)
  | _ => Throw (Error (js "Accepts array must be non-empty for exact scheme validation"))
  end.

(** [const { amount, paymentId, product, reference } = config] *)
Definition cannotDestructure (what : string) : jsError :=
  mkError "TypeError"
    (js "Cannot destructure property 'amount' of 'config' as it is " ++ js what ++ js ".").

Definition destructurable (config : value) : result unit :=
  match config with
  | VUndefined => Throw (cannotDestructure "undefined")
  | VNull => Throw (cannotDestructure "null")
  | _ => Ok tt
  end.

(** [createExactPaymentResponse(config)] *)
Definition createExactPaymentResponse (env : Env) (config : value) : result value :=
  _ <~ destructurable config ;;
  amount <~ Js.get config (js "amount") ;;
  paymentId <~ Js.get config (js "paymentId") ;;
  product <~ Js.get config (js "product") ;;
  reference <~ Js.get config (js "reference") ;;
  (* Build exact accepts *)
  message <~ (if Js.ToBoolean product then
                title <~ Js.get product (js "title") ;;
                Ok (js "Payment of $" ++ Js.ToString amount ++ js " USDC required for "
                      ++ Js.ToString title)
              else Ok (js "Payment of $" ++ Js.ToString amount ++ js " USDC required")) ;;
  exactResponse <~
    buildExactAccepts env
      (VObj [(js "amount", amount); (js "reference", Js.or reference paymentId)])
      (VObj [(js "paymentId", paymentId); (js "message", VStr message)]) ;;
  (* Add legacy fields for compatibility *)
  let response :=
    Js.setProp (js "currency") (VStr (js "USDC"))
      (Js.setProp (js "amount") (VNum (Num.parseFloat (Js.ToString amount)))
         (Js.setProp (js "error") (VStr (js "Payment Required"))
            (Js.spread exactResponse []))) in
  (* Add product information if provided *)
  let response :=
    if Js.ToBoolean product then Js.setProp (js "product") product response
    else response in
  Ok (VObj response).

(** [getExactHeaders(config)] *)
Definition getExactHeaders (config : value) : result value :=
  _ <~ destructurable config ;;
  amount <~ Js.get config (js "amount") ;;
  paymentId <~ Js.get config (js "paymentId") ;;
  Ok (VObj [(js "Accept", VStr (js "exact"));
            (js "X-Payment-Amount", VStr (Js.ToString amount));
            (js "X-Payment-Currency", VStr (js "USDC"));
            (js "X-Payment-Id", paymentId);
            (js "X-Payment-Schemes", VStr (js "exact"))]).

(** ** [GET /payment/:paymentId] *)




(** ** Product search ([searchAmazonProducts] and [GET /products]) *)

(** What [fetch(serpApiUrl)] followed by [response.json()] comes to. *)
Inductive searchOutcome :=
| SearchRejected (e : jsError)
| SearchData (data : value).

(** The product cache, a [Map] that the search fills, beside the state
    of the server. *)
Record SearchState := mkSearchState {
  server : State;
  productCache : list (value * value) }.

(** [encodeURIComponent]: unreserved characters stay, every other code
    point is written as the percent-escapes of its UTF-8 bytes, and a lone
    surrogate is a [URIError]. *)
Definition uriUnreserved (c : N) : bool :=
  ((65 <=? c) && (c <=? 90)) || ((97 <=? c) && (c <=? 122)) || ((48 <=? c) && (c <=? 57))
  || (c =? 45) || (c =? 95) || (c =? 46) || (c =? 33) || (c =? 126) || (c =? 42)
  || (c =? 39) || (c =? 40) || (c =? 41).

Definition upperHexdigit (n : N) : N := if n <? 10 then 48 + n else 55 + n.

Definition percentEscapes (bytes : Buffer) : jsstring :=
  flat_map (fun x => [37; upperHexdigit (x / 16); upperHexdigit (x mod 16)]) bytes.

Definition uriMalformed : jsError := mkError "URIError" (js "URI malformed").

Fixpoint encodeURIComponent (s : jsstring) : result jsstring :=
  match s with
  | [] => Ok []
  | c :: rest =>
      if uriUnreserved c then
        t <~ encodeURIComponent rest ;; Ok (c :: t)
      else if Node.isHighSurrogate c then
        match rest with
        | d :: rest' =>
            if Node.isLowSurrogate d then
              t <~ encodeURIComponent rest' ;;
              Ok (percentEscapes
                    (Node.utf8OfCodePoint (65536 + (c - 55296) * 1024 + (d - 56320))) ++ t)
            else Throw uriMalformed
        | [] => Throw uriMalformed
        end
      else if Node.isLowSurrogate c then Throw uriMalformed
      else t <~ encodeURIComponent rest ;; Ok (percentEscapes (Node.utf8OfCodePoint c) ++ t)
  end.

(** [parseInt(v)]: leading white space, a sign, [0x] for radix 16, then
    the digits up to the first character that is none. *)
Fixpoint spanRadix (radix : N) (s : jsstring) : list N * jsstring :=
  match s with
  | c :: rest =>
      match Num.radixDigit radix c with
      | Some d => let '(ds, r) := spanRadix radix rest in (d :: ds, r)
      | None => ([], s)
      end
  | [] => ([], [])
  end.

Definition parseInt (v : value) : Num.number :=
  let '(neg, t) := Num.splitSign (Num.trimStart (Js.ToString v)) in
  let '(radix, t) :=
    match t with
    | 48 :: x :: r => if (x =? 120) || (x =? 88) then (16, r) else (10, t)
    | _ => (10, t)
    end in
  match fst (spanRadix radix t) with
  | [] => Num.nan
  | ds => Num.ofDecimal neg (fold_left (fun acc d => Z.of_N radix * acc + Z.of_N d)%Z ds 0%Z) 0
  end.

(** [array.slice(0, end)] keeps this many elements of [len]. *)
Definition sliceCount (len : nat) (limit : value) : nat :=
  match Js.ToNumber limit with
  | S754_nan | S754_zero _ | S754_infinity true => 0
  | S754_infinity false => len
  | S754_finite neg m e =>
      let t := Z.shiftl (Zpos m) e in
      if neg then Z.to_nat (Z.max (Z.of_nat len - t) 0)
      else Z.to_nat (Z.min t (Z.of_nat len))
  end.

(** The callback of the first [map]: a search result normalized to the
    product type. *)
Definition toProduct (env : Env) (item : value) : M value :=
  asin <- lift (Js.get item (js "asin")) ;;
  title <- lift (Js.get item (js "title")) ;;
  linkClean <- lift (Js.get item (js "link_clean")) ;;
  thumbnail <- lift (Js.get item (js "thumbnail")) ;;
  extractedPrice <- lift (Js.get item (js "extracted_price")) ;;
  offerId <- lift (Js.get item (js "offer_id")) ;;
  t <- now env ;;
  ret (VObj [(js "asin", asin);
             (js "title", title);
             (js "url", Js.or linkClean (VStr (js "https://amazon.com/dp/" ++ Js.ToString asin)));
             (js "image", Js.or thumbnail (VStr []));
             (js "price", VObj [(js "amount", Js.or extractedPrice (VNum Num.zero));
                                (js "currency", VStr (js "USD"))]);
             (js "offerId", Js.or offerId VNull);
             (js "meta", VObj [(js "source", VStr (js "serpapi"));
                               (js "fetchedAt", VStr (DateFmt.toISOString t))])]).

Fixpoint mapM {A B} (f : A -> M B) (l : list A) : M (list B) :=
  match l with
  | [] => ret []
  | a :: rest => b <- f a ;; bs <- mapM f rest ;; ret (b :: bs)
  end.

(** [map.set(key, v)]: keys are compared by SameValueZero, and objects
    by identity, which no two keys of the cache share. *)
Definition sameValueZero (a b : value) : bool :=
  match a, b with
  | VUndefined, VUndefined | VNull, VNull => true
  | VBool x, VBool y => Bool.eqb x y
  | VNum S754_nan, VNum S754_nan => true
  | VNum x, VNum y => SFeqb x y
  | VStr x, VStr y => jsstring_eqb x y
  | _, _ => false
  end.

Fixpoint mapSet (key v : value) (m : list (value * value)) : list (value * value) :=
  match m with
  | [] => [(match key with VNum (S754_zero _) => VNum Num.zero | _ => key end, v)]
  | (k, x) :: rest =>
      if sameValueZero k key then (k, v) :: rest else (k, x) :: mapSet key v rest
  end.

(** The second [map]: each product is cached and signed. *)
Fixpoint signAll (env : Env) (products : list value) (cache : list (value * value))
  : result (list value) * list (value * value) :=
  match products with
  | [] => (Ok [], cache)
  | product :: rest =>
      match Js.get product (js "asin") with
      | Throw e => (Throw e, cache)
      | Ok asin =>
          let cache := mapSet asin product cache in
          match signProduct env product with
          | Throw e => (Throw e, cache)
          | Ok signed =>
              match signAll env rest cache with
              | (Ok entries, cache') =>
                  (Ok (VObj [(js "product", product);
                             (js "productBlob", VStr (s_productBlob signed));
                             (js "signature", VStr (s_signature signed))] :: entries),
                   cache')
              | (Throw e, cache') => (Throw e, cache')
              end
          end
      end
  end.

Definition searchFailed {A} (error : jsError) : result A :=
  Throw (Error (js "Amazon search failed: " ++ err_message error)).

(** [searchAmazonProducts(query, limit = 10)] *)
Definition searchAmazonProducts (env : Env) (serp : jsstring -> searchOutcome)
    (query limit : value) (st : SearchState) : result (list value) * SearchState :=
  let limit := match limit with VUndefined => VNum (Num.ofZ 10) | l => l end in
  match process_env env !! js "SERP_API_KEY" with
  | Some (c :: key) =>
      match encodeURIComponent (Js.ToString query) with
      | Throw error => (searchFailed error, st)
      | Ok k =>
          let serpApiUrl :=
            js "https://serpapi.com/search?engine=amazon&k=" ++ k
              ++ js "&amazon_domain=amazon.com&api_key=" ++ c :: key in
          match serp serpApiUrl with
          | SearchRejected error => (searchFailed error, st)
          | SearchData data =>
              match Js.get data (js "organic_results") with
              | Throw error => (searchFailed error, st)
              | Ok organicResults =>
                  if negb (Js.ToBoolean organicResults) then (Ok [], st)
                  else
                    match organicResults with
                    | VArr items =>
                        match mapM (toProduct env) items (server st) with
                        | (Throw error, s') =>
                            (searchFailed error, mkSearchState s' (productCache st))
                        | (Ok products, s') =>
                            let products :=
                              firstn (sliceCount (List.length products) limit) products in
                            (* Cache products for later purchase and return signed data *)
                            match signAll env products (productCache st) with
                            | (Ok entries, cache) => (Ok entries, mkSearchState s' cache)
                            | (Throw error, cache) =>
                                (searchFailed error, mkSearchState s' cache)
                            end
                        end
                    | _ =>
                        (searchFailed
                           (mkError "TypeError"
                              (js "data.organic_results.map is not a function")), st)
                    end
              end
          end
      end
  | _ =>
      (Throw (Error (js "SERP_API_KEY is required for production Amazon search. No demo data available.")),
       st)
  end.


(** * Specification vocabulary

    The predicates and measures in which the properties below are stated. *)

(** A computation respects a relation between the state before and the
    state after when every run of it does. *)
Definition respects {A} (R : State -> State -> Prop) (m : M A) : Prop :=
  forall s r s', m s = (r, s') -> R s s'.

(** The relations used below: the log of order calls, the idempotency
    cache and the catalog in effect are left as they were. *)
Definition sameOrders (s s' : State) : Prop := orders s' = orders s.
Definition sameCache (s s' : State) : Prop := idempotencyCache s' = idempotencyCache s.
Definition sameCatalog (env : Env) (s s' : State) : Prop :=
  catalogInEffect env s' = catalogInEffect env s.

(** The part of the state a validation step may not touch. *)
Definition untouched (env : Env) (s s' : State) : Prop :=
  sameOrders s s' /\ sameCache s s' /\ sameCatalog env s s'.

(** The stage and the code of a rejection. *)
Definition stageOf (r : Response) : option value := Js.getProp (js "stage") match body r with VObj ps => ps | _ => [] end.
Definition codeOf (r : Response) : option value := Js.getProp (js "code") match body r with VObj ps => ps | _ => [] end.

(** The ledger after a handler that stores [r] under the request's key. *)
Definition cacheStored (req : PurchaseRequest) (r : value)
    (c c' : gmap jsstring IdempotencyRecord) : Prop :=
  match idempotencyKey req with
  | Some (x :: k) => exists t, c' = <[x :: k := mkRecord r t]> c
  | _ => c' = c
  end.

(** Step 4 of the handler as a function of the request and the decoded
    offer: the two amounts when the offer's price exceeds the expected
    one. *)
Definition priceCheck (req : PurchaseRequest) (product : value)
  : result (option (value * value)) :=
  if Js.ToBoolean (priceExpectation req) then
    match Js.get product (js "price") with
    | Throw e => Throw e
    | Ok price =>
        match Js.get price (js "amount") with
        | Throw e => Throw e
        | Ok amount =>
            match Js.get (priceExpectation req) (js "amount") with
            | Throw e => Throw e
            | Ok expected =>
                Ok (if Js.gt amount expected then Some (amount, expected) else None)
            end
        end
    end
  else Ok None.

(** The state once the request identifier is made. *)
Definition afterRequestId (s : State) : State :=
  mkState (S (ticks s)) (S (draws s)) (orders s) (idempotencyCache s)
          (pendingPayments s) (productCatalog s).

Definition requestIdOf (env : Env) (s : State) : jsstring :=
  js "req_" ++ Num.decimalZ (clock env (ticks s)) ++ js "_" ++ random36 env (draws s).

Definition lookup (env : Env) (req : PurchaseRequest) : M value :=
  if truthyString (idempotencyKey req)
  then checkIdempotency env (default [] (idempotencyKey req))
  else ret VNull.

(** The ledger once the lookup found nothing to replay. *)
Definition cacheAfterMiss (req : PurchaseRequest) (c : gmap jsstring IdempotencyRecord)
  : gmap jsstring IdempotencyRecord :=
  match idempotencyKey req with
  | Some (x :: k) => delete (x :: k) c
  | _ => c
  end.


(** The sextets of a buffer, as [base64Encode] cuts them. *)
Fixpoint sextetsOf (b : Buffer) : list N :=
  match b with
  | [] => []
  | [x] => [x / 4; (x mod 4) * 16]
  | [x; y] => [x / 4; (x mod 4) * 16 + y / 16; (y mod 16) * 4]
  | x :: y :: z :: rest =>
      x / 4 :: (x mod 4) * 16 + y / 16 :: (y mod 16) * 4 + z / 64 :: z mod 64
        :: sextetsOf rest
  end.

(** A character of the encoder, made URL-safe and made standard again,
    reads back as its sextet. *)
Definition urlChar (n : N) : N :=
  let c := Node.b64char n in
  let c := if c =? 43 then 45 else c in
  if c =? 47 then 95 else c.

Definition stdChar (c : N) : N :=
  let c := if c =? 45 then 43 else c in
  if c =? 95 then 47 else c.

(** Text without a lone surrogate. *)
Inductive wellFormed : jsstring -> Prop :=
| wf_nil : wellFormed []
| wf_unit c s :
    c < 65536 -> Node.isHighSurrogate c = false -> Node.isLowSurrogate c = false ->
    wellFormed s -> wellFormed (c :: s)
| wf_pair hi lo s :
    Node.isHighSurrogate hi = true -> Node.isLowSurrogate lo = true ->
    wellFormed s -> wellFormed (hi :: lo :: s).

(** The characters that can follow a value inside an array or an object. *)
Definition isDelim (c : N) : bool := (c =? 44) || (c =? 93) || (c =? 125).

Definition delimited (rest : jsstring) : Prop :=
  match rest with
  | [] => True
  | c :: _ => isDelim c = true
  end.

(** The part of the text a parser consumed. *)
Definition consumed (s r : jsstring) (ok : N -> bool) : Prop :=
  exists pre, s = pre ++ r /\ Forall (fun c => ok c = true) pre.

Definition numberChar (c : N) : bool :=
  Num.isDigit c || (c =? 45) || (c =? 43) || (c =? 46) || (c =? 101) || (c =? 69).

Definition unitsOk (s : jsstring) : bool := forallb (fun c => c <? 65536) s.

(** A number that prints to a token which reads back as the same number:
    every finite number other than [-0] in JavaScript. *)
Definition readable (n : Num.number) : bool :=
  match JSON.parseNumber (Num.toString n) with
  | Some (n', []) => Num.isFinite n && Num.eqb n' n
  | _ => false
  end.

Definition plainKey (k : jsstring) : bool :=
  match Js.arrayIndex k with
  | None => true
  | Some _ => false
  end.

Fixpoint distinctKeys (ks : list jsstring) : bool :=
  match ks with
  | [] => true
  | k :: rest => negb (existsb (jsstring_eqb k) rest) && distinctKeys rest
  end.

(** JSON data: no [undefined], strings of code units, readable numbers,
    objects with distinct keys of which none is an array index. *)
Fixpoint jsonOk (v : value) : bool :=
  match v with
  | VUndefined => false
  | VNull | VBool _ => true
  | VNum n => readable n
  | VStr s => unitsOk s
  | VArr l =>
      (fix all (l : list value) : bool :=
         match l with
         | [] => true
         | e :: r => jsonOk e && all r
         end) l
  | VObj ps =>
      (fix all (ps : list (jsstring * value)) : bool :=
         match ps with
         | [] => true
         | (k, e) :: r => unitsOk k && plainKey k && jsonOk e && all r
         end) ps
      && distinctKeys (List.map fst ps)
  end.

Fixpoint size (v : value) : nat :=
  match v with
  | VArr l =>
      S ((fix sum (l : list value) : nat :=
            match l with
            | [] => 0%nat
            | e :: r => (S (size e) + sum r)%nat
            end) l)
  | VObj ps =>
      S ((fix sum (ps : list (jsstring * value)) : nat :=
            match ps with
            | [] => 0%nat
            | (_, e) :: r => (S (size e) + sum r)%nat
            end) ps)
  | _ => 1%nat
  end.

Definition sizes (l : list value) : nat :=
  fold_right (fun e acc => S (size e) + acc)%nat 0%nat l.

Definition texts (l : list value) : list jsstring :=
  List.map (fun e => default (js "null") (JSON.stringify e)) l.

Fixpoint members (ps : list (jsstring * value)) : list jsstring :=
  match ps with
  | [] => []
  | (k, e) :: r =>
      match JSON.stringify e with
      | Some t => (JSON.quote k ++ [58] ++ t) :: members r
      | None => members r
      end
  end.

Definition headOk (text : jsstring) : Prop :=
  exists c t, text = c :: t /\ JSON.isWs c = false /\ c <> 93 /\ c <> 125.

Definition roundtrips (v : value) : Prop :=
  exists text,
    JSON.stringify v = Some text
    /\ wellFormed text
    /\ (size v <= List.length text)%nat
    /\ headOk text
    /\ forall fuel rest, (size v <= fuel)%nat -> delimited rest ->
         JSON.parseValue fuel (text ++ rest) = Some (v, rest).

(** A valid offer: its strings are strings of code units and its amount
    is a number that prints and reads back. *)
Definition validOffer (o : ProductOffer) : bool :=
  unitsOk (f_asin o) && unitsOk (f_title o) && unitsOk (f_url o) && unitsOk (f_image o)
  && readable (f_amount o) && unitsOk (f_currency o)
  && match f_offerId o with Some i => unitsOk i | None => true end
  && unitsOk (f_source o) && unitsOk (f_fetchedAt o).

(** ** Vocabulary for the signing utilities *)

(** A hex letter in upper case. *)
Definition hexUpper (c : N) : N := if (97 <=? c) && (c <=? 102) then c - 32 else c.

(** The characters of [digest('hex')]. *)
Definition isLowerHex (c : N) : bool :=
  ((48 <=? c) && (c <=? 57)) || ((97 <=? c) && (c <=? 102)).

(** The characters of a base64url text without padding. *)
Definition isUrlSafe (c : N) : bool :=
  ((65 <=? c) && (c <=? 90)) || ((97 <=? c) && (c <=? 122))
  || ((48 <=? c) && (c <=? 57)) || (c =? 45) || (c =? 95).

(** ** Vocabulary for the payment builders *)

(** The own property [k] of an object. *)
Definition field (v : value) (k : string) : option value :=
  match v with
  | VObj props => Js.getProp (js k) props
  | _ => None
  end.

(** An entry that [validateExactAccepts] lets pass: an object with the
    scheme [exact] and the four required fields. *)
Definition truthyField (v : value) (k : string) : bool :=
  match field v k with
  | Some x => Js.ToBoolean x
  | None => false
  end.

Definition exactEntryOk (entry : value) : bool :=
  match field entry "scheme" with
  | Some scheme => Js.strictEqualsString scheme (js "exact")
  | None => false
  end
  && truthyField entry "amount" && truthyField entry "asset"
  && truthyField entry "chain" && truthyField entry "recipient".

(** ** Vocabulary for the order phase *)

Definition samePayments (s s' : State) : Prop := pendingPayments s' = pendingPayments s.

(** The stage, the code and the status that the [catch] block gives to an
    error message. *)
Definition failureClass (msg : jsstring) : string * string * N :=
  if includes (js "Crossmint API error") msg then
    ("crossmint.createOrder", "CROSSMINT_API_ERROR", 502)%string
  else if includes (js "Invalid Crossmint response") msg then
    ("crossmint.validation", "CROSSMINT_INVALID_RESPONSE", 502)%string
  else if includes (js "Product signature verification failed") msg then
    ("auth", "INVALID_SIGNATURE", 400)%string
  else if includes (js "Invalid product blob") msg then
    ("validation", "INVALID_PRODUCT_BLOB", 400)%string
  else ("unknown", "INTERNAL_ERROR", 500)%string.

(** The result kept for a key in the ledger. *)
Definition keptResult (s : State) (key : option jsstring) : option value :=
  match key with
  | Some (x :: k) => option_map i_result (idempotencyCache s !! (x :: k))
  | _ => None
  end.

(** ** Vocabulary for the search *)

(** An entry of a search answer whose signature the purchase endpoint
    will accept for its token. *)
Definition signedEntry (env : Env) (entry : value) : Prop :=
  exists product signed,
    entry = VObj [(js "product", product);
                  (js "productBlob", VStr (s_productBlob signed));
                  (js "signature", VStr (s_signature signed))]
    /\ signProduct env product = Ok signed
    /\ verifyProductSignature env (s_productBlob signed) (s_signature signed) = Ok true.

(** ** A sample deployment

    One environment and a few requests, for the concrete runs among the
    properties. The clock advances by one millisecond at each reading, and
    the order API accepts every order. *)
Definition sampleEnv : Env :=
  mkEnv (fun n => 1700000000000 + Z.of_nat n)%Z
        (fun _ => js "k3j9x0q2m")
        (fun _ _ => HttpOk (VObj [(js "id", VStr (js "order_42"))]))
        (<[js "PRODUCT_SIGNING_SECRET" := js "s3cret"]> (<[js "SERP_API_KEY" := js "serp"]> ∅))
        None.

(** The same, with the recipient and the facilitator of
    [src/payments/exact.js] configured, and neither asset nor chain. *)
Definition paymentEnv : Env :=
  mkEnv (clock sampleEnv) (random36 sampleEnv) (crossmint sampleEnv)
        (<[js "FACILITATOR_URL" := js "https://facilitator.example"]>
           (<[js "EXACT_RECIPIENT" := js "9xQeWvG816bUx9EPjHmaT23yvVM2ZWbrrpZb9PusVFin"]>
              (process_env sampleEnv)))
        None.

Definition sampleOffer : ProductOffer :=
  mkOffer (js "B08C7KG5LP") (js "Apple AirPods (3rd Generation)")
          (js "https://www.amazon.com/dp/B08C7KG5LP")
          (js "https://m.media-amazon.com/images/I/61SUj2aKoEL.jpg")
          (Num.ofDecimal false 16999 (-2)) (js "USD") None
          (js "serpapi") (js "2024-01-15T10:30:00.000Z").

(** An offer for an identifier that the catalog does not list. *)
Definition unlistedOffer : ProductOffer :=
  mkOffer (js "B000000000") (js "Unlisted headphones")
          (js "https://www.amazon.com/dp/B000000000")
          (js "https://m.media-amazon.com/images/I/none.jpg")
          (Num.ofDecimal false 200 0) (js "USD") None
          (js "serpapi") (js "2024-01-15T10:30:00.000Z").

(** The request of a client that submits an offer as [signProduct] signed
    it. *)
Definition signedRequest (env : Env) (o : ProductOffer) (key : option jsstring)
    (expectation : value) : PurchaseRequest :=
  match signProduct env (offerValue o) with
  | Ok signed =>
      mkRequest (Some (s_productBlob signed)) (Some (s_signature signed))
                VUndefined VUndefined key expectation
  | Throw _ => mkRequest None None VUndefined VUndefined key expectation
  end.

Definition tokenOf (req : PurchaseRequest) : jsstring := default [] (productBlob req).
Definition signatureOf (req : PurchaseRequest) : jsstring := default [] (signature req).

Definition keyedRequest : PurchaseRequest :=
  signedRequest sampleEnv sampleOffer (Some (js "retry-1")) VUndefined.

(** The same token under a signature of the right length that is not the
    token's. *)
Definition forgedRequest : PurchaseRequest :=
  mkRequest (productBlob keyedRequest) (Some (repeat 48 64))
            VUndefined VUndefined (Some (js "retry-1")) VUndefined.

(** The same token under a signature of four hex digits. *)
Definition shortSignatureRequest : PurchaseRequest :=
  mkRequest (productBlob keyedRequest) (Some (js "abcd"))
            VUndefined VUndefined None VUndefined.

(** Requests that expect to pay at most 100. *)
Definition cappedRequest (o : ProductOffer) : PurchaseRequest :=
  signedRequest sampleEnv o None (VObj [(js "amount", VNum (Num.ofZ 100))]).

(** A ledger with one record past its window and one within it, as the
    clock of [sampleEnv] reads at first. *)
Definition staleState : State :=
  mkState 0 0 []
          (<[js "retry-1" := mkRecord (VObj [(js "ok", VBool true)]) 1699996399999]>
             (<[js "retry-2" := mkRecord (VObj [(js "ok", VBool false)]) 1699999999000]> ∅))
          ∅ None.

(** A request without a signature, under a key for which the ledger holds
    a live record. *)
Definition unsignedRequest : PurchaseRequest :=
  mkRequest (productBlob keyedRequest) None VUndefined VUndefined
            (Some (js "retry-2")) VUndefined.

(** The answer to a first submission, and the state it leaves. *)
Definition answerTo (req : PurchaseRequest) (s : State) : Response :=
  default (mkResponse 500 VNull) (fst (handle sampleEnv req s)).
Definition stateAfter (req : PurchaseRequest) (s : State) : State :=
  snd (handle sampleEnv req s).

(** ** Further sample requests and deployments *)

(** A token that is no JSON text, under its own signature. *)
Definition garbledRequest : PurchaseRequest :=
  mkRequest (Some (js "bm90IGpzb24"))
            (match hmacHex (process_env sampleEnv !! SECRET) (js "bm90IGpzb24") with
             | Ok sig => Some sig
             | Throw _ => None
             end)
            VUndefined VUndefined None VUndefined.

(** The sample deployment in front of an order API that answers every
    call with [outcome]. *)
Definition envAnswering (outcome : fetchOutcome) : Env :=
  mkEnv (clock sampleEnv) (random36 sampleEnv) (fun _ _ => outcome)
        (process_env sampleEnv) (catalogFile sampleEnv).

Definition unavailableEnv : Env :=
  envAnswering (HttpStatus 503 (js "Service Unavailable") (js "upstream down")).
Definition queuedEnv : Env :=
  envAnswering (HttpOk (VObj [(js "status", VStr (js "queued"))])).
Definition offlineEnv : Env :=
  envAnswering (Rejected (mkError "TypeError" (js "fetch failed"))).

(** The answer to a request in any of these deployments, the state it
    leaves, and the text of the last order call. *)
Definition answerIn (env : Env) (req : PurchaseRequest) (s : State) : Response :=
  default (mkResponse 500 VNull) (fst (handle env req s)).
Definition stateIn (env : Env) (req : PurchaseRequest) (s : State) : State :=
  snd (handle env req s).
Definition lastOrder (s : State) : jsstring := List.last (orders s) [].

(** A search service that knows three results, of which the last has no
    identifier. *)
Definition sampleResults : value :=
  VObj [(js "organic_results",
         VArr [VObj [(js "asin", VStr (js "B08C7KG5LP"));
                     (js "title", VStr (js "Apple AirPods (3rd Generation)"));
                     (js "link_clean", VStr (js "https://www.amazon.com/dp/B08C7KG5LP"));
                     (js "extracted_price", VNum (Num.ofDecimal false 16999 (-2)))];
               VObj [(js "asin", VStr (js "B01MTB55WH"));
                     (js "title", VStr (js "Apple AirPods (3rd Gen - Alt Listing)"))];
               VObj [(js "title", VStr (js "Sponsored"))]])].

Definition sampleSerp : jsstring -> searchOutcome := fun _ => SearchData sampleResults.

Definition emptySearchState : SearchState := mkSearchState initialState [].

Definition foundEntries (query limit : value) : list value :=
  match fst (searchAmazonProducts sampleEnv sampleSerp query limit emptySearchState) with
  | Ok entries => entries
  | Throw _ => []
  end.

(** A request for a payment challenge, and the answer built for it. *)
Definition samplePaymentRequest : value :=
  VObj [(js "amount", VNum (Num.ofDecimal false 16999 (-2)));
        (js "paymentId", VStr (js "payment_1"))].

Definition samplePaymentAnswer : value :=
  match createExactPaymentResponse paymentEnv samplePaymentRequest with
  | Ok response => response
  | Throw _ => VNull
  end.

(** * Properties *)

Example hex_truncates : Node.hexDecode (js "abzz12") = [171].
Proof. reflexivity. Qed.

Example base64_hello : Node.base64Encode (Node.utf8Encode (js "{}")) = js "e30=".
Proof. reflexivity. Qed.

Example base64_lenient : Node.base64Decode (js "e*3 0=ignored") = js "{}".
Proof. reflexivity. Qed.

Example utf8_roundtrip_sample :
  Node.utf8Decode (Node.utf8Encode [233; 8482; 55357; 56832]) = [233; 8482; 55357; 56832].
Proof. reflexivity. Qed.

Example sha256_abc :
  Node.hexEncode (Sha256.sha256 (js "abc"))
  = js "ba7816bf8f01cfea414140de5dae2223b00361a396177a9cb410ff61f20015ad".
Proof. vm_compute. reflexivity. Qed.

Example sha256_two_blocks :
  Node.hexEncode (Sha256.sha256 (js "abcdbcdecdefdefgefghfghighijhijkijkljklmklmnlmnomnopnopq"))
  = js "248d6a61d20638b8e5c026930c3e6039a33ce45964ff2167f6ecedd419db06c1".
Proof. vm_compute. reflexivity. Qed.

Example hmac_sha256_fox :
  Node.hexEncode (Sha256.hmac (js "key") (js "The quick brown fox jumps over the lazy dog"))
  = js "f7bc83f430538424b13298e6aa6fb143ef4d59a14946175997479dbc2d1a3cd8".
Proof. vm_compute. reflexivity. Qed.

Example num_169_99 :
  Num.ofDecimal false 16999 (-2) = S754_finite false 0x153FAE147AE148 (-45).
Proof. vm_compute. reflexivity. Qed.

Example num_print_samples :
  List.map Num.toString
    [Num.ofDecimal false 16999 (-2); Num.ofDecimal false 1 (-1);
     Num.mul (Num.ofDecimal false 1 (-1)) (Num.ofZ 3);
     Num.ofDecimal false 1 21; Num.ofDecimal false 1 (-7);
     Num.ofDecimal false 123456789012345678901 0;
     Num.ofDecimal true 1 (-6); Num.ofDecimal false 5 (-324);
     Num.ofDecimal false 17976931348623157 292; Num.ofZ 100;
     Num.ofDecimal false 9007199254740993 0; Num.ofDecimal false 15 (-1)]
  = List.map js
    ["169.99"; "0.1"; "0.30000000000000004"; "1e+21"; "1e-7";
     "123456789012345680000"; "-0.000001"; "5e-324";
     "1.7976931348623157e+308"; "100"; "9007199254740992"; "1.5"]%string.
Proof. vm_compute. reflexivity. Qed.

Example num_toFixed_samples :
  List.map Num.toFixed2
    [Num.mul (Num.ofDecimal false 16999 (-2)) (Num.ofZ 3);
     Num.ofDecimal false 1005 (-3); Num.ofDecimal false 125 (-3);
     Num.ofDecimal true 1 (-3); Num.ofZ 7; Num.nan]
  = List.map js ["509.97"; "1.00"; "0.13"; "-0.00"; "7.00"; "NaN"]%string.
Proof. vm_compute. reflexivity. Qed.

Example num_read_samples :
  List.map Num.ofString (List.map js [" 12.5e1 "; "0x1F"; ""; "12px"; "-.5"; "5."]%string)
  = [Num.ofZ 125; Num.ofZ 31; Num.zero; Num.nan; Num.ofDecimal true 5 (-1); Num.ofZ 5]
  /\ Num.parseFloat (js "509.97") = Num.ofDecimal false 50997 (-2)
  /\ Num.parseFloat (js "12px") = Num.ofZ 12.
Proof. vm_compute. repeat split. Qed.

Example json_parse_sample :
  JSON.parse (jsq "{ 'b': [1, 2.5, true, null], '10': 'xA\n', '2': {}, 'b': -0 }")
  = Some (VObj [(js "2", VObj []); (js "10", VStr [120; 65; 10]);
                (js "b", VNum (S754_zero true))]).
Proof. vm_compute. reflexivity. Qed.

Example json_parse_numbers :
  List.map JSON.parse (List.map js ["-0.5e+2"; "0"; "10E-1"; " 7 "; "1.25"]%string)
  = List.map (fun n => Some (VNum n))
      [Num.ofZ (-50); Num.zero; Num.ofZ 1; Num.ofZ 7; Num.ofDecimal false 125 (-2)].
Proof. vm_compute. reflexivity. Qed.

Example json_parse_rejects :
  List.map JSON.parse
    (List.map js ["{"; "[1,]"; "01"; "1."; "1e"; "nul"; "{} x"; ""; "'a'"; "1e+"; "-"; ".5"; "+1"]%string)
  = repeat None 13.
Proof. vm_compute. reflexivity. Qed.

Example json_stringify_sample :
  JSON.stringify (VObj [(js "a", VUndefined); (js "b", VArr [VUndefined; VNum Num.nan; VStr [34; 7; 55357]]);
                        (js "c", VNum (Num.ofDecimal false 16999 (-2)))])
  = Some (jsq "{'b':[null,null,'\'\u0007\ud83d'],'c':169.99}").
Proof. vm_compute. reflexivity. Qed.

Example iso_samples :
  DateFmt.toISOString 0 = js "1970-01-01T00:00:00.000Z"
  /\ DateFmt.toISOString 1700000000123 = js "2023-11-14T22:13:20.123Z"
  /\ DateFmt.toISOString 951782400000 = js "2000-02-29T00:00:00.000Z".
Proof. vm_compute. repeat split. Qed.

(** ** The monad *)

Lemma bind_inv {A B} (m : M A) (k : A -> M B) s r s' :
  bind m k s = (r, s') ->
  (exists a s1, m s = (Ok a, s1) /\ k a s1 = (r, s'))
  \/ (exists e, m s = (Throw e, s') /\ r = Throw e).
Proof.
  unfold bind. destruct (m s) as [[a | e] s1]; intros H.
  - left. eauto.
  - right. inversion H; subst. eauto.
Qed.

Lemma bind_ok {A B} (m : M A) (k : A -> M B) s a s1 :
  m s = (Ok a, s1) -> bind m k s = k a s1.
Proof. unfold bind. intros ->. reflexivity. Qed.

Lemma bind_throw {A B} (m : M A) (k : A -> M B) s e s1 :
  m s = (Throw e, s1) -> bind m k s = (Throw e, s1).
Proof. unfold bind. intros ->. reflexivity. Qed.

Section Respects.
Variable R : State -> State -> Prop.
Hypothesis R_refl : forall s, R s s.
Hypothesis R_trans : forall a b c, R a b -> R b c -> R a c.

Lemma respects_ret {A} (a : A) : respects R (ret a).
Proof. intros s r s' H. inversion H; subst. apply R_refl. Qed.

Lemma respects_throw {A} e : respects R (@throw A e).
Proof. intros s r s' H. inversion H; subst. apply R_refl. Qed.

Lemma respects_lift {A} (x : result A) : respects R (lift x).
Proof. intros s r s' H. inversion H; subst. apply R_refl. Qed.

Lemma respects_getState : respects R getState.
Proof. intros s r s' H. inversion H; subst. apply R_refl. Qed.

Lemma respects_bind {A B} (m : M A) (k : A -> M B) :
  respects R m -> (forall a, respects R (k a)) -> respects R (bind m k).
Proof.
  intros Hm Hk s r s' H.
  destruct (bind_inv _ _ _ _ _ H) as [(a & s1 & H1 & H2) | (e & H1 & _)].
  - eapply R_trans; [eapply Hm | eapply Hk]; eauto.
  - eapply Hm; eauto.
Qed.

Lemma respects_catch {A} (m : M A) (h : jsError -> M A) :
  respects R m -> (forall e, respects R (h e)) -> respects R (catch m h).
Proof.
  intros Hm Hh s r s' H. unfold catch in H.
  destruct (m s) as [[a | e] s1] eqn:E.
  - inversion H; subst. eapply Hm; eauto.
  - eapply R_trans; [eapply Hm | eapply Hh]; eauto.
Qed.
End Respects.

Lemma untouched_refl env s : untouched env s s.
Proof. repeat split. Qed.

Lemma untouched_trans env a b c : untouched env a b -> untouched env b c -> untouched env a c.
Proof.
  unfold untouched, sameOrders, sameCache, sameCatalog.
  intros (H1 & H2 & H3) (H4 & H5 & H6). repeat split; congruence.
Qed.

Create HintDb handler.
#[local] Hint Resolve untouched_refl untouched_trans : handler.

Lemma now_untouched env : respects (untouched env) (now env).
Proof. intros s r s' H. inversion H; subst. repeat split. Qed.

Lemma random_untouched env : respects (untouched env) (random env).
Proof. intros s r s' H. inversion H; subst. repeat split. Qed.

Lemma setPayments_untouched env p : respects (untouched env) (setPayments p).
Proof. intros s r s' H. inversion H; subst. repeat split. Qed.

Lemma createErrorResponse_untouched env stage code msg details :
  respects (untouched env) (createErrorResponse env stage code msg details).
Proof.
  unfold createErrorResponse.
  apply respects_bind; eauto with handler.
  - apply now_untouched.
  - intros t. apply respects_ret; eauto with handler.
Qed.

Lemma validateAsin_run env asin s :
  exists s', validateAsin env asin s = (Ok (validateAsinIn (catalogInEffect env s) asin), s')
             /\ productCatalog s' = Some (catalogInEffect env s)
             /\ orders s' = orders s
             /\ idempotencyCache s' = idempotencyCache s
             /\ ticks s' = ticks s.
Proof.
  unfold validateAsin, catalogInEffect, bind, getState, loadProductCatalog, bind, setCatalog, ret.
  destruct s as [t d o c p [cat |]]; simpl; eauto 10.
Qed.

Lemma validateAsin_untouched env asin : respects (untouched env) (validateAsin env asin).
Proof.
  intros s r s' H.
  destruct (validateAsin_run env asin s) as (s1 & E & Hc & Ho & Hi & _).
  rewrite E in H. inversion H; subst.
  repeat split; try assumption.
  unfold sameCatalog. unfold catalogInEffect at 1. rewrite Hc. reflexivity.
Qed.


(** ** The idempotency ledger *)

Lemma checkIdempotency_expired env s key existing :
  idempotencyCache s !! key = Some existing ->
  (TTL <= clock env (ticks s) - i_timestamp existing)%Z ->
  exists s', checkIdempotency env key s = (Ok VNull, s')
             /\ idempotencyCache s' = delete key (idempotencyCache s)
             /\ orders s' = orders s
             /\ productCatalog s' = productCatalog s.
Proof.
  intros Hget Hold.
  unfold checkIdempotency, bind, getState. rewrite Hget. unfold now.
  destruct (Z.ltb_spec (clock env (ticks s) - i_timestamp existing) TTL) as [Hlt | _];
    [lia |].
  simpl. eauto.
Qed.

Lemma checkIdempotency_live env s key existing :
  idempotencyCache s !! key = Some existing ->
  (clock env (ticks s) - i_timestamp existing < TTL)%Z ->
  exists s', checkIdempotency env key s = (Ok (i_result existing), s')
             /\ idempotencyCache s' = idempotencyCache s
             /\ orders s' = orders s
             /\ ticks s' = S (ticks s)
             /\ draws s' = draws s
             /\ productCatalog s' = productCatalog s.
Proof.
  intros Hget Hlive.
  unfold checkIdempotency, bind, getState. rewrite Hget. unfold now.
  destruct (Z.ltb_spec (clock env (ticks s) - i_timestamp existing) TTL) as [_ | Hge];
    [| lia].
  simpl. eauto 10.
Qed.

Lemma checkIdempotency_none env s key :
  idempotencyCache s !! key = None ->
  checkIdempotency env key s = (Ok VNull, s).
Proof.
  intros Hget. unfold checkIdempotency, bind, getState. rewrite Hget. reflexivity.
Qed.

Lemma reaper_run env s :
  exists s', reaper env s = (Ok tt, s')
    /\ idempotencyCache s'
       = filter (fun kv => (clock env (ticks s) - i_timestamp (snd kv) < TTL)%Z)
                (idempotencyCache s)
    /\ orders s' = orders s.
Proof. unfold reaper, bind, now, getState, setCache. simpl. eauto. Qed.

(** C5: once more than 3600 seconds (3600000 ms) have passed since a
    record was stored, [checkIdempotency] answers as for an absent key (and
    drops the record), and a run of the reaper removes the record on its
    own, with no request for that key, keeping every record that is still
    within its window. *)
Theorem expired_record_absent_and_reaped (env : Env) (s : State) (key : jsstring)
    (existing : IdempotencyRecord) :
  idempotencyCache s !! key = Some existing ->
  (TTL < clock env (ticks s) - i_timestamp existing)%Z ->
  (exists s', checkIdempotency env key s = (Ok VNull, s')
              /\ idempotencyCache s' !! key = None)
  /\ (exists s', reaper env s = (Ok tt, s')
                 /\ idempotencyCache s' !! key = None
                 /\ orders s' = orders s
                 /\ forall k r, idempotencyCache s !! k = Some r ->
                      (clock env (ticks s) - i_timestamp r < TTL)%Z ->
                      idempotencyCache s' !! k = Some r).
Proof.
  intros Hget Hold. split.
  - destruct (checkIdempotency_expired env s key existing Hget) as (s' & E & Hc & _); [lia |].
    exists s'. split; [exact E |]. rewrite Hc. apply lookup_delete_eq.
  - destruct (reaper_run env s) as (s' & E & Hc & Ho).
    exists s'. repeat split; try assumption.
    + rewrite Hc. apply map_lookup_filter_None. right.
      intros r Hr. rewrite Hget in Hr. inversion Hr; subst. simpl. lia.
    + intros k r Hk Hlive. rewrite Hc. apply map_lookup_filter_Some. split; assumption.
Qed.

(** ** Required fields *)

Lemma createErrorResponse_run env stage code msg details s :
  exists r s',
    createErrorResponse env stage code msg details s = (Ok r, s')
    /\ r = VObj [(js "ok", VBool false); (js "stage", VStr (js stage));
                 (js "code", VStr (js code)); (js "message", VStr msg);
                 (js "details",
                  VObj (Js.setProp (js "timestamp")
                          (VStr (DateFmt.toISOString (clock env (ticks s))))
                          (Js.spread details [])))]
    /\ ticks s' = S (ticks s) /\ draws s' = draws s
    /\ orders s' = orders s /\ idempotencyCache s' = idempotencyCache s
    /\ productCatalog s' = productCatalog s.
Proof. unfold createErrorResponse, bind, now, ret. simpl. eauto 12. Qed.

Lemma purchase_missing_run (env : Env) (req : PurchaseRequest) (s : State) :
  truthyString (productBlob req) = false \/ truthyString (signature req) = false ->
  exists r s',
    purchase env req s = (Ok r, s')
    /\ status r = 400
    /\ stageOf r = Some (VStr (js "validation"))
    /\ codeOf r = Some (VStr (js "MISSING_REQUIRED_FIELDS"))
    /\ idempotencyCache s' = idempotencyCache s
    /\ orders s' = orders s
    /\ ticks s' = S (S (ticks s)).
Proof.
  intros Hmissing.
  assert (Hrej : forall details s2,
    ticks s2 = S (ticks s) -> idempotencyCache s2 = idempotencyCache s ->
    orders s2 = orders s ->
    exists r s', (r0 <- createErrorResponse env "validation" "MISSING_REQUIRED_FIELDS"
                         (js "productBlob and signature are required") details ;;
                  ret (mkResponse 400 r0)) s2 = (Ok r, s')
      /\ status r = 400
      /\ stageOf r = Some (VStr (js "validation"))
      /\ codeOf r = Some (VStr (js "MISSING_REQUIRED_FIELDS"))
      /\ idempotencyCache s' = idempotencyCache s
      /\ orders s' = orders s
      /\ ticks s' = S (S (ticks s))).
  { intros details s2 Ht2 Hc2 Ho2.
    destruct (createErrorResponse_run env "validation" "MISSING_REQUIRED_FIELDS"
                (js "productBlob and signature are required") details s2)
      as (r0 & s' & E & -> & Ht & _ & Ho & Hc & _).
    rewrite (bind_ok _ _ _ _ _ E). unfold ret.
    eexists; eexists. split; [reflexivity |].
    repeat split; try congruence; vm_compute; reflexivity. }
  unfold purchase, bind at 1, now. unfold bind at 1, random.
  destruct (productBlob req) as [[| b blob] |]; try (apply Hrej; reflexivity);
    destruct (signature req) as [[| g sig] |]; try (apply Hrej; reflexivity).
  simpl in Hmissing. destruct Hmissing; discriminate.
Qed.

(** C10: a request without [productBlob] or without [signature] is
    answered 400 with stage [validation] and code
    [MISSING_REQUIRED_FIELDS], and the idempotency ledger is neither read
    nor changed, whatever it holds for the submitted key; only the clock
    is read, for the request identifier and the time stamp of the answer. *)
Theorem missing_fields_rejected_before_ledger (env : Env) (req : PurchaseRequest) (s : State) :
  truthyString (productBlob req) = false \/ truthyString (signature req) = false ->
  exists r s',
    purchase env req s = (Ok r, s')
    /\ status r = 400
    /\ stageOf r = Some (VStr (js "validation"))
    /\ codeOf r = Some (VStr (js "MISSING_REQUIRED_FIELDS"))
    /\ idempotencyCache s' = idempotencyCache s
    /\ orders s' = orders s
    /\ ticks s' = S (S (ticks s)).
Proof. exact (purchase_missing_run env req s). Qed.

(** ** Signatures *)

Ltac ncases :=
  repeat match goal with
    | |- context [(?a <=? ?b)%N] => destruct (N.leb_spec a b)
    | |- context [(?a <? ?b)%N] => destruct (N.ltb_spec a b)
    | |- context [(?a =? ?b)%N] => destruct (N.eqb_spec a b)
    end; simpl; try lia.

Lemma unhex_hexdigit d : d < 16 -> Node.unhex (Node.hexdigit d) = Some d.
Proof.
  intros Hd. unfold Node.hexdigit.
  destruct (N.ltb_spec d 10).
  - unfold Node.unhex. rewrite N.mod_small by lia. ncases. f_equal. lia.
  - unfold Node.unhex. rewrite N.mod_small by lia. ncases. f_equal. lia.
Qed.

Lemma hexDecode_hexEncode (b : Buffer) :
  Forall is_byte b -> Node.hexDecode (Node.hexEncode b) = b.
Proof.
  induction 1 as [| x b Hx Hb IH]; [reflexivity |].
  unfold is_byte in Hx.
  change (Node.hexEncode (x :: b))
    with (Node.hexdigit (x / 16) :: Node.hexdigit (x mod 16) :: Node.hexEncode b).
  cbn [Node.hexDecode].
  rewrite (unhex_hexdigit (x / 16)) by (apply N.Div0.div_lt_upper_bound; lia).
  rewrite (unhex_hexdigit (x mod 16)) by (apply N.mod_lt; lia).
  rewrite IH. f_equal. rewrite (N.div_mod x 16) at 3 by lia. reflexivity.
Qed.

Lemma sha256_length msg : List.length (Sha256.sha256 msg) = 32%nat.
Proof. reflexivity. Qed.

Lemma sha256_bytes msg : Forall is_byte (Sha256.sha256 msg).
Proof.
  unfold Sha256.sha256, Sha256.digest_of, Sha256.be_bytes. cbn [flat_map seq rev app List.map].
  repeat (constructor; [apply N.mod_lt; discriminate |]). constructor.
Qed.

Lemma hmacHex_decodes key data :
  Node.hexDecode (Node.hexEncode (Sha256.hmac key data)) = Sha256.hmac key data
  /\ List.length (Sha256.hmac key data) = 32%nat.
Proof.
  split; [apply hexDecode_hexEncode; apply sha256_bytes | apply sha256_length].
Qed.

(** C2 (what the code does): when the submitted signature does not hex-decode
    to exactly 32 bytes (a wrong length, or hex digits cut short by a
    character that is not a hex digit), [verifyProductSignature] does not
    answer [false]: [crypto.timingSafeEqual] raises a [RangeError]. *)
Theorem verifyProductSignature_raises_on_length (env : Env) (secret blob sig : jsstring) :
  process_env env !! SECRET = Some secret ->
  List.length (Node.hexDecode sig) <> 32%nat ->
  verifyProductSignature env blob sig
  = Throw (mkError "RangeError" (js "Input buffers must have the same byte length")).
Proof.
  intros Hsecret Hlen.
  unfold verifyProductSignature. rewrite Hsecret. unfold hmacHex.
  destruct (hmacHex_decodes (Node.utf8Encode secret) (Node.utf8Encode blob)) as [-> Hl].
  unfold timingSafeEqual. rewrite Hl.
  destruct (Nat.eqb_spec (List.length (Node.hexDecode sig)) 32); [contradiction | reflexivity].
Qed.

(** With a signature of the right length the answer is a boolean: [true]
    exactly for the expected signature's bytes. *)
Lemma verifyProductSignature_boolean (env : Env) (secret blob sig : jsstring) :
  process_env env !! SECRET = Some secret ->
  List.length (Node.hexDecode sig) = 32%nat ->
  verifyProductSignature env blob sig
  = Ok (bool_decide (Node.hexDecode sig
                     = Sha256.hmac (Node.utf8Encode secret) (Node.utf8Encode blob))).
Proof.
  intros Hsecret Hlen.
  unfold verifyProductSignature. rewrite Hsecret. unfold hmacHex.
  destruct (hmacHex_decodes (Node.utf8Encode secret) (Node.utf8Encode blob)) as [-> Hl].
  unfold timingSafeEqual. rewrite Hl, Hlen. reflexivity.
Qed.

(** ** Startup and configuration *)



(** ** The purchase handler, step by step *)

Ltac untouched_tac env :=
  repeat first
    [ apply (respects_ret (untouched env) (untouched_refl env))
    | apply (respects_throw (untouched env) (untouched_refl env))
    | apply (respects_lift (untouched env) (untouched_refl env))
    | apply (respects_getState (untouched env) (untouched_refl env))
    | apply now_untouched
    | apply random_untouched
    | apply setPayments_untouched
    | apply createErrorResponse_untouched
    | apply validateAsin_untouched
    | apply (respects_bind (untouched env) (untouched_trans env)); [| intros ?]
    | match goal with
      | |- respects _ (if ?b then _ else _) => destruct b
      | |- respects _ (match ?x with _ => _ end) => destruct x
      end ].

Lemma catalogOrThrow_untouched env : respects (untouched env) catalogOrThrow.
Proof. unfold catalogOrThrow. untouched_tac env. Qed.

Lemma checkOffer_untouched env req rid blob sig :
  respects (untouched env) (checkOffer env req rid blob sig).
Proof.
  unfold checkOffer.
  repeat first [ apply catalogOrThrow_untouched | progress untouched_tac env ].
Qed.

Lemma prepareOrder_untouched env req c : respects (untouched env) (prepareOrder env req c).
Proof. unfold prepareOrder. untouched_tac env. Qed.

Lemma callCrossmintAPI_run env text s r s' :
  callCrossmintAPI env text s = (r, s') ->
  orders s' = orders s ++ [text]
  /\ idempotencyCache s' = idempotencyCache s
  /\ catalogInEffect env s' = catalogInEffect env s.
Proof.
  unfold callCrossmintAPI. intros H.
  destruct (crossmint env (List.length (orders s)) text); inversion H; subst; repeat split.
Qed.

Lemma storeIfKeyed_run env req r s :
  exists s', storeIfKeyed env req r s = (Ok tt, s')
             /\ orders s' = orders s
             /\ cacheStored req r (idempotencyCache s) (idempotencyCache s').
Proof.
  unfold storeIfKeyed, cacheStored.
  destruct (idempotencyKey req) as [[| x k] |]; simpl;
    try (exists s; repeat split; reflexivity).
  unfold storeIdempotencyResult, bind, now, getState, setCache. simpl.
  eexists. repeat split. eexists. reflexivity.
Qed.

Lemma confirmOrder_run env req c p raw s r s' :
  confirmOrder env req c p raw s = (r, s') ->
  orders s' = orders s
  /\ ((exists e, r = Throw e /\ idempotencyCache s' = idempotencyCache s)
      \/ (exists resp, r = Ok (mkResponse 200 resp) /\ Js.ToBoolean resp = true
                       /\ cacheStored req resp (idempotencyCache s) (idempotencyCache s'))).
Proof.
  unfold confirmOrder. intros H.
  destruct (validateCrossmintOrderResponse raw) as [[orderId rawResponse] | e] eqn:E.
  2:{ unfold bind, lift in H. inversion H; subst. split; [reflexivity |]. left. eauto. }
  unfold bind at 1, lift in H. unfold bind at 1, now in H. unfold bind at 1, now in H.
  destruct (Js.get rawResponse (js "tracking")) as [tracking | e] eqn:Et.
  2:{ unfold bind, lift in H. inversion H; subst. split; [reflexivity |]. left. eauto. }
  unfold bind at 1, lift in H. unfold bind at 1, getState in H.
  unfold bind at 1, setPayments in H.
  cbn [ticks draws orders idempotencyCache pendingPayments productCatalog] in H.
  match type of H with
  | bind ?m _ ?s0 = _ =>
      assert (Htr : exists tr s1, m s0 = (Ok tr, s1) /\ orders s1 = orders s
                                  /\ idempotencyCache s1 = idempotencyCache s)
  end.
  { destruct (Js.ToBoolean tracking).
    - eexists; eexists. split; [reflexivity |]. split; reflexivity.
    - eexists; eexists. split; [reflexivity |]. split; reflexivity. }
  destruct Htr as (tr & s1 & Htr & Ho1 & Hc1).
  rewrite (bind_ok _ _ _ _ _ Htr) in H.
  match type of H with
  | bind (storeIfKeyed env req ?resp) _ _ = _ =>
      destruct (storeIfKeyed_run env req resp s1) as (s2 & Hst & Ho2 & Hc2)
  end.
  rewrite (bind_ok _ _ _ _ _ Hst) in H. unfold ret in H. inversion H; subst.
  split; [congruence |]. right. eexists. split; [reflexivity |]. split; [reflexivity |].
  rewrite <- Hc1. exact Hc2.
Qed.



Lemma priceCheck_lift (req : PurchaseRequest) (product : value) :
  (if Js.ToBoolean (priceExpectation req) then
     price <- lift (Js.get product (js "price")) ;;
     amount <- lift (Js.get price (js "amount")) ;;
     expected <- lift (Js.get (priceExpectation req) (js "amount")) ;;
     ret (if Js.gt amount expected then Some (amount, expected) else None)
   else ret None)
  = lift (priceCheck req product).
Proof.
  unfold priceCheck.
  destruct (Js.ToBoolean (priceExpectation req)); [| reflexivity].
  destruct (Js.get product (js "price")) as [price | e]; [| reflexivity].
  unfold bind at 1, lift at 1.
  destruct (Js.get price (js "amount")) as [amount | e]; [| reflexivity].
  unfold bind at 1, lift at 1.
  destruct (Js.get (priceExpectation req) (js "amount")) as [expected | e]; reflexivity.
Qed.

Lemma lift_run {A} (x : result A) s : lift x s = (x, s).
Proof. reflexivity. Qed.

Lemma rejection_is_inl env stage code msg details status s c s' :
  (r <- createErrorResponse env stage code msg details ;;
   ret (inl (mkResponse status r) : Response + CheckedOffer)) s = (Ok (inr c), s') -> False.
Proof.
  destruct (createErrorResponse_run env stage code msg details s) as (r & s1 & E & _).
  rewrite (bind_ok _ _ _ _ _ E). unfold ret. discriminate.
Qed.

(** What a checked offer is: the signature verified, the token decoded,
    the identifier passed the catalog with an entry, and the price did not
    exceed the expectation. *)
Lemma checkOffer_inr env req rid blob sig s c s' :
  checkOffer env req rid blob sig s = (Ok (inr c), s') ->
  verifyProductSignature env blob sig = Ok true
  /\ decodeProduct blob = Ok (k_product c)
  /\ Js.get (k_product c) (js "asin") = Ok (k_asin c)
  /\ k_validation c = validateAsinIn (catalogInEffect env s) (k_asin c)
  /\ valid (k_validation c) = true
  /\ v_product (k_validation c) = Some (k_catalogProduct c)
  /\ priceCheck req (k_product c) = Ok None.
Proof.
  unfold checkOffer. intros H.
  destruct (verifyProductSignature env blob sig) as [[|] | e] eqn:Ev;
    unfold bind at 1 in H; rewrite lift_run in H; cbn [negb] in H;
    try (exfalso; first [discriminate H | eapply rejection_is_inl; exact H]).
  destruct (decodeProduct blob) as [product | e] eqn:Ed;
    try (exfalso; first [discriminate H | eapply rejection_is_inl; exact H]).
  destruct (Js.get product (js "asin")) as [asin | e] eqn:Ea;
    unfold bind at 1 in H; rewrite lift_run in H; try discriminate.
  destruct (Js.get product (js "title")) as [title | e] eqn:Et;
    unfold bind at 1 in H; rewrite lift_run in H; try discriminate.
  destruct (validateAsin_run env asin s) as (s1 & E & _).
  rewrite (bind_ok _ _ _ _ _ E) in H.
  destruct (valid (validateAsinIn (catalogInEffect env s) asin)) eqn:Hv; cbn [negb] in H.
  2:{ exfalso. apply bind_inv in H. destruct H as [(cat & s2 & _ & H) | (e & _ & He)];
        [| discriminate].
      eapply rejection_is_inl. exact H. }
  destruct (v_product (validateAsinIn (catalogInEffect env s) asin)) as [entry |] eqn:Hp;
    [| discriminate].
  rewrite priceCheck_lift in H.
  unfold bind at 1 in H; rewrite lift_run in H.
  destruct (priceCheck req product) as [[[amount expected] |] | e] eqn:Hc;
    try (exfalso; first [discriminate H | eapply rejection_is_inl; exact H]).
  unfold ret in H. inversion H; subst. simpl. repeat split; assumption.
Qed.





Lemma purchase_present env req s b blob g sig :
  productBlob req = Some (b :: blob) ->
  signature req = Some (g :: sig) ->
  purchase env req s
  = (existingResult <- lookup env req ;;
     if Js.ToBoolean existingResult then ret (mkResponse 200 existingResult)
     else catch (purchaseSteps env req (requestIdOf env s) (b :: blob) (g :: sig))
                (purchaseFailed env req (requestIdOf env s))) (afterRequestId s).
Proof.
  intros Hb Hs. unfold purchase. unfold bind at 1, now. unfold bind at 1, random.
  rewrite Hb, Hs. reflexivity.
Qed.

Lemma lookup_run env req s :
  exists existing s2,
    lookup env req (afterRequestId s) = (Ok existing, s2)
    /\ orders s2 = orders s
    /\ catalogInEffect env s2 = catalogInEffect env s
    /\ match storedResult env (idempotencyKey req) s with
       | Some r => existing = r /\ idempotencyCache s2 = idempotencyCache s
                   /\ ticks s2 = S (S (ticks s))
       | None => existing = VNull
                 /\ idempotencyCache s2 = cacheAfterMiss req (idempotencyCache s)
       end.
Proof.
  unfold lookup, storedResult, cacheAfterMiss.
  destruct (idempotencyKey req) as [[| x k] |]; cbn [truthyString default];
    try (exists VNull, (afterRequestId s); repeat split; reflexivity).
  destruct (idempotencyCache s !! (x :: k)) as [existing |] eqn:Hget.
  - destruct (Z.ltb_spec (clock env (S (ticks s)) - i_timestamp existing) TTL) as [Hlive | Hold].
    + destruct (checkIdempotency_live env (afterRequestId s) (x :: k) existing Hget Hlive)
        as (s2 & E & Hc & Ho & Ht & _ & Hcat).
      exists (i_result existing), s2. repeat split; try assumption.
      unfold catalogInEffect. rewrite Hcat. reflexivity.
    + destruct (checkIdempotency_expired env (afterRequestId s) (x :: k) existing Hget Hold)
        as (s2 & E & Hc & Ho & Hcat).
      exists VNull, s2. repeat split; try assumption.
      unfold catalogInEffect. rewrite Hcat. reflexivity.
  - change (checkIdempotency env _ (afterRequestId s))
      with (checkIdempotency env (x :: k) (afterRequestId s)).
    rewrite (checkIdempotency_none env (afterRequestId s) (x :: k) Hget).
    exists VNull, (afterRequestId s). repeat split.
    symmetry. apply delete_id. exact Hget.
Qed.




Lemma purchase_missing_orders env req s :
  truthyString (productBlob req) = false \/ truthyString (signature req) = false ->
  orders (snd (purchase env req s)) = orders s.
Proof.
  intros H. destruct (purchase_missing_run env req s H) as (r & s' & E & _ & _ & _ & _ & Ho & _).
  rewrite E. exact Ho.
Qed.

Lemma fields_present_or_missing (req : PurchaseRequest) :
  (exists b blob g sig, productBlob req = Some (b :: blob) /\ signature req = Some (g :: sig))
  \/ truthyString (productBlob req) = false \/ truthyString (signature req) = false.
Proof.
  destruct (productBlob req) as [[| b blob] |]; cbn [truthyString]; auto.
  destruct (signature req) as [[| g sig] |]; cbn [truthyString]; auto.
  left. eauto 6.
Qed.






(** ** The offer codec: base64url *)

Ltac Zify.zify_post_hook ::= Z.to_euclidean_division_equations.

Lemma triples_ind (P : Buffer -> Prop) :
  P [] -> (forall x, P [x]) -> (forall x y, P [x; y]) ->
  (forall x y z rest, P rest -> P (x :: y :: z :: rest)) ->
  forall b, P b.
Proof.
  intros H0 H1 H2 H3.
  assert (H : forall b, P b /\ (forall x, P (x :: b)) /\ (forall x y, P (x :: y :: b))).
  { induction b as [| z b (IH0 & IH1 & IH2)]; [auto |].
    split; [apply IH1 |]. split; [intros x; apply IH2 |].
    intros x y. apply H3. exact IH0. }
  intros b. apply H.
Qed.

Lemma urlChar_reads_back n :
  n < 64 ->
  urlChar n <> 61 /\ Node.unbase64 (stdChar (urlChar n) mod 256) = Some n.
Proof.
  intros Hn. unfold urlChar, stdChar, Node.b64char.
  destruct (N.ltb_spec n 26); [| destruct (N.ltb_spec n 52); [| destruct (N.ltb_spec n 62);
    [| destruct (N.eqb_spec n 62)]]].
  - replace (65 + n =? 43) with false by (symmetry; apply N.eqb_neq; lia).
    replace (65 + n =? 47) with false by (symmetry; apply N.eqb_neq; lia).
    replace (65 + n =? 45) with false by (symmetry; apply N.eqb_neq; lia).
    replace (65 + n =? 95) with false by (symmetry; apply N.eqb_neq; lia).
    split; [lia |]. rewrite N.mod_small by lia. unfold Node.unbase64.
    ncases. f_equal. lia.
  - replace (71 + n =? 43) with false by (symmetry; apply N.eqb_neq; lia).
    replace (71 + n =? 47) with false by (symmetry; apply N.eqb_neq; lia).
    replace (71 + n =? 45) with false by (symmetry; apply N.eqb_neq; lia).
    replace (71 + n =? 95) with false by (symmetry; apply N.eqb_neq; lia).
    split; [lia |]. rewrite N.mod_small by lia. unfold Node.unbase64.
    ncases. f_equal. lia.
  - replace (n - 4 =? 43) with false by (symmetry; apply N.eqb_neq; lia).
    replace (n - 4 =? 47) with false by (symmetry; apply N.eqb_neq; lia).
    replace (n - 4 =? 45) with false by (symmetry; apply N.eqb_neq; lia).
    replace (n - 4 =? 95) with false by (symmetry; apply N.eqb_neq; lia).
    split; [lia |]. rewrite N.mod_small by lia. unfold Node.unbase64.
    ncases. f_equal. lia.
  - subst n. split; [discriminate | reflexivity].
  - assert (n = 63) as -> by lia. split; [discriminate | reflexivity].
Qed.

Lemma sextetsOf_bound b : Forall is_byte b -> Forall (fun n => n < 64) (sextetsOf b).
Proof.
  unfold is_byte. induction b as [| x | x y | x y z rest IH] using triples_ind; intros Hb.
  - constructor.
  - inversion Hb; subst. cbn [sextetsOf]. repeat constructor; lia.
  - inversion Hb as [| ? ? Hx Hb']; subst. inversion Hb'; subst.
    cbn [sextetsOf]. repeat constructor; lia.
  - inversion Hb as [| ? ? Hx Hb1]; subst. inversion Hb1 as [| ? ? Hy Hb2]; subst.
    inversion Hb2 as [| ? ? Hz Hb3]; subst.
    cbn [sextetsOf]. repeat (constructor; [lia |]). apply IH. exact Hb3.
Qed.

Lemma base64urlEncode_chars b :
  Forall is_byte b -> base64urlEncode b = List.map urlChar (sextetsOf b).
Proof.
  unfold base64urlEncode, removeAll, replaceAll.
  assert (Hone : forall n tail, n < 64 ->
    List.filter (fun c => negb (c =? 61))
      (List.map (fun c => if c =? 47 then 95 else c)
         (List.map (fun c => if c =? 43 then 45 else c) (Node.b64char n :: tail)))
    = urlChar n
        :: List.filter (fun c => negb (c =? 61))
             (List.map (fun c => if c =? 47 then 95 else c)
                (List.map (fun c => if c =? 43 then 45 else c) tail))).
  { intros n tail Hn. cbn [List.map List.filter].
    destruct (urlChar_reads_back n Hn) as [Hne _]. fold (urlChar n).
    destruct (N.eqb_spec (urlChar n) 61); [contradiction | reflexivity]. }
  unfold is_byte. induction b as [| x | x y | x y z rest IH] using triples_ind; intros Hb.
  - reflexivity.
  - inversion Hb; subst. cbn [Node.base64Encode sextetsOf].
    rewrite !Hone by lia. reflexivity.
  - inversion Hb as [| ? ? Hx Hb']; subst. inversion Hb'; subst.
    cbn [Node.base64Encode sextetsOf]. rewrite !Hone by lia. reflexivity.
  - inversion Hb as [| ? ? Hx Hb1]; subst. inversion Hb1 as [| ? ? Hy Hb2]; subst.
    inversion Hb2 as [| ? ? Hz Hb3]; subst.
    cbn [Node.base64Encode sextetsOf]. rewrite !Hone by lia.
    rewrite (IH Hb3). reflexivity.
Qed.

Lemma base64Sextets_padding k : Node.base64Sextets (repeat 61 k) = [].
Proof. destruct k; reflexivity. Qed.

Lemma base64Sextets_urlChars (ns : list N) (k : nat) :
  Forall (fun n => n < 64) ns ->
  Node.base64Sextets (List.map stdChar (List.map urlChar ns ++ repeat 61 k)) = ns.
Proof.
  induction 1 as [| n ns Hn Hns IH].
  - cbn [List.map app]. replace (List.map stdChar (repeat 61 k)) with (repeat 61 k).
    + apply base64Sextets_padding.
    + induction k; [reflexivity |]. cbn [repeat List.map]. rewrite <- IHk. reflexivity.
  - cbn [List.map app Node.base64Sextets].
    destruct (urlChar_reads_back n Hn) as [_ ->]. rewrite IH. reflexivity.
Qed.

Lemma replaceAll_std (s : jsstring) :
  replaceAll 95 47 (replaceAll 45 43 s) = List.map stdChar s.
Proof. unfold replaceAll. rewrite List.map_map. reflexivity. Qed.

Lemma base64Bytes_sextetsOf b : Forall is_byte b -> Node.base64Bytes (sextetsOf b) = b.
Proof.
  unfold is_byte. induction b as [| x | x y | x y z rest IH] using triples_ind; intros Hb.
  - reflexivity.
  - inversion Hb; subst. cbn [sextetsOf Node.base64Bytes]. f_equal. lia.
  - inversion Hb as [| ? ? Hx Hb']; subst. inversion Hb'; subst.
    cbn [sextetsOf Node.base64Bytes]. f_equal; [lia |]. f_equal. lia.
  - inversion Hb as [| ? ? Hx Hb1]; subst. inversion Hb1 as [| ? ? Hy Hb2]; subst.
    inversion Hb2 as [| ? ? Hz Hb3]; subst.
    cbn [sextetsOf Node.base64Bytes]. rewrite (IH Hb3).
    f_equal; [lia |]. f_equal; [lia |]. f_equal. lia.
Qed.

(** [base64urlDecode] undoes [base64urlEncode]. *)
Lemma base64url_roundtrip (b : Buffer) :
  Forall is_byte b -> base64urlDecode (base64urlEncode b) = b.
Proof.
  intros Hb. unfold base64urlDecode, Node.base64Decode.
  rewrite replaceAll_std, (base64urlEncode_chars b Hb).
  rewrite base64Sextets_urlChars by (apply sextetsOf_bound; exact Hb).
  apply base64Bytes_sextetsOf. exact Hb.
Qed.

Lemma stdChar_padding k : List.map stdChar (repeat 61 k) = repeat 61 k.
Proof. induction k; [reflexivity |]. cbn [repeat List.map]. rewrite IHk. reflexivity. Qed.

Lemma base64Sextets_ignore_padding (s : jsstring) (k : nat) :
  Node.base64Sextets (s ++ repeat 61 k) = Node.base64Sextets s.
Proof.
  induction s as [| c s IH]; [apply base64Sextets_padding |].
  cbn [app Node.base64Sextets]. rewrite IH. reflexivity.
Qed.

(** Padding is optional: [base64urlDecode] pads the token itself, and
    further padding changes nothing. *)
Lemma base64urlDecode_padding (s : jsstring) (k : nat) :
  base64urlDecode (s ++ repeat 61 k) = base64urlDecode s.
Proof.
  unfold base64urlDecode, Node.base64Decode. cbv zeta.
  rewrite !replaceAll_std, !List.map_app, !stdChar_padding.
  rewrite <- app_assoc, <- repeat_app, !base64Sextets_ignore_padding. reflexivity.
Qed.

(** A character outside the alphabet is skipped. *)
Lemma base64urlDecode_skips (a b : jsstring) (c : N) :
  Node.unbase64 (c mod 256) = None -> c mod 256 <> 61 ->
  base64urlDecode (a ++ c :: b) = base64urlDecode (a ++ b).
Proof.
  intros Hc Hpad. unfold base64urlDecode, Node.base64Decode. cbv zeta.
  rewrite !replaceAll_std, !List.map_app, !stdChar_padding, !base64Sextets_ignore_padding.
  f_equal. change (List.map stdChar (c :: b)) with (stdChar c :: List.map stdChar b).
  induction a as [| x a IH].
  - cbn [List.map app Node.base64Sextets].
    assert (stdChar c = c) as ->.
    { unfold stdChar. destruct (N.eqb_spec c 45) as [-> | _]; [discriminate Hc |].
      destruct (N.eqb_spec c 95) as [-> | _]; [discriminate Hc | reflexivity]. }
    rewrite Hc. destruct (N.eqb_spec (c mod 256) 61); [contradiction | reflexivity].
  - cbn [List.map app Node.base64Sextets]. rewrite IH. reflexivity.
Qed.

(** ** The offer codec: UTF-8 *)

Lemma wellFormed_app a b : wellFormed a -> wellFormed b -> wellFormed (a ++ b).
Proof.
  induction 1; intros Hb; cbn [app]; [exact Hb | apply wf_unit | apply wf_pair]; auto.
Qed.

Lemma surrogate_tests c :
  (Node.isHighSurrogate c = true <-> 55296 <= c < 56320)
  /\ (Node.isLowSurrogate c = true <-> 56320 <= c < 57344).
Proof.
  unfold Node.isHighSurrogate, Node.isLowSurrogate.
  split; (split; [intros H; apply andb_prop in H; destruct H as [H1 H2];
                  apply N.leb_le in H1; apply N.ltb_lt in H2; lia
                 | intros [H1 H2]; apply andb_true_intro; split;
                   [apply N.leb_le | apply N.ltb_lt]; lia]).
Qed.

Ltac nbool :=
  repeat match goal with
    | |- context [(?a <=? ?b)%N] =>
        first [ replace (a <=? b) with true by (symmetry; apply N.leb_le; lia)
              | replace (a <=? b) with false by (symmetry; apply N.leb_gt; lia) ]
    | |- context [(?a <? ?b)%N] =>
        first [ replace (a <? b) with true by (symmetry; apply N.ltb_lt; lia)
              | replace (a <? b) with false by (symmetry; apply N.ltb_ge; lia) ]
    | |- context [(?a =? ?b)%N] =>
        first [ replace (a =? b) with true by (symmetry; apply N.eqb_eq; lia)
              | replace (a =? b) with false by (symmetry; apply N.eqb_neq; lia) ]
    end.

Lemma utf8Run_unit (c : N) (rest : Buffer) :
  c < 65536 -> Node.isHighSurrogate c = false -> Node.isLowSurrogate c = false ->
  Node.utf8Run Node.utf8Init (Node.utf8OfCodePoint c ++ rest)
  = c :: Node.utf8Run Node.utf8Init rest.
Proof.
  intros Hc Hhi Hlo.
  assert (Hns : c < 55296 \/ 57344 <= c).
  { destruct (surrogate_tests c) as [[_ H1] [_ H2]].
    destruct (N.lt_ge_cases c 55296); [auto |].
    destruct (N.lt_ge_cases c 56320); [rewrite H1 in Hhi by lia; discriminate |].
    destruct (N.lt_ge_cases c 57344); [rewrite H2 in Hlo by lia; discriminate | auto]. }
  unfold Node.utf8OfCodePoint.
  destruct (N.ltb_spec c 128); [| destruct (N.ltb_spec c 2048); [| destruct (N.ltb_spec c 65536)]].
  - cbn [app Node.utf8Run]. unfold Node.utf8Step, Node.utf8Lead. cbn [Node.u_needed Node.utf8Init].
    nbool. reflexivity.
  - cbn [app Node.utf8Run]. unfold Node.utf8Step at 1, Node.utf8Lead.
    cbn [Node.u_needed Node.utf8Init]. nbool. cbn [andb].
    unfold Node.utf8Step, Node.utf16OfCodePoint.
    cbn [Node.u_needed Node.u_lower Node.u_upper Node.u_cp Node.u_seen]. nbool. cbn [orb].
    cbn [app]. f_equal. lia.
  - cbn [app Node.utf8Run]. unfold Node.utf8Step at 1, Node.utf8Lead.
    cbn [Node.u_needed Node.utf8Init]. nbool. cbn [andb].
    unfold Node.utf8Step at 1.
    cbn [Node.u_needed Node.u_lower Node.u_upper Node.u_cp Node.u_seen].
    destruct (N.eqb_spec (224 + c / 4096) 224); destruct (N.eqb_spec (224 + c / 4096) 237);
      nbool; cbn [orb];
      unfold Node.utf8Step, Node.utf16OfCodePoint;
      cbn [Node.u_needed Node.u_lower Node.u_upper Node.u_cp Node.u_seen]; nbool; cbn [orb app];
      f_equal; lia.
  - lia.
Qed.

Lemma utf8Step_continuation (st : Node.utf8State) (b : N) :
  Node.u_needed st <> 0 -> Node.u_lower st <= b <= Node.u_upper st ->
  Node.utf8Step st b
  = if Node.u_seen st + 1 =? Node.u_needed st
    then (Node.utf16OfCodePoint (Node.u_cp st * 64 + b mod 64), Node.utf8Init)
    else ([], Node.mkUtf8 (Node.u_cp st * 64 + b mod 64) (Node.u_seen st + 1)
                (Node.u_needed st) 128 191).
Proof.
  intros Hn [Hlo Hup]. unfold Node.utf8Step.
  destruct (N.eqb_spec (Node.u_needed st) 0); [contradiction |].
  destruct (N.ltb_spec b (Node.u_lower st)); [lia |].
  destruct (N.ltb_spec (Node.u_upper st) b); [lia |]. reflexivity.
Qed.

Lemma four_bytes_lead cp :
  65536 <= cp < 1114112 ->
  Node.utf8Lead (240 + cp / 262144)
  = ([], Node.mkUtf8 (cp / 262144) 0 3
           (if 240 + cp / 262144 =? 240 then 144 else 128)
           (if 240 + cp / 262144 =? 244 then 143 else 191)).
Proof.
  intros Hcp. unfold Node.utf8Lead.
  assert (H1 : 240 <= 240 + cp / 262144 <= 244) by lia.
  assert (H2 : (240 + cp / 262144) mod 8 = cp / 262144) by lia.
  generalize dependent (240 + cp / 262144). intros b1 H1 H2.
  destruct (N.ltb_spec b1 128); [lia |].
  destruct (N.leb_spec 194 b1); [| lia]. destruct (N.leb_spec b1 223); [lia |].
  destruct (N.leb_spec 224 b1); [| lia]. destruct (N.leb_spec b1 239); [lia |].
  destruct (N.leb_spec 240 b1); [| lia]. destruct (N.leb_spec b1 244); [| lia].
  cbn [andb]. rewrite H2. reflexivity.
Qed.

Lemma four_bytes_second cp :
  65536 <= cp < 1114112 ->
  (if 240 + cp / 262144 =? 240 then 144 else 128) <= 128 + (cp / 4096) mod 64
  /\ 128 + (cp / 4096) mod 64 <= (if 240 + cp / 262144 =? 244 then 143 else 191).
Proof.
  intros Hcp.
  destruct (N.eqb_spec (240 + cp / 262144) 240); destruct (N.eqb_spec (240 + cp / 262144) 244);
    lia.
Qed.

Lemma continuation_byte x : 128 <= 128 + x mod 64 <= 191 /\ (128 + x mod 64) mod 64 = x mod 64.
Proof. lia. Qed.

Lemma four_bytes_value cp :
  cp < 1114112 ->
  ((cp / 262144 * 64 + (cp / 4096) mod 64) * 64 + (cp / 64) mod 64) * 64 + cp mod 64 = cp.
Proof. intros. lia. Qed.

Lemma surrogates_of_pair hi lo :
  55296 <= hi < 56320 -> 56320 <= lo < 57344 ->
  65536 <= 65536 + (hi - 55296) * 1024 + (lo - 56320) < 1114112
  /\ 55296 + (65536 + (hi - 55296) * 1024 + (lo - 56320) - 65536) / 1024 = hi
  /\ 56320 + (65536 + (hi - 55296) * 1024 + (lo - 56320) - 65536) mod 1024 = lo.
Proof. intros. lia. Qed.

Lemma utf8Run_pair (hi lo : N) (rest : Buffer) :
  Node.isHighSurrogate hi = true -> Node.isLowSurrogate lo = true ->
  Node.utf8Run Node.utf8Init
    (Node.utf8OfCodePoint (65536 + (hi - 55296) * 1024 + (lo - 56320)) ++ rest)
  = hi :: lo :: Node.utf8Run Node.utf8Init rest.
Proof.
  intros Hhi Hlo.
  apply (proj1 (surrogate_tests hi)) in Hhi. apply (proj2 (surrogate_tests lo)) in Hlo.
  destruct (surrogates_of_pair hi lo Hhi Hlo) as (Hcp & Hh & Hl).
  generalize dependent (65536 + (hi - 55296) * 1024 + (lo - 56320)). intros cp Hcp Hh Hl.
  unfold Node.utf8OfCodePoint.
  destruct (N.ltb_spec cp 128); [lia |]. destruct (N.ltb_spec cp 2048); [lia |].
  destruct (N.ltb_spec cp 65536); [lia |].
  cbn [app Node.utf8Run].
  unfold Node.utf8Step at 1. cbn [Node.u_needed Node.utf8Init N.eqb].
  rewrite (four_bytes_lead cp Hcp). cbv beta iota. cbn [app Node.utf8Run].
  rewrite utf8Step_continuation
    by (cbn [Node.u_needed Node.u_lower Node.u_upper];
        first [discriminate | apply four_bytes_second; exact Hcp]).
  cbn [Node.u_needed Node.u_seen Node.u_cp].
  change (0 + 1 =? 3) with false. cbv beta iota. cbn [app Node.utf8Run].
  rewrite utf8Step_continuation
    by (cbn [Node.u_needed Node.u_lower Node.u_upper];
        first [discriminate | apply continuation_byte]).
  cbn [Node.u_needed Node.u_seen Node.u_cp].
  change (0 + 1 + 1 =? 3) with false. cbv beta iota. cbn [app Node.utf8Run].
  rewrite utf8Step_continuation
    by (cbn [Node.u_needed Node.u_lower Node.u_upper];
        first [discriminate | apply continuation_byte]).
  cbn [Node.u_needed Node.u_seen Node.u_cp].
  change (0 + 1 + 1 + 1 =? 3) with true. cbv beta iota.
  rewrite !(proj2 (continuation_byte _)), (four_bytes_value cp) by lia.
  unfold Node.utf16OfCodePoint. destruct (N.ltb_spec cp 65536); [lia |].
  rewrite Hh, Hl. reflexivity.
Qed.

(** Decoding undoes encoding on text without lone surrogates. *)
Lemma utf8_roundtrip (s : jsstring) :
  wellFormed s -> Node.utf8Decode (Node.utf8Encode s) = s.
Proof.
  unfold Node.utf8Decode. induction 1 as [| c s Hc Hhi Hlo Hs IH | hi lo s Hhi Hlo Hs IH].
  - reflexivity.
  - cbn [Node.utf8Encode]. rewrite Hhi, Hlo.
    rewrite (utf8Run_unit c _ Hc Hhi Hlo), IH. reflexivity.
  - cbn [Node.utf8Encode]. rewrite Hhi, Hlo.
    rewrite (utf8Run_pair hi lo _ Hhi Hlo), IH. reflexivity.
Qed.

Lemma utf8OfCodePoint_bytes cp : cp < 1114112 -> Forall is_byte (Node.utf8OfCodePoint cp).
Proof.
  intros Hcp. unfold Node.utf8OfCodePoint, is_byte.
  destruct (N.ltb_spec cp 128); [| destruct (N.ltb_spec cp 2048); [| destruct (N.ltb_spec cp 65536)]];
    repeat (constructor; [lia |]); constructor.
Qed.

Lemma utf8Encode_bytes (s : jsstring) : wellFormed s -> Forall is_byte (Node.utf8Encode s).
Proof.
  induction 1 as [| c s Hc Hhi Hlo Hs IH | hi lo s Hhi Hlo Hs IH].
  - constructor.
  - cbn [Node.utf8Encode]. rewrite Hhi, Hlo. apply Forall_app. split; [| exact IH].
    apply utf8OfCodePoint_bytes. lia.
  - cbn [Node.utf8Encode]. rewrite Hhi, Hlo. apply Forall_app. split; [| exact IH].
    apply (proj1 (surrogate_tests hi)) in Hhi. apply (proj2 (surrogate_tests lo)) in Hlo.
    apply utf8OfCodePoint_bytes. lia.
Qed.

(** ** The offer codec: JSON *)

Lemma isDelim_cases c : isDelim c = true -> c = 44 \/ c = 93 \/ c = 125.
Proof.
  unfold isDelim. intros H.
  destruct (N.eqb_spec c 44); [auto |]. destruct (N.eqb_spec c 93); [auto |].
  destruct (N.eqb_spec c 125); [auto | discriminate].
Qed.

Lemma spanDigits_extend (s : jsstring) (c : N) (rest : jsstring) :
  Num.isDigit c = false ->
  Num.spanDigits (s ++ c :: rest)
  = (fst (Num.spanDigits s), snd (Num.spanDigits s) ++ c :: rest).
Proof.
  intros Hc. induction s as [| x s IH].
  - cbn [app Num.spanDigits fst snd]. rewrite Hc. reflexivity.
  - cbn [app Num.spanDigits]. destruct (Num.isDigit x).
    + rewrite IH. destruct (Num.spanDigits s) as [ds r]. reflexivity.
    + reflexivity.
Qed.

Lemma spanDigits_consumed (s : jsstring) :
  exists pre, s = pre ++ snd (Num.spanDigits s)
              /\ Forall (fun c => Num.isDigit c = true) pre
              /\ List.length pre = List.length (fst (Num.spanDigits s)).
Proof.
  induction s as [| x s (pre & Hs & Hpre & Hlen)].
  - exists []. repeat split. constructor.
  - cbn [Num.spanDigits]. destruct (Num.isDigit x) eqn:Hx.
    + destruct (Num.spanDigits s) as [ds r]. cbn [fst snd] in *.
      exists (x :: pre). cbn [app List.length]. repeat split.
      * congruence.
      * constructor; assumption.
      * congruence.
    + exists []. repeat split. constructor.
Qed.

Lemma consumed_refl s ok : consumed s s ok.
Proof. exists []. split; [reflexivity | constructor]. Qed.

Lemma consumed_cons c s r ok : ok c = true -> consumed s r ok -> consumed (c :: s) r ok.
Proof.
  intros Hc (pre & -> & Hpre). exists (c :: pre). split; [reflexivity |].
  constructor; assumption.
Qed.

Lemma consumed_trans s r t ok : consumed s r ok -> consumed r t ok -> consumed s t ok.
Proof.
  intros (p1 & -> & H1) (p2 & -> & H2). exists (p1 ++ p2).
  split; [apply app_assoc | apply Forall_app; auto].
Qed.

Lemma spanDigits_number s : consumed s (snd (Num.spanDigits s)) numberChar.
Proof.
  destruct (spanDigits_consumed s) as (pre & Hs & Hpre & _).
  exists pre. split; [exact Hs |].
  eapply List.Forall_impl; [| exact Hpre]. intros c Hc. unfold numberChar. rewrite Hc. reflexivity.
Qed.

Section NumberToken.
Variables (c : N) (rest : jsstring).
Hypothesis Hdelim : isDelim c = true.

Lemma delim_not_digit : Num.isDigit c = false.
Proof. destruct (isDelim_cases c Hdelim) as [-> | [-> | ->]]; reflexivity. Qed.

Lemma parseSign_extend s :
  JSON.parseSign (s ++ c :: rest)
  = (fst (JSON.parseSign s), snd (JSON.parseSign s) ++ c :: rest).
Proof.
  destruct s as [| x s].
  - cbn [app JSON.parseSign fst snd].
    destruct (isDelim_cases c Hdelim) as [-> | [-> | ->]]; reflexivity.
  - cbn [app JSON.parseSign]. destruct (x =? 45); reflexivity.
Qed.

Lemma parseInt_extend s ds r :
  JSON.parseInt s = Some (ds, r) ->
  JSON.parseInt (s ++ c :: rest) = Some (ds, r ++ c :: rest).
Proof.
  destruct s as [| x s]; [discriminate |].
  cbn [app]. unfold JSON.parseInt. destruct (x =? 48).
  - intros H. inversion H; subst. reflexivity.
  - change (x :: s ++ c :: rest) with ((x :: s) ++ c :: rest).
    rewrite (spanDigits_extend (x :: s) c rest delim_not_digit).
    destruct (Num.spanDigits (x :: s)) as [[| d ds'] r']; [discriminate |].
    intros H. inversion H; subst. reflexivity.
Qed.

Lemma parseFrac_extend s fp r :
  JSON.parseFrac s = Some (fp, r) ->
  JSON.parseFrac (s ++ c :: rest) = Some (fp, r ++ c :: rest).
Proof.
  destruct s as [| x s].
  - intros H. inversion H; subst. cbn [app JSON.parseFrac].
    destruct (isDelim_cases c Hdelim) as [-> | [-> | ->]]; reflexivity.
  - cbn [app]. unfold JSON.parseFrac. destruct (x =? 46).
    + rewrite (spanDigits_extend s c rest delim_not_digit).
      destruct (Num.spanDigits s) as [[| d ds'] r']; [discriminate |].
      intros H. inversion H; subst. reflexivity.
    + intros H. inversion H; subst. reflexivity.
Qed.

Lemma parseExp_extend s x r :
  JSON.parseExp s = Some (x, r) ->
  JSON.parseExp (s ++ c :: rest) = Some (x, r ++ c :: rest).
Proof.
  destruct s as [| y s].
  - intros H. inversion H; subst. cbn [app JSON.parseExp].
    destruct (isDelim_cases c Hdelim) as [-> | [-> | ->]]; reflexivity.
  - cbn [app]. unfold JSON.parseExp. destruct ((y =? 101) || (y =? 69)).
    + destruct s as [| d u].
      * discriminate.
      * cbn [app]. destruct (d =? 45); [| destruct (d =? 43)].
        -- rewrite (spanDigits_extend u c rest delim_not_digit).
           destruct (Num.spanDigits u) as [[| e ds'] r']; [discriminate |].
           intros H. inversion H; subst. reflexivity.
        -- rewrite (spanDigits_extend u c rest delim_not_digit).
           destruct (Num.spanDigits u) as [[| e ds'] r']; [discriminate |].
           intros H. inversion H; subst. reflexivity.
        -- change (d :: u ++ c :: rest) with ((d :: u) ++ c :: rest).
           rewrite (spanDigits_extend (d :: u) c rest delim_not_digit).
           destruct (Num.spanDigits (d :: u)) as [[| e ds'] r']; [discriminate |].
           intros H. inversion H; subst. reflexivity.
    + intros H. inversion H; subst. reflexivity.
Qed.

(** A number token read from a text is read the same when a delimiter
    follows the text. *)
Lemma parseNumber_extend s n r :
  JSON.parseNumber s = Some (n, r) ->
  JSON.parseNumber (s ++ c :: rest) = Some (n, r ++ c :: rest).
Proof.
  unfold JSON.parseNumber. rewrite parseSign_extend.
  destruct (JSON.parseSign s) as [neg s1]. cbn [fst snd].
  destruct (JSON.parseInt s1) as [[ip r1] |] eqn:Ei; [| discriminate].
  rewrite (parseInt_extend _ _ _ Ei).
  destruct (JSON.parseFrac r1) as [[fp r2] |] eqn:Ef; [| discriminate].
  rewrite (parseFrac_extend _ _ _ Ef).
  destruct (JSON.parseExp r2) as [[x r3] |] eqn:Ee; [| discriminate].
  rewrite (parseExp_extend _ _ _ Ee).
  intros H. inversion H; subst. reflexivity.
Qed.
End NumberToken.

Lemma parseInt_consumed s ds r :
  JSON.parseInt s = Some (ds, r) ->
  consumed s r numberChar
  /\ exists x t, s = x :: t /\ Num.isDigit x = true.
Proof.
  destruct s as [| x t]; [discriminate |]. unfold JSON.parseInt.
  destruct (N.eqb_spec x 48) as [-> | Hx].
  - intros H. inversion H; subst. split; [| eauto].
    apply consumed_cons; [reflexivity | apply consumed_refl].
  - destruct (Num.spanDigits (x :: t)) as [[| d ds'] r'] eqn:Es; [discriminate |].
    intros H. inversion H; subst. split.
    + pose proof (spanDigits_number (x :: t)) as Hc. rewrite Es in Hc. exact Hc.
    + exists x, t. split; [reflexivity |].
      cbn [Num.spanDigits] in Es. destruct (Num.isDigit x); [reflexivity | discriminate].
Qed.

Lemma parseFrac_consumed s fp r :
  JSON.parseFrac s = Some (fp, r) -> consumed s r numberChar.
Proof.
  destruct s as [| x t]; [intros H; inversion H; apply consumed_refl |].
  unfold JSON.parseFrac. destruct (N.eqb_spec x 46) as [-> | Hx].
  - destruct (Num.spanDigits t) as [[| d ds'] r'] eqn:Es; [discriminate |].
    intros H. inversion H; subst. apply consumed_cons; [reflexivity |].
    pose proof (spanDigits_number t) as Hc. rewrite Es in Hc. exact Hc.
  - intros H. inversion H; subst. apply consumed_refl.
Qed.

Lemma parseExp_consumed s x r :
  JSON.parseExp s = Some (x, r) -> consumed s r numberChar.
Proof.
  destruct s as [| y t]; [intros H; inversion H; apply consumed_refl |].
  unfold JSON.parseExp. destruct ((y =? 101) || (y =? 69)) eqn:Hy.
  - assert (Hny : numberChar y = true).
    { unfold numberChar. apply orb_prop in Hy. destruct Hy as [-> | ->];
        rewrite ?orb_true_r; reflexivity. }
    destruct t as [| d u].
    + discriminate.
    + destruct (N.eqb_spec d 45) as [-> | Hd]; [| destruct (N.eqb_spec d 43) as [-> | Hd']].
      * destruct (Num.spanDigits u) as [[| e ds'] r'] eqn:Es; [discriminate |].
        intros H. inversion H; subst. apply consumed_cons; [exact Hny |].
        apply consumed_cons; [reflexivity |].
        pose proof (spanDigits_number u) as Hc. rewrite Es in Hc. exact Hc.
      * destruct (Num.spanDigits u) as [[| e ds'] r'] eqn:Es; [discriminate |].
        intros H. inversion H; subst. apply consumed_cons; [exact Hny |].
        apply consumed_cons; [reflexivity |].
        pose proof (spanDigits_number u) as Hc. rewrite Es in Hc. exact Hc.
      * destruct (Num.spanDigits (d :: u)) as [[| e ds'] r'] eqn:Es; [discriminate |].
        intros H. inversion H; subst. apply consumed_cons; [exact Hny |].
        pose proof (spanDigits_number (d :: u)) as Hc. rewrite Es in Hc. exact Hc.
  - intros H. inversion H; subst. apply consumed_refl.
Qed.

(** A number token is made of ASCII characters and starts with a minus
    sign or a digit. *)
Lemma parseNumber_consumed s n r :
  JSON.parseNumber s = Some (n, r) ->
  consumed s r numberChar
  /\ exists x t, s = x :: t /\ (x = 45 \/ Num.isDigit x = true).
Proof.
  unfold JSON.parseNumber.
  destruct (JSON.parseSign s) as [neg s1] eqn:Esign.
  destruct (JSON.parseInt s1) as [[ip r1] |] eqn:Ei; [| discriminate].
  destruct (JSON.parseFrac r1) as [[fp r2] |] eqn:Ef; [| discriminate].
  destruct (JSON.parseExp r2) as [[x r3] |] eqn:Ee; [| discriminate].
  intros H. inversion H; subst.
  destruct (parseInt_consumed _ _ _ Ei) as (Hci & y & t & Hs1 & Hy).
  pose proof (parseFrac_consumed _ _ _ Ef) as Hcf.
  pose proof (parseExp_consumed _ _ _ Ee) as Hce.
  assert (Hc1 : consumed s1 r numberChar)
    by (eapply consumed_trans; [exact Hci |]; eapply consumed_trans; eauto).
  destruct s as [| z u]; [inversion Esign; subst; discriminate |].
  unfold JSON.parseSign in Esign. destruct (N.eqb_spec z 45) as [-> | Hz].
  - inversion Esign; subst. split; [apply consumed_cons; [reflexivity | exact Hc1] | eauto].
  - assert (Heq : z :: u = y :: t) by congruence. rewrite Heq, <- Hs1.
    split; [exact Hc1 | rewrite Hs1; eauto].
Qed.

(** *** String literals *)

Lemma hexdigit_ascii d : d < 16 -> Node.hexdigit d < 128.
Proof. intros Hd. unfold Node.hexdigit. destruct (d <? 10); lia. Qed.

Lemma hex4_unicodeEscape c :
  c < 65536 ->
  JSON.hex4 (Node.hexdigit (c / 4096)) (Node.hexdigit ((c / 256) mod 16))
            (Node.hexdigit ((c / 16) mod 16)) (Node.hexdigit (c mod 16)) = Some c.
Proof.
  intros Hc. unfold JSON.hex4.
  rewrite !unhex_hexdigit by lia.
  assert (H1 := hexdigit_ascii (c / 4096)). assert (H2 := hexdigit_ascii ((c / 256) mod 16)).
  assert (H3 := hexdigit_ascii ((c / 16) mod 16)). assert (H4 := hexdigit_ascii (c mod 16)).
  destruct (N.ltb_spec (Node.hexdigit (c / 4096)) 128); [| lia].
  destruct (N.ltb_spec (Node.hexdigit ((c / 256) mod 16)) 128); [| lia].
  destruct (N.ltb_spec (Node.hexdigit ((c / 16) mod 16)) 128); [| lia].
  destruct (N.ltb_spec (Node.hexdigit (c mod 16)) 128); [| lia].
  cbn [andb]. f_equal. lia.
Qed.

Lemma wellFormed_ascii c s : c < 128 -> wellFormed s -> wellFormed (c :: s).
Proof.
  intros Hc Hs. apply wf_unit; [lia | | | exact Hs].
  - unfold Node.isHighSurrogate. destruct (N.leb_spec 55296 c); [lia | reflexivity].
  - unfold Node.isLowSurrogate. destruct (N.leb_spec 56320 c); [lia | reflexivity].
Qed.

Lemma wellFormed_escape c s :
  c < 65536 -> wellFormed s -> wellFormed (JSON.unicodeEscape c ++ s).
Proof.
  intros Hc Hs. unfold JSON.unicodeEscape. cbn [app].
  repeat (apply wellFormed_ascii; [first [lia | apply hexdigit_ascii; lia] |]). exact Hs.
Qed.

Lemma parseChars_escape c s rest t :
  c < 65536 ->
  JSON.parseChars (s ++ 34 :: rest) = Some (t, rest) ->
  JSON.parseChars ((JSON.unicodeEscape c ++ s) ++ 34 :: rest) = Some (c :: t, rest).
Proof.
  intros Hc Hs. unfold JSON.unicodeEscape. cbn [app JSON.parseChars].
  change (92 =? 34) with false. change (92 =? 92) with true.
  change (117 =? 34) with false. change (117 =? 92) with false.
  change (117 =? 47) with false. change (117 =? 98) with false.
  change (117 =? 102) with false. change (117 =? 110) with false.
  change (117 =? 114) with false. change (117 =? 116) with false.
  change (117 =? 117) with true. cbv beta iota.
  rewrite (hex4_unicodeEscape c Hc), Hs. reflexivity.
Qed.

Lemma parseChars_simple (e u : N) s rest t :
  JSON.parseChars (s ++ 34 :: rest) = Some (t, rest) ->
  (e, u) = (34, 34) \/ (e, u) = (92, 92) \/ (e, u) = (98, 8) \/ (e, u) = (102, 12)
  \/ (e, u) = (110, 10) \/ (e, u) = (114, 13) \/ (e, u) = (116, 9) ->
  JSON.parseChars ((92 :: e :: s) ++ 34 :: rest) = Some (u :: t, rest).
Proof.
  intros Hs Hcase. cbn [app JSON.parseChars].
  change (92 =? 34) with false. change (92 =? 92) with true. cbv beta iota.
  destruct Hcase as [H | [H | [H | [H | [H | [H | H]]]]]]; inversion H; subst;
    cbv beta iota; cbn [N.eqb Pos.eqb]; rewrite Hs; reflexivity.
Qed.

Lemma parseChars_literal c s rest t :
  c <> 34 -> c <> 92 -> 32 <= c ->
  JSON.parseChars (s ++ 34 :: rest) = Some (t, rest) ->
  JSON.parseChars ((c :: s) ++ 34 :: rest) = Some (c :: t, rest).
Proof.
  intros H34 H92 H32 Hs. cbn [app JSON.parseChars].
  destruct (N.eqb_spec c 34); [contradiction |]. destruct (N.eqb_spec c 92); [contradiction |].
  destruct (N.ltb_spec c 32); [lia |]. rewrite Hs. reflexivity.
Qed.

(** A quoted string is text without lone surrogates, and reads back. *)
Lemma quoteChars_parse (n : nat) :
  forall s, (List.length s <= n)%nat -> unitsOk s = true ->
    wellFormed (JSON.quoteChars s)
    /\ forall rest, JSON.parseChars (JSON.quoteChars s ++ 34 :: rest) = Some (s, rest).
Proof.
  induction n as [| n IH]; intros [| c s] Hlen Hok;
    try (split; [constructor | reflexivity]); [cbn [List.length] in Hlen; lia |].
  cbn [List.length] in Hlen. cbn [unitsOk forallb] in Hok.
  apply andb_prop in Hok. destruct Hok as [Hc Hs]. apply N.ltb_lt in Hc.
  destruct (IH s ltac:(lia) Hs) as [Hwf Hparse].
  cbn [JSON.quoteChars].
  destruct (N.eqb_spec c 34) as [-> | H34].
  { split; [repeat (apply wellFormed_ascii; [lia |]); exact Hwf |].
    intros rest. apply (parseChars_simple 34 34); auto. }
  destruct (N.eqb_spec c 92) as [-> | H92].
  { split; [repeat (apply wellFormed_ascii; [lia |]); exact Hwf |].
    intros rest. apply (parseChars_simple 92 92); auto. }
  destruct (N.eqb_spec c 8) as [-> | H8].
  { split; [repeat (apply wellFormed_ascii; [lia |]); exact Hwf |].
    intros rest. apply (parseChars_simple 98 8); auto. }
  destruct (N.eqb_spec c 12) as [-> | H12].
  { split; [repeat (apply wellFormed_ascii; [lia |]); exact Hwf |].
    intros rest. apply (parseChars_simple 102 12); auto 6. }
  destruct (N.eqb_spec c 10) as [-> | H10].
  { split; [repeat (apply wellFormed_ascii; [lia |]); exact Hwf |].
    intros rest. apply (parseChars_simple 110 10); auto 6. }
  destruct (N.eqb_spec c 13) as [-> | H13].
  { split; [repeat (apply wellFormed_ascii; [lia |]); exact Hwf |].
    intros rest. apply (parseChars_simple 114 13); auto 7. }
  destruct (N.eqb_spec c 9) as [-> | H9].
  { split; [repeat (apply wellFormed_ascii; [lia |]); exact Hwf |].
    intros rest. apply (parseChars_simple 116 9); auto 8. }
  destruct (N.ltb_spec c 32) as [Hlow | H32].
  { split; [apply wellFormed_escape; assumption |].
    intros rest. apply parseChars_escape; auto. }
  destruct (Node.isHighSurrogate c) eqn:Hhi.
  { destruct s as [| d s'].
    - split; [apply (wellFormed_escape c []); [exact Hc | constructor] |].
      intros rest. apply (parseChars_escape c [] rest []); auto.
    - destruct (Node.isLowSurrogate d) eqn:Hlo.
      + cbn [List.length] in Hlen. cbn [unitsOk forallb] in Hs.
        apply andb_prop in Hs. destruct Hs as [Hd Hs'].
        destruct (IH s' ltac:(lia) Hs') as [Hwf' Hparse'].
        split; [apply wf_pair; assumption |].
        intros rest.
        apply (proj1 (surrogate_tests c)) in Hhi. apply (proj2 (surrogate_tests d)) in Hlo.
        apply (parseChars_literal c (d :: JSON.quoteChars s')); try lia.
        apply (parseChars_literal d (JSON.quoteChars s')); try lia. apply Hparse'.
      + split; [apply wellFormed_escape; assumption |].
        intros rest. apply parseChars_escape; auto. }
  destruct (Node.isLowSurrogate c) eqn:Hlo.
  { split; [apply wellFormed_escape; assumption |].
    intros rest. apply parseChars_escape; auto. }
  split; [apply wf_unit; assumption |].
  intros rest. apply parseChars_literal; auto.
Qed.

(** *** Values that survive the codec *)

Lemma value_ind' (P : value -> Prop) :
  P VUndefined -> P VNull -> (forall b, P (VBool b)) -> (forall n, P (VNum n)) ->
  (forall s, P (VStr s)) ->
  (forall l, Forall P l -> P (VArr l)) ->
  (forall ps, Forall (fun kv => P (snd kv)) ps -> P (VObj ps)) ->
  forall v, P v.
Proof.
  intros Hu Hn Hb Hnum Hs Harr Hobj.
  fix IH 1. intros [| | b | n | s | l | ps].
  - exact Hu.
  - exact Hn.
  - apply Hb.
  - apply Hnum.
  - apply Hs.
  - apply Harr.
    exact ((fix go (l : list value) : Forall P l :=
              match l with
              | [] => @List.Forall_nil _ P
              | e :: r => @List.Forall_cons _ P e r (IH e) (go r)
              end) l).
  - apply Hobj.
    exact ((fix go (ps : list (jsstring * value)) : Forall (fun kv => P (snd kv)) ps :=
              match ps with
              | [] => @List.Forall_nil _ _
              | kv :: r => @List.Forall_cons _ (fun kv => P (snd kv)) kv r (IH (snd kv)) (go r)
              end) ps).
Qed.

Lemma stringify_arr l : JSON.stringify (VArr l) = Some ([91] ++ Js.join [44] (texts l) ++ [93]).
Proof.
  cbn [JSON.stringify].
  match goal with
  | |- Some (_ ++ Js.join _ ?each ++ _) = _ => assert (H : each = texts l)
  end.
  { induction l as [| e r IH]; [reflexivity |].
    cbn [texts List.map]. fold (texts r). rewrite <- IH.
    destruct (JSON.stringify e); reflexivity. }
  rewrite H. reflexivity.
Qed.

Lemma stringify_obj ps :
  JSON.stringify (VObj ps) = Some ([123] ++ Js.join [44] (members ps) ++ [125]).
Proof.
  cbn [JSON.stringify].
  match goal with
  | |- Some (_ ++ Js.join _ ?each ++ _) = _ => assert (H : each = members ps)
  end.
  { induction ps as [| [k e] r IH]; [reflexivity |].
    cbn [members]. rewrite <- IH. reflexivity. }
  rewrite H. reflexivity.
Qed.

Lemma size_arr l : size (VArr l) = S (sizes l).
Proof.
  reflexivity.
Qed.

Lemma size_obj ps : size (VObj ps) = S (sizes (List.map snd ps)).
Proof.
  cbn [size]. f_equal. induction ps as [| [k e] r IH]; [reflexivity |].
  cbn [sizes fold_right List.map snd]. fold (sizes (List.map snd r)). rewrite <- IH. reflexivity.
Qed.

Lemma jsonOk_arr l : jsonOk (VArr l) = forallb jsonOk l.
Proof.
  cbn [jsonOk]. induction l as [| e r IH]; [reflexivity |].
  cbn [forallb]. rewrite <- IH. reflexivity.
Qed.

Lemma jsonOk_obj ps :
  jsonOk (VObj ps)
  = forallb (fun kv => unitsOk (fst kv) && plainKey (fst kv) && jsonOk (snd kv)) ps
    && distinctKeys (List.map fst ps).
Proof.
  cbn [jsonOk]. f_equal. induction ps as [| [k e] r IH]; [reflexivity |].
  cbn [forallb fst snd]. rewrite <- IH. reflexivity.
Qed.

Lemma Num_eqb_eq x y : Num.eqb x y = true -> x = y.
Proof.
  destruct x as [a | a | | a m e], y as [b | b | | b m' e']; cbn [Num.eqb]; try discriminate.
  - intros H. apply Bool.eqb_prop in H. congruence.
  - intros H. apply Bool.eqb_prop in H. congruence.
  - reflexivity.
  - intros H. apply andb_prop in H. destruct H as [H He].
    apply andb_prop in H. destruct H as [Ha Hm].
    apply Bool.eqb_prop in Ha. apply Pos.eqb_eq in Hm. apply Z.eqb_eq in He. congruence.
Qed.

(** *** Objects with plain keys are built in the order written *)

Lemma getProp_snoc k acc k' v :
  Js.getProp k (acc ++ [(k', v)])
  = match Js.getProp k acc with
    | Some x => Some x
    | None => if jsstring_eqb k k' then Some v else None
    end.
Proof.
  induction acc as [| [k0 v0] acc IH]; cbn [app Js.getProp].
  - reflexivity.
  - destruct (jsstring_eqb k k0); [reflexivity | exact IH].
Qed.

Lemma setProp_fresh k v acc :
  plainKey k = true -> Js.getProp k acc = None -> Js.setProp k v acc = acc ++ [(k, v)].
Proof.
  unfold plainKey, Js.setProp. intros Hk ->.
  destruct (Js.arrayIndex k); [discriminate | reflexivity].
Qed.

Lemma fold_setProp_plain ps :
  forall acc,
    forallb plainKey (List.map fst ps) = true ->
    distinctKeys (List.map fst ps) = true ->
    (forall k, In k (List.map fst ps) -> Js.getProp k acc = None) ->
    fold_left (fun acc kv => Js.setProp (fst kv) (snd kv) acc) ps acc = acc ++ ps.
Proof.
  induction ps as [| [k v] ps IH]; intros acc Hplain Hdist Hfresh.
  - cbn [fold_left]. rewrite app_nil_r. reflexivity.
  - cbn [List.map fst forallb distinctKeys] in Hplain, Hdist.
    apply andb_prop in Hplain. destruct Hplain as [Hk Hplain].
    apply andb_prop in Hdist. destruct Hdist as [Hnot Hdist].
    cbn [fold_left fst snd].
    rewrite (setProp_fresh k v acc Hk) by (apply Hfresh; left; reflexivity).
    rewrite IH; [rewrite <- app_assoc; reflexivity | assumption | assumption |].
    intros k' Hin. rewrite getProp_snoc.
    rewrite (Hfresh k') by (right; exact Hin).
    destruct (jsstring_eqb k' k) eqn:E; [| reflexivity].
    exfalso. unfold jsstring_eqb in E. apply bool_decide_eq_true in E. subst k'.
    apply negb_true_iff in Hnot.
    assert (existsb (jsstring_eqb k) (List.map fst ps) = true); [| congruence].
    apply existsb_exists. exists k. split; [exact Hin |].
    unfold jsstring_eqb. apply bool_decide_eq_true. reflexivity.
Qed.

(** *** The text of a value reads back as the value *)

Lemma skipWs_head text rest : headOk text -> JSON.skipWs (text ++ rest) = text ++ rest.
Proof. intros (c & t & -> & Hws & _). cbn [app JSON.skipWs]. rewrite Hws. reflexivity. Qed.

Lemma numberChar_ascii c : numberChar c = true -> c < 128.
Proof.
  unfold numberChar, Num.isDigit. intros H.
  repeat match type of H with
    | (_ || _) = true => apply orb_prop in H; destruct H as [H | H]
    end;
  try (apply N.eqb_eq in H; lia).
  apply andb_prop in H. destruct H as [_ H]. apply N.leb_le in H. lia.
Qed.

Lemma wellFormed_asciis s : Forall (fun c => c < 128) s -> wellFormed s.
Proof. induction 1; [constructor | apply wellFormed_ascii; assumption]. Qed.

Lemma roundtrips_number n : readable n = true -> roundtrips (VNum n).
Proof.
  unfold readable. intros Hr.
  destruct (JSON.parseNumber (Num.toString n)) as [[n' [| x r]] |] eqn:Ep; try discriminate.
  apply andb_prop in Hr. destruct Hr as [Hfin Heq]. apply Num_eqb_eq in Heq. subst n'.
  destruct (parseNumber_consumed _ _ _ Ep) as ((pre & Hpre & Hchars) & x & t & Htext & Hx).
  rewrite app_nil_r in Hpre.
  assert (Hxr : 45 <= x <= 57).
  { destruct Hx as [-> | Hx]; [lia |]. unfold Num.isDigit in Hx.
    apply andb_prop in Hx. destruct Hx as [H1 H2].
    apply N.leb_le in H1. apply N.leb_le in H2. lia. }
  assert (Hws : JSON.isWs x = false).
  { unfold JSON.isWs.
    destruct (N.eqb_spec x 9); [lia |]. destruct (N.eqb_spec x 10); [lia |].
    destruct (N.eqb_spec x 13); [lia |]. destruct (N.eqb_spec x 32); [lia | reflexivity]. }
  exists (Num.toString n). cbn [JSON.stringify]. rewrite Hfin.
  split; [reflexivity |]. split.
  { rewrite Hpre. apply wellFormed_asciis.
    eapply List.Forall_impl; [| exact Hchars]. intros c. apply numberChar_ascii. }
  split; [rewrite Htext; cbn [size List.length]; lia |].
  split; [exists x, t; repeat split; [exact Htext | exact Hws | lia | lia] |].
  intros [| f] rest Hf Hd; [cbn [size] in Hf; lia |].
  assert (Hnum : JSON.parseNumber (Num.toString n ++ rest) = Some (n, rest)).
  { destruct rest as [| c rest']; [rewrite app_nil_r; exact Ep |].
    apply (parseNumber_extend c rest' Hd _ _ _ Ep). }
  rewrite Htext in Hnum |- *. cbn [app JSON.parseValue JSON.skipWs]. rewrite Hws.
  destruct (N.eqb_spec x 123); [lia |]. destruct (N.eqb_spec x 91); [lia |].
  destruct (N.eqb_spec x 34); [lia |]. destruct (N.eqb_spec x 116); [lia |].
  destruct (N.eqb_spec x 102); [lia |]. destruct (N.eqb_spec x 110); [lia |].
  cbn [app] in Hnum. rewrite Hnum. reflexivity.
Qed.

Lemma roundtrips_string s : unitsOk s = true -> roundtrips (VStr s).
Proof.
  intros Hs. destruct (quoteChars_parse (List.length s) s (le_n _) Hs) as [Hwf Hparse].
  exists (JSON.quote s). split; [reflexivity |]. unfold JSON.quote.
  split.
  { apply wellFormed_ascii; [lia |]. apply wellFormed_app; [exact Hwf |].
    apply wellFormed_ascii; [lia | constructor]. }
  split; [cbn [size List.length]; lia |].
  split; [exists 34, (JSON.quoteChars s ++ [34]); repeat split; discriminate |].
  intros [| f] rest Hf Hd; [cbn [size] in Hf; lia |].
  cbn [app]. rewrite <- app_assoc. cbn [app JSON.parseValue JSON.skipWs].
  change (JSON.isWs 34) with false. cbv beta iota.
  change (34 =? 123) with false. change (34 =? 91) with false. change (34 =? 34) with true.
  cbv beta iota. rewrite Hparse. reflexivity.
Qed.

Lemma roundtrips_literal (v : value) (lit : string) :
  (v, lit) = (VNull, "null"%string) \/ (v, lit) = (VBool true, "true"%string)
  \/ (v, lit) = (VBool false, "false"%string) ->
  roundtrips v.
Proof.
  intros H. exists (js lit).
  destruct H as [H | [H | H]]; inversion H; subst;
    (split; [reflexivity |];
     split; [vm_compute; repeat (apply wellFormed_ascii; [lia |]); exact wf_nil |];
     split; [vm_compute; lia |];
     split; [unfold headOk; vm_compute (js _); eexists; eexists;
             split; [reflexivity |]; split; [reflexivity |]; split; discriminate |];
     intros [| f] rest Hf Hd; [cbn [size] in Hf; lia | reflexivity]).
Qed.

Lemma elements_roundtrip (l : list value) :
  Forall roundtrips l -> l <> [] ->
  wellFormed (Js.join [44] (texts l))
  /\ (sizes l <= S (List.length (Js.join [44%N] (texts l))))%nat
  /\ headOk (Js.join [44] (texts l))
  /\ forall fuel rest, (sizes l <= fuel)%nat ->
       JSON.parseElements fuel (Js.join [44] (texts l) ++ 93 :: rest) = Some (l, rest).
Proof.
  induction 1 as [| e l He Hl IH]; [congruence |]. intros _.
  destruct He as (text & Hs & Hwf & Hsize & Hhead & Hparse).
  destruct l as [| e' l'].
  - assert (Htexts : Js.join [44] (texts [e]) = text).
    { cbn [texts List.map Js.join]. rewrite Hs. reflexivity. }
    rewrite Htexts. split; [exact Hwf |].
    split; [cbn [sizes fold_right]; lia |]. split; [exact Hhead |].
    intros [| f] rest Hf; [cbn [sizes fold_right] in Hf; lia |].
    cbn [sizes fold_right] in Hf. cbn [JSON.parseElements].
    rewrite (Hparse f (93 :: rest)) by (first [lia | reflexivity]).
    reflexivity.
  - destruct IH as (Hwf' & Hsize' & Hhead' & Hparse'); [discriminate |].
    assert (Htexts : Js.join [44] (texts (e :: e' :: l'))
                     = text ++ 44 :: Js.join [44] (texts (e' :: l'))).
    { cbn [texts List.map Js.join]. rewrite Hs. reflexivity. }
    rewrite Htexts. split.
    { apply wellFormed_app; [exact Hwf |]. apply wellFormed_ascii; [lia | exact Hwf']. }
    split.
    { rewrite length_app. cbn [List.length].
      change (sizes (e :: e' :: l')) with (S (size e) + sizes (e' :: l'))%nat. lia. }
    split.
    { destruct Hhead as (c & t & -> & Hc). exists c, (t ++ 44 :: Js.join [44] (texts (e' :: l'))).
      split; [reflexivity | exact Hc]. }
    intros [| f] rest Hf;
      change (sizes (e :: e' :: l')) with (S (size e) + sizes (e' :: l'))%nat in Hf; [lia |].
    cbn [JSON.parseElements]. rewrite <- app_assoc. cbn [app].
    rewrite (Hparse f (44 :: Js.join [44] (texts (e' :: l')) ++ 93 :: rest))
      by (first [lia | reflexivity]).
    cbn [JSON.skipWs]. change (JSON.isWs 44) with false. cbv beta iota.
    change (44 =? 44) with true. cbv beta iota.
    rewrite Hparse' by lia. reflexivity.
Qed.

Lemma members_roundtrip (ps : list (jsstring * value)) :
  Forall (fun kv => roundtrips (snd kv)) ps ->
  forallb (fun kv => unitsOk (fst kv)) ps = true ->
  ps <> [] ->
  wellFormed (Js.join [44] (members ps))
  /\ (sizes (List.map snd ps) <= S (List.length (Js.join [44%N] (members ps))))%nat
  /\ headOk (Js.join [44] (members ps))
  /\ forall fuel rest, (sizes (List.map snd ps) <= fuel)%nat ->
       JSON.parseMembers fuel (Js.join [44] (members ps) ++ 125 :: rest) = Some (ps, rest).
Proof.
  induction 1 as [| [k e] ps He Hps IH]; [congruence |]. intros Hkeys _.
  cbn [forallb fst] in Hkeys. apply andb_prop in Hkeys. destruct Hkeys as [Hk Hkeys].
  destruct He as (text & Hs & Hwf & Hsize & Hhead & Hparse). cbn [snd] in *.
  destruct (quoteChars_parse (List.length k) k (le_n _) Hk) as [Hwfk Hparsek].
  set (member := 34 :: JSON.quoteChars k ++ 34 :: 58 :: text).
  assert (Hmember : JSON.quote k ++ [58] ++ text = member).
  { unfold JSON.quote, member. cbn [app]. rewrite <- app_assoc. reflexivity. }
  assert (Hwfm : wellFormed member).
  { unfold member. apply wellFormed_ascii; [lia |]. apply wellFormed_app; [exact Hwfk |].
    apply wellFormed_ascii; [lia |]. apply wellFormed_ascii; [lia | exact Hwf]. }
  assert (Hlenm : (S (size e) <= List.length member)%nat).
  { unfold member. cbn [List.length]. rewrite length_app. cbn [List.length]. lia. }
  assert (Hheadm : forall more, headOk (member ++ more)).
  { intros more. exists 34, ((JSON.quoteChars k ++ 34 :: 58 :: text) ++ more).
    repeat split; discriminate. }
  assert (Hone : forall f c more,
            (size e <= f)%nat -> isDelim c = true ->
            JSON.parseMembers (S f) (member ++ c :: more)
            = match JSON.skipWs (c :: more) with
              | c0 :: r' =>
                  if c0 =? 44 then
                    match JSON.parseMembers f r' with
                    | Some (ps', r'') => Some ((k, e) :: ps', r'')
                    | None => None
                    end
                  else if c0 =? 125 then Some ([(k, e)], r') else None
              | [] => None
              end).
  { intros f c more Hf Hc. unfold member. cbn [app JSON.parseMembers JSON.skipWs].
    change (JSON.isWs 34) with false. cbv beta iota. change (34 =? 34) with true.
    cbv beta iota. rewrite <- app_assoc. cbn [app]. rewrite Hparsek.
    cbn [JSON.skipWs]. change (JSON.isWs 58) with false. cbv beta iota.
    change (58 =? 58) with true. cbv beta iota.
    rewrite (Hparse f (c :: more) Hf Hc). reflexivity. }
  destruct ps as [| [k' e'] ps'].
  - assert (Htexts : Js.join [44] (members [(k, e)]) = member).
    { cbn [members Js.join]. rewrite Hs. exact Hmember. }
    rewrite Htexts. split; [exact Hwfm |].
    split; [cbn [List.map snd sizes fold_right]; lia |].
    split; [rewrite <- (app_nil_r member); apply Hheadm |].
    intros [| f] rest Hf; cbn [List.map snd sizes fold_right] in Hf; [lia |].
    rewrite Hone by (first [lia | reflexivity]). reflexivity.
  - destruct IH as (Hwf' & Hsize' & Hhead' & Hparse'); [exact Hkeys | discriminate |].
    assert (Hnext : exists t', JSON.stringify e' = Some t').
    { inversion Hps as [| ? ? (t' & Ht' & _) _]; subst. eauto. }
    destruct Hnext as [t' Ht'].
    assert (Htexts : Js.join [44] (members ((k, e) :: (k', e') :: ps'))
                     = member ++ 44 :: Js.join [44] (members ((k', e') :: ps'))).
    { cbn [members Js.join]. rewrite Hs, Ht'. cbn [Js.join app].
      rewrite <- Hmember. cbn [members] in *. reflexivity. }
    rewrite Htexts. split.
    { apply wellFormed_app; [exact Hwfm |]. apply wellFormed_ascii; [lia | exact Hwf']. }
    split.
    { rewrite length_app. cbn [List.length].
      change (sizes (List.map snd ((k, e) :: (k', e') :: ps')))
        with (S (size e) + sizes (List.map snd ((k', e') :: ps')))%nat. lia. }
    split; [apply Hheadm |].
    intros [| f] rest Hf;
      change (sizes (List.map snd ((k, e) :: (k', e') :: ps')))
        with (S (size e) + sizes (List.map snd ((k', e') :: ps')))%nat in Hf; [lia |].
    rewrite <- app_assoc. cbn [app].
    rewrite Hone by (first [lia | reflexivity]).
    cbn [JSON.skipWs]. change (JSON.isWs 44) with false. cbv beta iota.
    change (44 =? 44) with true. cbv beta iota.
    rewrite Hparse' by lia. reflexivity.
Qed.

(** Every JSON value reads back from its own text. *)
Lemma roundtrip_value (v : value) : jsonOk v = true -> roundtrips v.
Proof.
  induction v as [| | b | n | s | l IH | ps IH] using value_ind'; intros Hok.
  - discriminate.
  - apply (roundtrips_literal VNull "null"). auto.
  - destruct b.
    + apply (roundtrips_literal (VBool true) "true"). auto.
    + apply (roundtrips_literal (VBool false) "false"). auto.
  - apply roundtrips_number. exact Hok.
  - apply roundtrips_string. exact Hok.
  - rewrite jsonOk_arr in Hok.
    assert (Hall : Forall roundtrips l).
    { rewrite forallb_forall in Hok. rewrite List.Forall_forall in IH |- *.
      intros e He. apply IH; [exact He | apply Hok; exact He]. }
    exists ([91] ++ Js.join [44] (texts l) ++ [93]). split; [apply stringify_arr |].
    destruct l as [| e l'].
    { split; [vm_compute; repeat (apply wellFormed_ascii; [lia |]); exact wf_nil |].
      split; [vm_compute; lia |].
      split; [exists 91, [93]; repeat split; discriminate |].
      intros [| f] rest Hf Hd; [cbn [size] in Hf; lia | reflexivity]. }
    destruct (elements_roundtrip (e :: l') Hall) as (Hwf & Hsize & Hhead & Hparse);
      [discriminate |].
    split.
    { cbn [app]. apply wellFormed_ascii; [lia |]. apply wellFormed_app; [exact Hwf |].
      apply wellFormed_ascii; [lia | exact wf_nil]. }
    split; [rewrite size_arr; cbn [app List.length]; rewrite length_app; cbn [List.length]; lia |].
    split; [exists 91, (Js.join [44] (texts (e :: l')) ++ [93]); repeat split; discriminate |].
    intros [| f] rest Hf Hd; rewrite size_arr in Hf; [lia |].
    cbn [app]. rewrite <- app_assoc. cbn [app JSON.parseValue JSON.skipWs].
    change (JSON.isWs 91) with false. cbv beta iota.
    change (91 =? 123) with false. change (91 =? 91) with true. cbv beta iota.
    rewrite (skipWs_head _ (93 :: rest) Hhead).
    destruct Hhead as (c & t & Hjoin & _ & Hc & _). rewrite Hjoin at 1. cbn [app].
    destruct (N.eqb_spec c 93); [contradiction |].
    rewrite Hparse by lia. reflexivity.
  - rewrite jsonOk_obj in Hok. apply andb_prop in Hok. destruct Hok as [Hok Hdist].
    assert (Hall : Forall (fun kv => roundtrips (snd kv)) ps).
    { rewrite forallb_forall in Hok. rewrite List.Forall_forall in IH |- *.
      intros kv Hkv. apply IH; [exact Hkv |].
      specialize (Hok kv Hkv). apply andb_prop in Hok. tauto. }
    assert (Hunits : forallb (fun kv => unitsOk (fst kv)) ps = true).
    { rewrite forallb_forall in Hok |- *. intros kv Hkv.
      specialize (Hok kv Hkv). apply andb_prop in Hok. destruct Hok as [Hok _].
      apply andb_prop in Hok. tauto. }
    assert (Hplain : forallb plainKey (List.map fst ps) = true).
    { rewrite forallb_forall in Hok |- *. intros k Hk.
      apply in_map_iff in Hk. destruct Hk as (kv & <- & Hkv).
      specialize (Hok kv Hkv). apply andb_prop in Hok. destruct Hok as [Hok _].
      apply andb_prop in Hok. tauto. }
    exists ([123] ++ Js.join [44] (members ps) ++ [125]). split; [apply stringify_obj |].
    destruct ps as [| kv ps'].
    { split; [vm_compute; repeat (apply wellFormed_ascii; [lia |]); exact wf_nil |].
      split; [vm_compute; lia |].
      split; [exists 123, [125]; repeat split; discriminate |].
      intros [| f] rest Hf Hd; [cbn [size] in Hf; lia | reflexivity]. }
    destruct (members_roundtrip (kv :: ps') Hall Hunits) as (Hwf & Hsize & Hhead & Hparse);
      [discriminate |].
    split.
    { cbn [app]. apply wellFormed_ascii; [lia |]. apply wellFormed_app; [exact Hwf |].
      apply wellFormed_ascii; [lia | exact wf_nil]. }
    split; [rewrite size_obj; cbn [app List.length]; rewrite length_app; cbn [List.length]; lia |].
    split; [exists 123, (Js.join [44] (members (kv :: ps')) ++ [125]); repeat split; discriminate |].
    intros [| f] rest Hf Hd; rewrite size_obj in Hf; [lia |].
    cbn [app]. rewrite <- app_assoc. cbn [app JSON.parseValue JSON.skipWs].
    change (JSON.isWs 123) with false. cbv beta iota.
    change (123 =? 123) with true. cbv beta iota.
    rewrite (skipWs_head _ (125 :: rest) Hhead).
    destruct Hhead as (c & t & Hjoin & _ & _ & Hc). rewrite Hjoin at 1. cbn [app].
    destruct (N.eqb_spec c 125); [contradiction |].
    rewrite Hparse by lia.
    rewrite (fold_setProp_plain (kv :: ps') [] Hplain Hdist) by reflexivity.
    reflexivity.
Qed.

Lemma parse_stringify (v : value) (text : jsstring) :
  jsonOk v = true -> JSON.stringify v = Some text ->
  JSON.parse text = Some v /\ wellFormed text.
Proof.
  intros Hok Hs. destruct (roundtrip_value v Hok) as (text' & Hs' & Hwf & Hsize & _ & Hparse).
  rewrite Hs in Hs'. inversion Hs'; subst text'. split; [| exact Hwf].
  unfold JSON.parse. specialize (Hparse (S (List.length text)) [] ltac:(lia) I).
  rewrite app_nil_r in Hparse. rewrite Hparse. reflexivity.
Qed.

(** Decoding undoes encoding, for every JSON value. *)
Lemma decode_encode (v : value) (blob : jsstring) :
  jsonOk v = true -> encodeProduct v = Some blob -> decodeProduct blob = Ok v.
Proof.
  unfold encodeProduct. intros Hok Henc.
  destruct (JSON.stringify v) as [text |] eqn:Hs; [| discriminate].
  inversion Henc; subst blob.
  destruct (parse_stringify v text Hok Hs) as [Hparse Hwf].
  unfold decodeProduct.
  rewrite base64url_roundtrip by (apply utf8Encode_bytes; exact Hwf).
  rewrite utf8_roundtrip by exact Hwf. rewrite Hparse. reflexivity.
Qed.

Lemma validOffer_jsonOk (o : ProductOffer) : validOffer o = true -> jsonOk (offerValue o) = true.
Proof.
  unfold validOffer. intros H.
  apply andb_prop in H. destruct H as [H Hfetched].
  apply andb_prop in H. destruct H as [H Hsource].
  apply andb_prop in H. destruct H as [H Hoffer].
  apply andb_prop in H. destruct H as [H Hcurrency].
  apply andb_prop in H. destruct H as [H Hamount].
  apply andb_prop in H. destruct H as [H Himage].
  apply andb_prop in H. destruct H as [H Hurl].
  apply andb_prop in H. destruct H as [Hasin Htitle].
  unfold offerValue. rewrite jsonOk_obj. cbn [forallb fst snd List.map].
  rewrite jsonOk_obj. cbn [forallb fst snd List.map]. rewrite jsonOk_obj.
  cbn [forallb fst snd List.map jsonOk].
  rewrite Hasin, Htitle, Hurl, Himage, Hamount, Hcurrency, Hsource, Hfetched.
  assert (jsonOk match f_offerId o with Some i => VStr i | None => VNull end = true) as ->.
  { destruct (f_offerId o); [exact Hoffer | reflexivity]. }
  vm_compute. reflexivity.
Qed.

(** C3: for every valid offer, decoding the token that [signProduct]
    makes of it yields the offer again. *)
Theorem decode_encode_offer (o : ProductOffer) :
  validOffer o = true ->
  exists blob, encodeProduct (offerValue o) = Some blob
               /\ decodeProduct blob = Ok (offerValue o).
Proof.
  intros Hvalid. pose proof (validOffer_jsonOk o Hvalid) as Hok.
  destruct (roundtrip_value _ Hok) as (text & Hs & _).
  exists (base64urlEncode (Node.utf8Encode text)).
  assert (Henc : encodeProduct (offerValue o) = Some (base64urlEncode (Node.utf8Encode text)))
    by (unfold encodeProduct; rewrite Hs; reflexivity).
  split; [exact Henc | exact (decode_encode _ _ Hok Henc)].
Qed.

(** C4 (as the code has it): [decodeProduct] fails only with the error
    [Invalid product blob format], and exactly when the decoded bytes are
    not a JSON text; a character outside the alphabet is skipped and
    padding may be left out or added; and the token of any JSON value, an
    offer or not, decodes to that value. *)
Theorem decodeProduct_fails_only_on_bad_json :
  (forall blob,
     match JSON.parse (Node.utf8Decode (base64urlDecode blob)) with
     | Some v => decodeProduct blob = Ok v
     | None => decodeProduct blob = Throw (Error (js "Invalid product blob format"))
     end)
  /\ (forall a c b,
        Node.unbase64 (c mod 256) = None -> c mod 256 <> 61 ->
        decodeProduct (a ++ c :: b) = decodeProduct (a ++ b))
  /\ (forall blob k, decodeProduct (blob ++ repeat 61 k) = decodeProduct blob)
  /\ (forall v blob, jsonOk v = true -> encodeProduct v = Some blob -> decodeProduct blob = Ok v).
Proof.
  split; [| split; [| split]].
  - intros blob. unfold decodeProduct.
    destruct (JSON.parse (Node.utf8Decode (base64urlDecode blob))); reflexivity.
  - intros a c b Hc Hpad. unfold decodeProduct.
    rewrite (base64urlDecode_skips a b c Hc Hpad). reflexivity.
  - intros blob k. unfold decodeProduct. rewrite base64urlDecode_padding. reflexivity.
  - exact decode_encode.
Qed.

(** * Concrete runs

    The properties above at the sample deployment, and the runs that
    separate the handler from a stronger reading of it. *)

Ltac run := vm_compute; reflexivity.


Lemma expired_record_absent_and_reaped_witness :
  idempotencyCache staleState !! js "retry-1"
  = Some (mkRecord (VObj [(js "ok", VBool true)]) 1699996399999)
  /\ (TTL < clock sampleEnv (ticks staleState) - 1699996399999)%Z
  /\ (exists s', checkIdempotency sampleEnv (js "retry-1") staleState = (Ok VNull, s')
                 /\ idempotencyCache s' !! js "retry-1" = None)
  /\ (exists s', reaper sampleEnv staleState = (Ok tt, s')
                 /\ idempotencyCache s' !! js "retry-1" = None
                 /\ orders s' = orders staleState
                 /\ forall k r, idempotencyCache staleState !! k = Some r ->
                      (clock sampleEnv (ticks staleState) - i_timestamp r < TTL)%Z ->
                      idempotencyCache s' !! k = Some r).
Proof.
  assert (Hrecord : idempotencyCache staleState !! js "retry-1"
                    = Some (mkRecord (VObj [(js "ok", VBool true)]) 1699996399999)) by run.
  assert (Hold : (TTL < clock sampleEnv (ticks staleState)
                        - i_timestamp (mkRecord (VObj [(js "ok", VBool true)]) 1699996399999))%Z)
    by run.
  split; [exact Hrecord | split; [exact Hold |]].
  exact (expired_record_absent_and_reaped sampleEnv staleState (js "retry-1") _ Hrecord Hold).
Defined.

Lemma missing_fields_rejected_before_ledger_witness :
  (truthyString (productBlob unsignedRequest) = false
   \/ truthyString (signature unsignedRequest) = false)
  /\ storedResult sampleEnv (idempotencyKey unsignedRequest) staleState
     = Some (VObj [(js "ok", VBool false)])
  /\ exists r s',
       purchase sampleEnv unsignedRequest staleState = (Ok r, s')
       /\ status r = 400
       /\ stageOf r = Some (VStr (js "validation"))
       /\ codeOf r = Some (VStr (js "MISSING_REQUIRED_FIELDS"))
       /\ idempotencyCache s' = idempotencyCache staleState
       /\ orders s' = orders staleState
       /\ ticks s' = S (S (ticks staleState)).
Proof.
  assert (Hmissing : truthyString (productBlob unsignedRequest) = false
                     \/ truthyString (signature unsignedRequest) = false)
    by (right; reflexivity).
  split; [exact Hmissing | split; [run |]].
  exact (missing_fields_rejected_before_ledger sampleEnv unsignedRequest staleState Hmissing).
Defined.

Lemma verifyProductSignature_raises_on_length_witness :
  process_env sampleEnv !! SECRET = Some (js "s3cret")
  /\ List.length (Node.hexDecode (js "abcd")) <> 32%nat
  /\ verifyProductSignature sampleEnv (tokenOf keyedRequest) (js "abcd")
     = Throw (mkError "RangeError" (js "Input buffers must have the same byte length")).
Proof.
  assert (Hsecret : process_env sampleEnv !! SECRET = Some (js "s3cret")) by run.
  assert (Hlength : List.length (Node.hexDecode (js "abcd")) <> 32%nat)
    by (vm_compute; lia).
  split; [exact Hsecret | split; [exact Hlength |]].
  exact (verifyProductSignature_raises_on_length sampleEnv (js "s3cret")
           (tokenOf keyedRequest) (js "abcd") Hsecret Hlength).
Defined.

(** The handler's answer to the same signature: [500], stage [unknown]. *)
Example short_signature_answer :
  exists r s',
    purchase sampleEnv shortSignatureRequest initialState = (Ok r, s')
    /\ status r = 500
    /\ stageOf r = Some (VStr (js "unknown"))
    /\ codeOf r = Some (VStr (js "INTERNAL_ERROR"))
    /\ Js.getProp (js "message") match body r with VObj ps => ps | _ => [] end
       = Some (VStr (js "Input buffers must have the same byte length")).
Proof.
  eexists; eexists. split; [run |]. repeat split.
Qed.

(** Signatures that do hex-decode to 32 bytes are compared: the forged one
    is refused, the token's own is accepted. *)
Example full_length_signatures :
  verifyProductSignature sampleEnv (tokenOf forgedRequest) (signatureOf forgedRequest) = Ok false
  /\ verifyProductSignature sampleEnv (tokenOf keyedRequest) (signatureOf keyedRequest) = Ok true.
Proof. split; run. Qed.


Lemma decode_encode_offer_witness :
  validOffer sampleOffer = true
  /\ exists blob, encodeProduct (offerValue sampleOffer) = Some blob
                  /\ decodeProduct blob = Ok (offerValue sampleOffer).
Proof.
  assert (Hvalid : validOffer sampleOffer = true) by run.
  exact (conj Hvalid (decode_encode_offer sampleOffer Hvalid)).
Defined.

Lemma decodeProduct_fails_only_on_bad_json_witness :
  (Node.unbase64 (33 mod 256) = None
   /\ 33 mod 256 <> 61
   /\ decodeProduct (js "e3" ++ 33 :: js "0") = decodeProduct (js "e3" ++ js "0"))
  /\ (jsonOk (VArr []) = true
      /\ encodeProduct (VArr []) = Some (js "W10")
      /\ decodeProduct (js "W10") = Ok (VArr [])).
Proof.
  assert (Hskipped : Node.unbase64 (33 mod 256) = None) by run.
  assert (Hpadding : 33 mod 256 <> 61) by (vm_compute; discriminate).
  assert (Hjson : jsonOk (VArr []) = true) by run.
  assert (Htoken : encodeProduct (VArr []) = Some (js "W10")) by run.
  destruct decodeProduct_fails_only_on_bad_json as [_ [Hskip [_ Hround]]].
  exact (conj (conj Hskipped (conj Hpadding (Hskip (js "e3") 33 (js "0") Hskipped Hpadding)))
              (conj Hjson (conj Htoken (Hround (VArr []) (js "W10") Hjson Htoken)))).
Defined.




(** C4, as stated, fails: tokens without padding, with characters outside
    the alphabet, with too much padding, and tokens of JSON values that are
    no offer at all, are all decoded. *)
Lemma decodeProduct_accepts_non_offers :
  decodeProduct (js "e30") = Ok (VObj [])
  /\ decodeProduct (js "e!3*0") = Ok (VObj [])
  /\ decodeProduct (js "e30=====") = Ok (VObj [])
  /\ decodeProduct (js "bnVsbA") = Ok VNull
  /\ decodeProduct (js "eyJhc2luIjo3fQ") = Ok (VObj [(js "asin", VNum (Num.ofZ 7))]).
Proof.
  split; [run |]. split; [run |]. split; [run |]. split; run.
Qed.



(** * Further properties of the code *)

(** ** The signing utilities *)

Lemma hmac_bytes key data : Forall is_byte (Sha256.hmac key data).
Proof. unfold Sha256.hmac. apply sha256_bytes. Qed.

Lemma verifyProductSignature_compares env secret blob sig :
  process_env env !! SECRET = Some secret ->
  verifyProductSignature env blob sig
  = timingSafeEqual (Node.hexDecode sig)
      (Sha256.hmac (Node.utf8Encode secret) (Node.utf8Encode blob)).
Proof.
  intros Hsecret. unfold verifyProductSignature. rewrite Hsecret. unfold hmacHex.
  destruct (hmacHex_decodes (Node.utf8Encode secret) (Node.utf8Encode blob)) as [-> _].
  reflexivity.
Qed.

Lemma timingSafeEqual_true a b : timingSafeEqual a b = Ok true <-> a = b.
Proof.
  unfold timingSafeEqual. split.
  - destruct (Nat.eqb _ _); [| discriminate].
    intros H. injection H as H. apply bool_decide_eq_true in H. exact H.
  - intros ->. rewrite Nat.eqb_refl. rewrite bool_decide_eq_true_2; reflexivity.
Qed.

Lemma signProduct_accepted env product signed :
  signProduct env product = Ok signed ->
  verifyProductSignature env (s_productBlob signed) (s_signature signed) = Ok true.
Proof.
  unfold signProduct. intros H.
  destruct (encodeProduct product) as [blob |]; [| discriminate].
  destruct (process_env env !! SECRET) as [secret |] eqn:Hsecret; [| discriminate].
  simpl in H. injection H as <-. cbn [s_productBlob s_signature].
  rewrite (verifyProductSignature_compares env secret) by exact Hsecret.
  apply timingSafeEqual_true.
  apply (proj1 (hmacHex_decodes _ _)).
Qed.

(** X1: a signature made by [signProduct] is accepted by
    [verifyProductSignature] for the token it was made for. *)
Theorem signProduct_verifies (env : Env) (product : value) (signed : SignedProduct) :
  signProduct env product = Ok signed ->
  verifyProductSignature env (s_productBlob signed) (s_signature signed) = Ok true.
Proof.
  intros Hsigned. apply signProduct_accepted with (product := product). exact Hsigned.
Qed.

Lemma signProduct_verifies_witness :
  signProduct sampleEnv (offerValue sampleOffer)
  = Ok (mkSigned (tokenOf keyedRequest) (signatureOf keyedRequest))
  /\ verifyProductSignature sampleEnv (tokenOf keyedRequest) (signatureOf keyedRequest)
     = Ok true.
Proof.
  assert (Hsigned : signProduct sampleEnv (offerValue sampleOffer)
                    = Ok (mkSigned (tokenOf keyedRequest) (signatureOf keyedRequest))) by run.
  exact (conj Hsigned (signProduct_verifies sampleEnv _ _ Hsigned)).
Defined.

(** X2: with the secret configured, [verifyProductSignature] answers
    [true] exactly for the strings whose hex decoding is the HMAC-SHA-256
    of the token under the secret. *)
Theorem verifyProductSignature_true_iff (env : Env) (secret blob sig : jsstring) :
  process_env env !! SECRET = Some secret ->
  (verifyProductSignature env blob sig = Ok true
   <-> Node.hexDecode sig
       = Sha256.hmac (Node.utf8Encode secret) (Node.utf8Encode blob)).
Proof.
  intros Hsecret. rewrite (verifyProductSignature_compares env secret) by exact Hsecret.
  apply timingSafeEqual_true.
Qed.

Lemma verifyProductSignature_true_iff_witness :
  process_env sampleEnv !! SECRET = Some (js "s3cret")
  /\ (verifyProductSignature sampleEnv (tokenOf keyedRequest) (signatureOf keyedRequest)
      = Ok true
      <-> Node.hexDecode (signatureOf keyedRequest)
          = Sha256.hmac (Node.utf8Encode (js "s3cret"))
                        (Node.utf8Encode (tokenOf keyedRequest))).
Proof.
  assert (Hsecret : process_env sampleEnv !! SECRET = Some (js "s3cret")) by run.
  exact (conj Hsecret
           (verifyProductSignature_true_iff sampleEnv (js "s3cret")
              (tokenOf keyedRequest) (signatureOf keyedRequest) Hsecret)).
Defined.

Lemma hexDecode_tail (s : jsstring) (c : N) (rest : jsstring) :
  Node.unhex c = None -> Node.hexDecode (s ++ c :: rest) = Node.hexDecode s.
Proof.
  intros Hc. revert s.
  assert (Hpairs : forall n (s : jsstring), (List.length s <= n)%nat ->
            Node.hexDecode (s ++ c :: rest) = Node.hexDecode s).
  { induction n as [| n IH]; intros s Hn.
    - destruct s; [| simpl in Hn; lia]. simpl. destruct rest; [reflexivity |].
      rewrite Hc. reflexivity.
    - destruct s as [| a [| b t]].
      + simpl. destruct rest; [reflexivity |]. rewrite Hc. reflexivity.
      + simpl. rewrite Hc. destruct (Node.unhex a); reflexivity.
      + cbn [app Node.hexDecode].
        destruct (Node.unhex a); [| reflexivity]. destruct (Node.unhex b); [| reflexivity].
        f_equal. apply IH. simpl in Hn. lia. }
  intros s. apply (Hpairs (List.length s)). lia.
Qed.

Lemma unhex_hexUpper c : c < 65536 -> Node.unhex (hexUpper c) = Node.unhex c.
Proof.
  intros Hc. unfold hexUpper, Node.unhex.
  destruct ((97 <=? c) && (c <=? 102)) eqn:E; [| reflexivity].
  apply andb_prop in E. destruct E as [E1 E2].
  apply N.leb_le in E1. apply N.leb_le in E2.
  rewrite (N.mod_small c 256) by lia. rewrite (N.mod_small (c - 32) 256) by lia.
  replace (48 <=? c - 32) with true by (symmetry; apply N.leb_le; lia).
  replace (c - 32 <=? 57) with false by (symmetry; apply N.leb_gt; lia).
  replace (65 <=? c - 32) with true by (symmetry; apply N.leb_le; lia).
  replace (c - 32 <=? 70) with true by (symmetry; apply N.leb_le; lia).
  replace (48 <=? c) with true by (symmetry; apply N.leb_le; lia).
  replace (c <=? 57) with false by (symmetry; apply N.leb_gt; lia).
  replace (65 <=? c) with true by (symmetry; apply N.leb_le; lia).
  replace (c <=? 70) with false by (symmetry; apply N.leb_gt; lia).
  replace (97 <=? c) with true by (symmetry; apply N.leb_le; lia).
  replace (c <=? 102) with true by (symmetry; apply N.leb_le; lia).
  cbn [andb]. f_equal. lia.
Qed.

Lemma hexDecode_hexUpper (s : jsstring) :
  Forall code_unit s -> Node.hexDecode (List.map hexUpper s) = Node.hexDecode s.
Proof.
  assert (Hpairs : forall n (u : jsstring), (List.length u <= n)%nat -> Forall code_unit u ->
            Node.hexDecode (List.map hexUpper u) = Node.hexDecode u).
  { induction n as [| n IH]; intros u Hn Hs.
    - destruct u; [reflexivity | simpl in Hn; lia].
    - destruct u as [| a [| b t]]; try reflexivity.
      inversion Hs as [| ? ? Ha Hs']; subst. inversion Hs' as [| ? ? Hb Ht]; subst.
      cbn [List.map Node.hexDecode].
      rewrite (unhex_hexUpper a Ha), (unhex_hexUpper b Hb).
      destruct (Node.unhex a); [| reflexivity]. destruct (Node.unhex b); [| reflexivity].
      f_equal. apply IH; [simpl in Hn; lia | exact Ht]. }
  intros Hs. apply (Hpairs (List.length s)); [lia | exact Hs].
Qed.

Lemma unitsOk_units (s : jsstring) : unitsOk s = true -> Forall code_unit s.
Proof.
  unfold unitsOk. intros H. apply List.Forall_forall. intros c Hc.
  apply (proj1 (forallb_forall _ _) H) in Hc. apply N.ltb_lt in Hc. exact Hc.
Qed.

(** X3: acceptance is not tied to one spelling of the signature: a
    signature that is accepted stays accepted with its hex letters in upper
    case, and with any text appended that starts with a character that is
    no hex digit. *)
Theorem accepted_signature_has_other_spellings (env : Env) (blob sig : jsstring) :
  Forall code_unit sig ->
  verifyProductSignature env blob sig = Ok true ->
  verifyProductSignature env blob (List.map hexUpper sig) = Ok true
  /\ forall c rest, Node.unhex c = None ->
       verifyProductSignature env blob (sig ++ c :: rest) = Ok true.
Proof.
  intros Hunits Hok.
  assert (Hsame : forall sig', Node.hexDecode sig' = Node.hexDecode sig ->
                               verifyProductSignature env blob sig' = Ok true).
  { intros sig' Hd. unfold verifyProductSignature in *.
    destruct (hmacHex (process_env env !! SECRET) blob); [| discriminate].
    rewrite Hd. exact Hok. }
  split.
  - apply Hsame. apply hexDecode_hexUpper. exact Hunits.
  - intros c rest Hc. apply Hsame. apply hexDecode_tail. exact Hc.
Qed.

Lemma accepted_signature_has_other_spellings_witness :
  Forall code_unit (signatureOf keyedRequest)
  /\ verifyProductSignature sampleEnv (tokenOf keyedRequest) (signatureOf keyedRequest)
     = Ok true
  /\ verifyProductSignature sampleEnv (tokenOf keyedRequest)
       (List.map hexUpper (signatureOf keyedRequest)) = Ok true
  /\ Node.unhex 33 = None
  /\ verifyProductSignature sampleEnv (tokenOf keyedRequest)
       (signatureOf keyedRequest ++ 33 :: js "anything") = Ok true.
Proof.
  assert (Hunits : Forall code_unit (signatureOf keyedRequest))
    by (apply unitsOk_units; run).
  assert (Hok : verifyProductSignature sampleEnv (tokenOf keyedRequest)
                  (signatureOf keyedRequest) = Ok true) by run.
  assert (Hmark : Node.unhex 33 = None) by run.
  destruct (accepted_signature_has_other_spellings sampleEnv _ _ Hunits Hok) as [Hupper Htail].
  exact (conj Hunits (conj Hok (conj Hupper (conj Hmark (Htail 33 (js "anything") Hmark))))).
Defined.

Lemma hexdigit_lower d : d < 16 -> isLowerHex (Node.hexdigit d) = true.
Proof.
  intros Hd. unfold Node.hexdigit, isLowerHex.
  destruct (N.ltb_spec d 10).
  - replace (48 <=? 48 + d) with true by (symmetry; apply N.leb_le; lia).
    replace (48 + d <=? 57) with true by (symmetry; apply N.leb_le; lia).
    reflexivity.
  - replace (97 <=? 87 + d) with true by (symmetry; apply N.leb_le; lia).
    replace (87 + d <=? 102) with true by (symmetry; apply N.leb_le; lia).
    apply orb_true_r.
Qed.

Lemma hexEncode_format (b : Buffer) :
  Forall is_byte b ->
  List.length (Node.hexEncode b) = (2 * List.length b)%nat
  /\ forallb isLowerHex (Node.hexEncode b) = true.
Proof.
  unfold is_byte. induction 1 as [| x b Hx Hb [IHl IHc]]; [split; reflexivity |].
  cbn [Node.hexEncode flat_map app List.length forallb].
  fold (Node.hexEncode b). split.
  - rewrite IHl. lia.
  - rewrite IHc, !hexdigit_lower; [reflexivity | |].
    + apply N.mod_lt. discriminate.
    + apply N.Div0.div_lt_upper_bound. lia.
Qed.

Lemma b64char_urlSafe n :
  let c := Node.b64char n in
  c <> 61 /\ isUrlSafe (if (if c =? 43 then 45 else c) =? 47 then 95
                        else (if c =? 43 then 45 else c)) = true.
Proof.
  unfold Node.b64char, isUrlSafe.
  destruct (N.ltb_spec n 26); [| destruct (N.ltb_spec n 52); [| destruct (N.ltb_spec n 62);
    [| destruct (N.eqb_spec n 62)]]].
  - split; [lia |].
    replace (65 + n =? 43) with false by (symmetry; apply N.eqb_neq; lia).
    replace (65 + n =? 47) with false by (symmetry; apply N.eqb_neq; lia).
    replace (65 <=? 65 + n) with true by (symmetry; apply N.leb_le; lia).
    replace (65 + n <=? 90) with true by (symmetry; apply N.leb_le; lia).
    reflexivity.
  - split; [lia |].
    replace (71 + n =? 43) with false by (symmetry; apply N.eqb_neq; lia).
    replace (71 + n =? 47) with false by (symmetry; apply N.eqb_neq; lia).
    replace (97 <=? 71 + n) with true by (symmetry; apply N.leb_le; lia).
    replace (71 + n <=? 122) with true by (symmetry; apply N.leb_le; lia).
    cbn [andb]. rewrite orb_true_r. reflexivity.
  - split; [lia |].
    replace (n - 4 =? 43) with false by (symmetry; apply N.eqb_neq; lia).
    replace (n - 4 =? 47) with false by (symmetry; apply N.eqb_neq; lia).
    replace (48 <=? n - 4) with true by (symmetry; apply N.leb_le; lia).
    replace (n - 4 <=? 57) with true by (symmetry; apply N.leb_le; lia).
    cbn [andb]. rewrite !orb_true_r. reflexivity.
  - split; [discriminate | reflexivity].
  - split; [discriminate | reflexivity].
Qed.

Lemma urlSafe_cons c rest :
  c <> 61 ->
  removeAll 61 (replaceAll 47 95 (replaceAll 43 45 (c :: rest)))
  = (if (if c =? 43 then 45 else c) =? 47 then 95 else (if c =? 43 then 45 else c))
      :: removeAll 61 (replaceAll 47 95 (replaceAll 43 45 rest)).
Proof.
  intros Hc. unfold removeAll, replaceAll. cbn [List.map List.filter].
  set (d := if (if c =? 43 then 45 else c) =? 47 then 95 else (if c =? 43 then 45 else c)).
  assert (Hd : (d =? 61) = false).
  { apply N.eqb_neq. subst d.
    destruct (N.eqb_spec c 43); [discriminate |].
    destruct (N.eqb_spec c 47); [discriminate | exact Hc]. }
  rewrite Hd. reflexivity.
Qed.

(** The text of [base64urlEncode]: the URL-safe alphabet only, and four
    characters for every three bytes, without padding. *)
Lemma base64urlEncode_format (b : Buffer) :
  forallb isUrlSafe (base64urlEncode b) = true
  /\ List.length (base64urlEncode b) = ((4 * List.length b + 2) / 3)%nat.
Proof.
  unfold base64urlEncode.
  induction b as [| x | x y | x y z rest [IHc IHl]] using triples_ind.
  - split; reflexivity.
  - cbn [Node.base64Encode].
    rewrite !urlSafe_cons by apply b64char_urlSafe.
    cbn [forallb List.length]. rewrite !(proj2 (b64char_urlSafe _)). split; reflexivity.
  - cbn [Node.base64Encode].
    rewrite !urlSafe_cons by apply b64char_urlSafe.
    cbn [forallb List.length]. rewrite !(proj2 (b64char_urlSafe _)). split; reflexivity.
  - cbn [Node.base64Encode].
    rewrite !urlSafe_cons by apply b64char_urlSafe.
    cbn [forallb List.length]. rewrite !(proj2 (b64char_urlSafe _)), IHc, IHl.
    split; [reflexivity |].
    replace (4 * S (S (S (List.length rest))) + 2)%nat
      with ((4 * List.length rest + 2) + 4 * 3)%nat by lia.
    rewrite Nat.div_add by discriminate. lia.
Qed.

(** X4: what [signProduct] hands out has a fixed form: the signature is
    64 lower-case hex digits, and the token is written in the URL-safe
    alphabet only, without padding. *)
Theorem signProduct_format (env : Env) (product : value) (signed : SignedProduct) :
  signProduct env product = Ok signed ->
  List.length (s_signature signed) = 64%nat
  /\ forallb isLowerHex (s_signature signed) = true
  /\ forallb isUrlSafe (s_productBlob signed) = true.
Proof.
  unfold signProduct, encodeProduct. intros H.
  destruct (JSON.stringify product) as [text |]; [| discriminate].
  destruct (process_env env !! SECRET) as [secret |]; [| discriminate].
  simpl in H. injection H as <-. cbn [s_productBlob s_signature].
  destruct (hexEncode_format _ (hmac_bytes (Node.utf8Encode secret)
              (Node.utf8Encode (base64urlEncode (Node.utf8Encode text))))) as [Hl Hc].
  rewrite (proj2 (hmacHex_decodes _ _)) in Hl.
  split; [exact Hl | split; [exact Hc |]].
  apply base64urlEncode_format.
Qed.

Lemma signProduct_format_witness :
  signProduct sampleEnv (offerValue unlistedOffer)
  = Ok (mkSigned (tokenOf (cappedRequest unlistedOffer))
                 (signatureOf (cappedRequest unlistedOffer)))
  /\ List.length (signatureOf (cappedRequest unlistedOffer)) = 64%nat
  /\ forallb isLowerHex (signatureOf (cappedRequest unlistedOffer)) = true
  /\ forallb isUrlSafe (tokenOf (cappedRequest unlistedOffer)) = true.
Proof.
  assert (Hsigned : signProduct sampleEnv (offerValue unlistedOffer)
                    = Ok (mkSigned (tokenOf (cappedRequest unlistedOffer))
                                   (signatureOf (cappedRequest unlistedOffer)))) by run.
  exact (conj Hsigned (signProduct_format sampleEnv _ _ Hsigned)).
Defined.

(** X5: for every buffer of bytes, [base64urlDecode] of its
    [base64urlEncode] is the buffer again. *)
Theorem base64url_decode_encode (b : Buffer) :
  Forall is_byte b -> base64urlDecode (base64urlEncode b) = b.
Proof. intros Hbytes. apply base64url_roundtrip. exact Hbytes. Qed.

Lemma base64url_decode_encode_witness :
  Forall is_byte [0; 255; 62; 63; 128]
  /\ base64urlEncode [0; 255; 62; 63; 128] = js "AP8-P4A"
  /\ base64urlDecode (base64urlEncode [0; 255; 62; 63; 128]) = [0; 255; 62; 63; 128].
Proof.
  assert (Hbytes : Forall is_byte [0; 255; 62; 63; 128])
    by (repeat (constructor; [reflexivity |]); constructor).
  assert (Htext : base64urlEncode [0; 255; 62; 63; 128] = js "AP8-P4A") by run.
  exact (conj Hbytes (conj Htext (base64url_decode_encode _ Hbytes))).
Defined.

(** ** The catalog *)

Lemma findAsin_spec (asin : value) (ps : list CatalogEntry) :
  match findAsin asin ps with
  | Some entry => In entry ps /\ asin = VStr (c_asin entry)
  | None => forall entry, In entry ps -> asin <> VStr (c_asin entry)
  end.
Proof.
  unfold findAsin. destruct (List.find _ ps) as [entry |] eqn:E.
  - apply find_some in E. destruct E as [Hin Heq]. split; [exact Hin |].
    destruct asin; try discriminate. simpl in Heq.
    unfold jsstring_eqb in Heq. apply bool_decide_eq_true in Heq. congruence.
  - intros entry Hin Heq. apply (find_none _ _ E) in Hin. subst asin. simpl in Hin.
    unfold jsstring_eqb in Hin. rewrite bool_decide_eq_true_2 in Hin by reflexivity.
    discriminate.
Qed.

(** X6: for an identifier that is given (truthy), [validateAsin] answers
    [valid] exactly when the identifier is a string that the catalog
    lists; it then returns the identifier itself with a listed entry that
    carries it, and otherwise [not_in_catalog] with no entry and, as
    suggestions, the first three identifiers of the catalog. *)
Theorem validateAsin_given (env : Env) (s : State) (asin : value) :
  Js.ToBoolean asin = true ->
  exists outcome s',
    validateAsin env asin s = (Ok outcome, s')
    /\ v_asin outcome = asin
    /\ (valid outcome = true
        <-> exists entry, In entry (products (catalogInEffect env s))
                          /\ asin = VStr (c_asin entry))
    /\ (valid outcome = true ->
        reason outcome = "found_in_catalog"%string
        /\ exists entry, v_product outcome = Some entry
                         /\ In entry (products (catalogInEffect env s))
                         /\ asin = VStr (c_asin entry))
    /\ (valid outcome = false ->
        reason outcome = "not_in_catalog"%string
        /\ v_product outcome = None
        /\ suggestions outcome
           = firstn 3 (List.map c_asin (products (catalogInEffect env s)))).
Proof.
  intros Hgiven.
  destruct (validateAsin_run env asin s) as (s' & Hrun & _).
  exists (validateAsinIn (catalogInEffect env s) asin), s'.
  split; [exact Hrun |].
  unfold validateAsinIn. rewrite Hgiven. cbn [negb].
  pose proof (findAsin_spec asin (products (catalogInEffect env s))) as Hfind.
  destruct (findAsin asin (products (catalogInEffect env s))) as [entry |].
  - destruct Hfind as [Hin Heq]. cbn [valid v_asin v_product reason suggestions].
    split; [reflexivity |]. split; [split; [intros _; eauto | reflexivity] |].
    split; [intros _; split; [reflexivity | eauto] | discriminate].
  - cbn [valid v_asin v_product reason suggestions].
    split; [reflexivity |]. split.
    + split; [discriminate |]. intros (entry & Hin & Heq). destruct (Hfind entry Hin Heq).
    + split; [discriminate |]. intros _. repeat split.
Qed.

Lemma validateAsin_given_witness :
  Js.ToBoolean (VStr (js "B000000000")) = true
  /\ exists outcome s',
       validateAsin sampleEnv (VStr (js "B000000000")) initialState = (Ok outcome, s')
       /\ v_asin outcome = VStr (js "B000000000")
       /\ (valid outcome = true
           <-> exists entry, In entry (products (catalogInEffect sampleEnv initialState))
                             /\ VStr (js "B000000000") = VStr (c_asin entry))
       /\ (valid outcome = true ->
           reason outcome = "found_in_catalog"%string
           /\ exists entry, v_product outcome = Some entry
                            /\ In entry (products (catalogInEffect sampleEnv initialState))
                            /\ VStr (js "B000000000") = VStr (c_asin entry))
       /\ (valid outcome = false ->
           reason outcome = "not_in_catalog"%string
           /\ v_product outcome = None
           /\ suggestions outcome
              = firstn 3 (List.map c_asin (products (catalogInEffect sampleEnv initialState)))).
Proof.
  assert (Hgiven : Js.ToBoolean (VStr (js "B000000000")) = true) by run.
  exact (conj Hgiven (validateAsin_given sampleEnv initialState _ Hgiven)).
Defined.

(** X7: the catalog is read once.  After any call of [validateAsin] the
    catalog variable holds the catalog that call used, and every later
    call, whatever the catalog file has become meanwhile (the environment
    [env'] of the later call), validates against that same catalog and
    leaves the state as it is. *)
Theorem validateAsin_reads_catalog_once (env env' : Env) (s : State) (asin asin' : value) :
  exists outcome s1,
    validateAsin env asin s = (Ok outcome, s1)
    /\ productCatalog s1 = Some (catalogInEffect env s)
    /\ validateAsin env' asin' s1
       = (Ok (validateAsinIn (catalogInEffect env s) asin'), s1).
Proof.
  destruct (validateAsin_run env asin s) as (s1 & Hrun & Hcat & _).
  exists (validateAsinIn (catalogInEffect env s) asin), s1.
  split; [exact Hrun |]. split; [exact Hcat |].
  unfold validateAsin, bind, getState, ret. rewrite Hcat. reflexivity.
Qed.

(** ** The idempotency ledger *)

Lemma storeIdempotencyResult_run env key r s :
  exists s1,
    storeIdempotencyResult env key r s = (Ok tt, s1)
    /\ idempotencyCache s1 = <[key := mkRecord r (clock env (ticks s))]> (idempotencyCache s)
    /\ orders s1 = orders s
    /\ ticks s1 = S (ticks s).
Proof. unfold storeIdempotencyResult, bind, now, getState, setCache. simpl. eauto. Qed.

(** X8: insert and lookup.  [storeIdempotencyResult] files the result
    under its key with the time of the clock, replacing what the key held
    and touching no other key; and as long as the ledger is not changed
    again, [checkIdempotency] returns that result when less than 3600000 ms
    have passed since, and otherwise answers [null] and drops the record. *)
Theorem stored_result_found_until_expiry (env : Env) (key : jsstring) (r : value) (s : State) :
  exists s1,
    storeIdempotencyResult env key r s = (Ok tt, s1)
    /\ idempotencyCache s1 !! key = Some (mkRecord r (clock env (ticks s)))
    /\ (forall k, k <> key -> idempotencyCache s1 !! k = idempotencyCache s !! k)
    /\ forall s2, idempotencyCache s2 = idempotencyCache s1 ->
         exists s3,
           checkIdempotency env key s2
           = (Ok (if (clock env (ticks s2) - clock env (ticks s) <? TTL)%Z then r else VNull),
              s3)
           /\ idempotencyCache s3 !! key
              = (if (clock env (ticks s2) - clock env (ticks s) <? TTL)%Z
                 then Some (mkRecord r (clock env (ticks s))) else None)
           /\ forall k, k <> key -> idempotencyCache s3 !! k = idempotencyCache s1 !! k.
Proof.
  destruct (storeIdempotencyResult_run env key r s) as (s1 & Hrun & Hcache & _).
  exists s1. split; [exact Hrun |].
  assert (Hkey : idempotencyCache s1 !! key = Some (mkRecord r (clock env (ticks s))))
    by (rewrite Hcache; apply lookup_insert_eq).
  split; [exact Hkey |]. split.
  { intros k Hk. rewrite Hcache. apply lookup_insert_ne. congruence. }
  intros s2 Hsame. rewrite <- Hsame in Hkey.
  destruct (Z.ltb_spec (clock env (ticks s2) - clock env (ticks s)) TTL) as [Hlive | Hold].
  - destruct (checkIdempotency_live env s2 key _ Hkey Hlive) as (s3 & E & Hc & _).
    exists s3. split; [exact E |]. rewrite Hc. split; [exact Hkey |].
    intros k _. rewrite Hsame. reflexivity.
  - destruct (checkIdempotency_expired env s2 key _ Hkey Hold) as (s3 & E & Hc & _).
    exists s3. split; [exact E |]. rewrite Hc. split; [apply lookup_delete_eq |].
    intros k Hk. rewrite lookup_delete_ne by congruence. rewrite Hsame. reflexivity.
Qed.

(** X9: the reaper and the lookup draw the same line.  At one reading of
    the clock, a run of the reaper leaves every key as [checkIdempotency]
    would leave it when asked for that key: a record is kept exactly when
    less than 3600000 ms have passed, and a record of exactly that age is
    dropped by both. *)
Theorem reaper_agrees_with_checkIdempotency (env : Env) (s : State) (key : jsstring) :
  idempotencyCache (snd (reaper env s)) !! key
  = idempotencyCache (snd (checkIdempotency env key s)) !! key
  /\ (forall existing,
        idempotencyCache s !! key = Some existing ->
        idempotencyCache (snd (reaper env s)) !! key
        = (if (clock env (ticks s) - i_timestamp existing <? TTL)%Z
           then Some existing else None)).
Proof.
  destruct (reaper_run env s) as (s' & E & Hc & _). rewrite E. cbn [snd]. rewrite Hc.
  assert (Hline : forall existing,
            idempotencyCache s !! key = Some existing ->
            filter (fun kv => (clock env (ticks s) - i_timestamp (snd kv) < TTL)%Z)
                   (idempotencyCache s) !! key
            = (if (clock env (ticks s) - i_timestamp existing <? TTL)%Z
               then Some existing else None)).
  { intros existing Hget.
    destruct (Z.ltb_spec (clock env (ticks s) - i_timestamp existing) TTL) as [Hlive | Hold].
    - apply map_lookup_filter_Some. split; assumption.
    - apply map_lookup_filter_None. right. intros r Hr. rewrite Hget in Hr.
      inversion Hr; subst. simpl. lia. }
  split; [| exact Hline].
  destruct (idempotencyCache s !! key) as [existing |] eqn:Hget.
  - rewrite (Hline existing eq_refl).
    destruct (Z.ltb_spec (clock env (ticks s) - i_timestamp existing) TTL) as [Hlive | Hold].
    + destruct (checkIdempotency_live env s key _ Hget Hlive) as (s3 & E3 & Hc3 & _).
      rewrite E3. cbn [snd]. rewrite Hc3. symmetry. exact Hget.
    + destruct (checkIdempotency_expired env s key _ Hget Hold) as (s3 & E3 & Hc3 & _).
      rewrite E3. cbn [snd]. rewrite Hc3. symmetry. apply lookup_delete_eq.
  - rewrite (checkIdempotency_none env s key Hget). cbn [snd]. rewrite Hget.
    apply map_lookup_filter_None. left. exact Hget.
Qed.

(** ** The payment builders of [src/payments/exact.js] *)

Lemma andThen_ok {A B} (r : result A) (k : A -> result B) b :
  andThen r k = Ok b -> exists a, r = Ok a /\ k a = Ok b.
Proof. destruct r as [a | e]; simpl; [eauto | discriminate]. Qed.

Lemma config_nonempty env config :
  getExactPaymentConfig env = Ok config ->
  Js.ToBoolean (VStr (x_asset config)) = true
  /\ Js.ToBoolean (VStr (x_chain config)) = true
  /\ Js.ToBoolean (VStr (x_recipient config)) = true.
Proof.
  unfold getExactPaymentConfig, envOr. intros H.
  destruct (process_env env !! js "EXACT_RECIPIENT") as [[| c r] |]; try discriminate.
  destruct (process_env env !! js "FACILITATOR_URL") as [[| d u] |]; try discriminate.
  injection H as <-. cbn [x_asset x_chain x_recipient].
  repeat split;
    repeat match goal with
           | |- context [match ?o with _ => _ end] => destruct o as [[| ? ?] |]
           end; reflexivity.
Qed.

Lemma or_truthy a b : Js.ToBoolean b = true -> Js.ToBoolean (Js.or a b) = true.
Proof. unfold Js.or. destruct (Js.ToBoolean a) eqn:E; [intros _; exact E | auto]. Qed.

Lemma positive_amount_nonempty amount :
  notPositive (Num.parseFloat amount) = false -> Js.ToBoolean (VStr amount) = true.
Proof. destruct amount; [vm_compute; discriminate | reflexivity]. Qed.

(** The entry that [buildExactAccepts] builds. *)
Lemma buildExactAccepts_shape env inputConfig input response :
  buildExactAccepts env inputConfig input = Ok response ->
  exists amount asset chain recipient more rest,
    response = VObj ((js "x402Version", VNum (Num.ofZ 1))
                       :: (js "accepts",
                           VArr [VObj ((js "scheme", VStr (js "exact"))
                                         :: (js "amount", VStr amount)
                                         :: (js "asset", asset)
                                         :: (js "chain", chain)
                                         :: (js "recipient", recipient) :: more)])
                       :: rest)
    /\ notPositive (Num.parseFloat amount) = false
    /\ Js.ToBoolean asset = true /\ Js.ToBoolean chain = true
    /\ Js.ToBoolean recipient = true
    /\ (forall reference, Js.get inputConfig (js "reference") = Ok reference ->
          more = if Js.ToBoolean reference then [(js "reference", reference)] else [])
    /\ (forall inputPaymentId configPaymentId message,
          Js.get (match input with VUndefined => VObj [] | i => i end) (js "paymentId")
          = Ok inputPaymentId ->
          Js.get inputConfig (js "paymentId") = Ok configPaymentId ->
          Js.get (match input with VUndefined => VObj [] | i => i end) (js "message")
          = Ok message ->
          rest = (if Js.ToBoolean (Js.or inputPaymentId configPaymentId)
                  then [(js "paymentId", Js.or inputPaymentId configPaymentId)] else [])
                 ++ (if Js.ToBoolean message then [(js "message", message)] else [])).
Proof.
  unfold buildExactAccepts. intros H.
  apply andThen_ok in H. destruct H as (config & Hconfig & H).
  apply andThen_ok in H. destruct H as (rawAmount & Hraw & H).
  destruct (Js.ToBoolean rawAmount); cbn [negb] in H; [| discriminate].
  set (amount := match rawAmount with VNum n => Num.toFixed2 n | _ => Js.ToString rawAmount end)
    in H.
  destruct (notPositive (Num.parseFloat amount)) eqn:Hpos; [discriminate |].
  apply andThen_ok in H. destruct H as (asset & _ & H).
  apply andThen_ok in H. destruct H as (chain & _ & H).
  apply andThen_ok in H. destruct H as (recipient & _ & H).
  apply andThen_ok in H. destruct H as (reference & Href & H).
  apply andThen_ok in H. destruct H as (inputPaymentId & Hip & H).
  apply andThen_ok in H. destruct H as (configPaymentId & Hcp & H).
  apply andThen_ok in H. destruct H as (message & Hmsg & H).
  destruct (config_nonempty env config Hconfig) as (Ha & Hc & Hr).
  injection H as <-.
  exists amount, (Js.or asset (VStr (x_asset config))), (Js.or chain (VStr (x_chain config))),
    (Js.or recipient (VStr (x_recipient config))),
    (if Js.ToBoolean reference then [(js "reference", reference)] else []).
  assert (Hentry :
    (if Js.ToBoolean reference
     then Js.setProp (js "reference") reference
            [(js "scheme", VStr (js "exact")); (js "amount", VStr amount);
             (js "asset", Js.or asset (VStr (x_asset config)));
             (js "chain", Js.or chain (VStr (x_chain config)));
             (js "recipient", Js.or recipient (VStr (x_recipient config)))]
     else [(js "scheme", VStr (js "exact")); (js "amount", VStr amount);
           (js "asset", Js.or asset (VStr (x_asset config)));
           (js "chain", Js.or chain (VStr (x_chain config)));
           (js "recipient", Js.or recipient (VStr (x_recipient config)))])
    = (js "scheme", VStr (js "exact")) :: (js "amount", VStr amount)
        :: (js "asset", Js.or asset (VStr (x_asset config)))
        :: (js "chain", Js.or chain (VStr (x_chain config)))
        :: (js "recipient", Js.or recipient (VStr (x_recipient config)))
        :: (if Js.ToBoolean reference then [(js "reference", reference)] else [])).
  { destruct (Js.ToBoolean reference); reflexivity. }
  rewrite Hentry.
  destruct (Js.ToBoolean (Js.or inputPaymentId configPaymentId)) eqn:Epid;
    destruct (Js.ToBoolean message) eqn:Emsg;
    rewrite ?setProp_fresh by reflexivity; cbn [app];
    (eexists; split; [reflexivity |]);
    (split; [exact Hpos |]);
    (split; [apply or_truthy; exact Ha |]);
    (split; [apply or_truthy; exact Hc |]);
    (split; [apply or_truthy; exact Hr |]);
    (split; [intros reference' Href'; rewrite Href in Href'; injection Href' as <-;
             reflexivity |]);
    intros ip cp msg Hip' Hcp' Hmsg';
    rewrite Hip in Hip'; injection Hip' as <-;
    rewrite Hcp in Hcp'; injection Hcp' as <-;
    rewrite Hmsg in Hmsg'; injection Hmsg' as <-;
    rewrite ?Epid, ?Emsg; reflexivity.
Qed.

(** Reading a property off an object written with literal keys. *)
Ltac props :=
  try unfold truthyField; try unfold field;
  repeat (cbn [Js.getProp];
          match goal with
          | |- context [jsstring_eqb (js ?a) (js ?b)] =>
              let v := eval vm_compute in (jsstring_eqb (js a) (js b)) in
              change (jsstring_eqb (js a) (js b)) with v
          end);
  cbn [Js.getProp].

Lemma validateExactEntry_spec (entry : value) :
  validateExactEntry entry = Ok tt <-> exactEntryOk entry = true.
Proof.
  destruct entry as [| | b | n | str | l | ps].
  - split; [vm_compute; discriminate | discriminate].
  - split; [vm_compute; discriminate | discriminate].
  - split; [| discriminate].
    unfold validateExactEntry. cbn [Js.typeofObject negb]. rewrite orb_true_r. discriminate.
  - split; [| discriminate].
    unfold validateExactEntry. cbn [Js.typeofObject negb]. rewrite orb_true_r. discriminate.
  - split; [| discriminate].
    unfold validateExactEntry. cbn [Js.typeofObject negb]. rewrite orb_true_r. discriminate.
  - split; [| discriminate].
    unfold validateExactEntry. cbn [Js.ToBoolean Js.typeofObject negb orb Js.get].
    change (jsstring_eqb (js "scheme") (js "length")) with false. cbv iota.
    change (Js.arrayIndex (js "scheme")) with (@None N). cbn [andThen Js.strictEqualsString negb].
    discriminate.
  - unfold validateExactEntry, exactEntryOk, missingField, truthyField, field.
    cbn [Js.ToBoolean Js.typeofObject negb orb Js.get andThen].
    destruct (Js.getProp (js "scheme") ps) as [scheme |]; cbn [Js.strictEqualsString];
      [destruct (Js.strictEqualsString scheme (js "exact")) |];
      cbn [negb andb]; try (split; discriminate).
    destruct (Js.getProp (js "amount") ps) as [x |];
      [destruct (Js.ToBoolean x) eqn:Ex |]; cbn [Js.ToBoolean negb andThen andb];
      try (split; discriminate).
    destruct (Js.getProp (js "asset") ps) as [y |];
      [destruct (Js.ToBoolean y) eqn:Ey |]; cbn [Js.ToBoolean negb andThen andb];
      try (split; discriminate).
    destruct (Js.getProp (js "chain") ps) as [z |];
      [destruct (Js.ToBoolean z) eqn:Ez |]; cbn [Js.ToBoolean negb andThen andb];
      try (split; discriminate).
    destruct (Js.getProp (js "recipient") ps) as [w |];
      [destruct (Js.ToBoolean w) eqn:Ew |]; cbn [Js.ToBoolean negb andThen andb];
      try (split; discriminate).
    split; reflexivity.
Qed.

Lemma validateExactEntries_spec (entries : list value) :
  validateExactEntries entries = Ok tt <-> forallb exactEntryOk entries = true.
Proof.
  induction entries as [| entry rest IH]; [split; reflexivity |].
  cbn [validateExactEntries forallb]. rewrite andb_true_iff, <- IH, <- validateExactEntry_spec.
  destruct (validateExactEntry entry) as [[] | e]; cbn [andThen].
  - tauto.
  - split; [discriminate | intros [H _]; discriminate].
Qed.

(** X10: [validateExactAccepts] lets an argument pass exactly when it is
    a non-empty array of which every entry is an object with the scheme
    [exact] and a truthy [amount], [asset], [chain] and [recipient]. *)
Theorem validateExactAccepts_spec (accepts : value) :
  validateExactAccepts accepts = Ok tt
  <-> exists entry rest,
        accepts = VArr (entry :: rest) /\ forallb exactEntryOk (entry :: rest) = true.
Proof.
  split.
  - destruct accepts as [| | | | | [| entry rest] |]; try discriminate.
    intros H. exists entry, rest. split; [reflexivity |].
    apply validateExactEntries_spec. exact H.
  - intros (entry & rest & -> & H). apply validateExactEntries_spec. exact H.
Qed.

(** X11: what [buildExactAccepts] returns always passes
    [validateExactAccepts]: it holds one entry, of scheme [exact], whose
    amount is a text that [parseFloat] reads as a positive number. *)
Theorem buildExactAccepts_passes_validation (env : Env) (inputConfig input response : value) :
  buildExactAccepts env inputConfig input = Ok response ->
  exists entry amount,
    field response "accepts" = Some (VArr [entry])
    /\ validateExactAccepts (VArr [entry]) = Ok tt
    /\ field entry "scheme" = Some (VStr (js "exact"))
    /\ field entry "amount" = Some (VStr amount)
    /\ notPositive (Num.parseFloat amount) = false.
Proof.
  intros H.
  destruct (buildExactAccepts_shape env inputConfig input response H)
    as (amount & asset & chain & recipient & more & rest & -> & Hpos & Ha & Hc & Hr & _ & _).
  eexists; exists amount. split; [props; reflexivity |].
  split.
  { apply validateExactAccepts_spec. eexists; eexists. split; [reflexivity |].
    cbn [forallb]. unfold exactEntryOk. props.
    rewrite (positive_amount_nonempty amount Hpos), Ha, Hc, Hr. reflexivity. }
  split; [props; reflexivity |]. split; [props; reflexivity | exact Hpos].
Qed.

Lemma buildExactAccepts_passes_validation_witness :
  buildExactAccepts paymentEnv
    (VObj [(js "amount", VNum (Num.ofDecimal false 16999 (-2)))]) VUndefined
  = Ok (VObj [(js "x402Version", VNum (Num.ofZ 1));
              (js "accepts",
               VArr [VObj [(js "scheme", VStr (js "exact"));
                           (js "amount", VStr (js "169.99"));
                           (js "asset", VStr (js "USDC"));
                           (js "chain", VStr (js "solana"));
                           (js "recipient",
                            VStr (js "9xQeWvG816bUx9EPjHmaT23yvVM2ZWbrrpZb9PusVFin"))]])])
  /\ exists entry amount,
       field (VObj [(js "x402Version", VNum (Num.ofZ 1));
                    (js "accepts",
                     VArr [VObj [(js "scheme", VStr (js "exact"));
                                 (js "amount", VStr (js "169.99"));
                                 (js "asset", VStr (js "USDC"));
                                 (js "chain", VStr (js "solana"));
                                 (js "recipient",
                                  VStr (js "9xQeWvG816bUx9EPjHmaT23yvVM2ZWbrrpZb9PusVFin"))]])])
             "accepts" = Some (VArr [entry])
       /\ validateExactAccepts (VArr [entry]) = Ok tt
       /\ field entry "scheme" = Some (VStr (js "exact"))
       /\ field entry "amount" = Some (VStr amount)
       /\ notPositive (Num.parseFloat amount) = false.
Proof.
  assert (Hbuilt : buildExactAccepts paymentEnv
            (VObj [(js "amount", VNum (Num.ofDecimal false 16999 (-2)))]) VUndefined
          = Ok (VObj [(js "x402Version", VNum (Num.ofZ 1));
              (js "accepts",
               VArr [VObj [(js "scheme", VStr (js "exact"));
                           (js "amount", VStr (js "169.99"));
                           (js "asset", VStr (js "USDC"));
                           (js "chain", VStr (js "solana"));
                           (js "recipient",
                            VStr (js "9xQeWvG816bUx9EPjHmaT23yvVM2ZWbrrpZb9PusVFin"))]])]))
    by run.
  exact (conj Hbuilt (buildExactAccepts_passes_validation paymentEnv _ _ _ Hbuilt)).
Defined.

Lemma paymentMessage_nonempty (product amount : value) message :
  (if Js.ToBoolean product then
     title <~ Js.get product (js "title") ;;
     Ok (js "Payment of $" ++ Js.ToString amount ++ js " USDC required for "
           ++ Js.ToString title)
   else Ok (js "Payment of $" ++ Js.ToString amount ++ js " USDC required")) = Ok message ->
  Js.ToBoolean (VStr message) = true.
Proof.
  destruct (Js.ToBoolean product).
  - intros H. apply andThen_ok in H. destruct H as (title & _ & H). injection H as <-.
    reflexivity.
  - intros H. injection H as <-. reflexivity.
Qed.

(** X12: the 402 answer of [createExactPaymentResponse] carries an accepts
    array that passes [validateExactAccepts], the legacy fields [error] and
    [currency], a message, and as the entry's reference the reference given
    or else the payment identifier (none when both are falsy). *)
Theorem createExactPaymentResponse_passes_validation (env : Env) (config response : value) :
  createExactPaymentResponse env config = Ok response ->
  exists entry reference paymentId,
    Js.get config (js "reference") = Ok reference
    /\ Js.get config (js "paymentId") = Ok paymentId
    /\ field response "accepts" = Some (VArr [entry])
    /\ validateExactAccepts (VArr [entry]) = Ok tt
    /\ field entry "reference"
       = (if Js.ToBoolean (Js.or reference paymentId)
          then Some (Js.or reference paymentId) else None)
    /\ field response "error" = Some (VStr (js "Payment Required"))
    /\ field response "currency" = Some (VStr (js "USDC"))
    /\ exists message, field response "message" = Some (VStr message) /\ message <> [].
Proof.
  unfold createExactPaymentResponse. intros H.
  apply andThen_ok in H. destruct H as ([] & _ & H).
  apply andThen_ok in H. destruct H as (amount & _ & H).
  apply andThen_ok in H. destruct H as (paymentId & Hpid & H).
  apply andThen_ok in H. destruct H as (product & _ & H).
  apply andThen_ok in H. destruct H as (reference & Href & H).
  apply andThen_ok in H. destruct H as (message & Hmessage & H).
  apply andThen_ok in H. destruct H as (exactResponse & Hbuilt & H).
  apply paymentMessage_nonempty in Hmessage.
  destruct (buildExactAccepts_shape env _ _ _ Hbuilt)
    as (amount' & asset & chain & recipient & more & rest & -> & Hpos & Ha & Hc & Hr
        & Hmore & Hrest).
  specialize (Hmore (Js.or reference paymentId) eq_refl).
  specialize (Hrest paymentId VUndefined (VStr message) eq_refl eq_refl eq_refl).
  rewrite Hmessage in Hrest.
  injection H as <-.
  exists (VObj ((js "scheme", VStr (js "exact")) :: (js "amount", VStr amount')
                  :: (js "asset", asset) :: (js "chain", chain)
                  :: (js "recipient", recipient) :: more)), reference, paymentId.
  split; [exact Href |]. split; [exact Hpid |].
  assert (Hvalid : validateExactAccepts
            (VArr [VObj ((js "scheme", VStr (js "exact")) :: (js "amount", VStr amount')
                           :: (js "asset", asset) :: (js "chain", chain)
                           :: (js "recipient", recipient) :: more)]) = Ok tt).
  { apply validateExactAccepts_spec. eexists; eexists. split; [reflexivity |].
    cbn [forallb]. unfold exactEntryOk. props.
    rewrite (positive_amount_nonempty amount' Hpos), Ha, Hc, Hr. reflexivity. }
  assert (Hreference :
    field (VObj ((js "scheme", VStr (js "exact")) :: (js "amount", VStr amount')
                   :: (js "asset", asset) :: (js "chain", chain)
                   :: (js "recipient", recipient) :: more)) "reference"
    = (if Js.ToBoolean (Js.or reference paymentId)
       then Some (Js.or reference paymentId) else None)).
  { subst more. destruct (Js.ToBoolean (Js.or reference paymentId)); props; reflexivity. }
  assert (Hnonempty : message <> []) by (intros ->; discriminate Hmessage).
  subst rest.
  destruct (Js.ToBoolean (Js.or paymentId VUndefined)); destruct (Js.ToBoolean product);
    cbn [app Js.spread fold_left fst snd];
    rewrite ?setProp_fresh by reflexivity; cbn [app];
    (split; [props; reflexivity |]);
    (split; [exact Hvalid |]);
    (split; [exact Hreference |]);
    (split; [props; reflexivity |]);
    (split; [props; reflexivity |]);
    exists message; (split; [props; reflexivity | exact Hnonempty]).
Qed.

(** X13: the payment configuration is checked before anything else, the
    recipient first.  [assertExactSchemeOnly] succeeds exactly when the
    recipient and the facilitator are configured (its own check of the
    scheme can never fail); and without them [assertExactSchemeOnly] and
    [buildExactAccepts] fail with the error of the first one missing,
    whatever [buildExactAccepts] is given, a recipient included. *)
Theorem exact_configuration_failures (env : Env) :
  (assertExactSchemeOnly env = Ok tt
   <-> envSet (process_env env) "EXACT_RECIPIENT" = true
       /\ envSet (process_env env) "FACILITATOR_URL" = true)
  /\ (envSet (process_env env) "EXACT_RECIPIENT" = false ->
      assertExactSchemeOnly env
      = Throw (Error (js "EXACT_RECIPIENT environment variable is required for exact payment scheme"))
      /\ forall inputConfig input,
           buildExactAccepts env inputConfig input
           = Throw (Error (js "EXACT_RECIPIENT environment variable is required for exact payment scheme")))
  /\ (envSet (process_env env) "EXACT_RECIPIENT" = true ->
      envSet (process_env env) "FACILITATOR_URL" = false ->
      assertExactSchemeOnly env
      = Throw (Error (js "FACILITATOR_URL environment variable is required for exact payment scheme"))
      /\ forall inputConfig input,
           buildExactAccepts env inputConfig input
           = Throw (Error (js "FACILITATOR_URL environment variable is required for exact payment scheme"))).
Proof.
  unfold assertExactSchemeOnly, buildExactAccepts, getExactPaymentConfig, envSet.
  destruct (process_env env !! js "EXACT_RECIPIENT") as [[| c r] |];
    destruct (process_env env !! js "FACILITATOR_URL") as [[| d u] |];
    cbn [truthyString andThen x_scheme];
    (split; [| split]);
    try (split; [intros H; discriminate H | intros [H1 H2]; discriminate]);
    try (intros H; discriminate H);
    try (intros _ H; discriminate H);
    try (intros _; split; [reflexivity | intros; reflexivity]);
    try (intros _ _; split; [reflexivity | intros; reflexivity]).
  change (jsstring_eqb (js "exact") (js "exact")) with true. cbv iota.
  split; [intros _; split; reflexivity | reflexivity].
Qed.

Lemma exact_configuration_failures_witness :
  envSet (process_env sampleEnv) "EXACT_RECIPIENT" = false
  /\ assertExactSchemeOnly sampleEnv
     = Throw (Error (js "EXACT_RECIPIENT environment variable is required for exact payment scheme"))
  /\ buildExactAccepts sampleEnv
       (VObj [(js "amount", VNum (Num.ofZ 5)); (js "recipient", VStr (js "someone"))])
       VUndefined
     = Throw (Error (js "EXACT_RECIPIENT environment variable is required for exact payment scheme")).
Proof.
  assert (Hunset : envSet (process_env sampleEnv) "EXACT_RECIPIENT" = false) by run.
  destruct (exact_configuration_failures sampleEnv) as (_ & Hrecipient & _).
  destruct (Hrecipient Hunset) as [Hassert Hbuild].
  exact (conj Hunset (conj Hassert (Hbuild _ _))).
Defined.

(** ** The purchase endpoint, step by step *)

(** The shape of every standardized error answer. *)
Lemma errorResponse_fields env stage code msg details s r s' :
  createErrorResponse env stage code msg details s = (Ok r, s') ->
  field r "ok" = Some (VBool false)
  /\ field r "stage" = Some (VStr (js stage))
  /\ field r "code" = Some (VStr (js code))
  /\ field r "message" = Some (VStr msg)
  /\ Js.ToBoolean r = true.
Proof.
  intros H.
  destruct (createErrorResponse_run env stage code msg details s) as (r0 & s0 & E & -> & _).
  rewrite E in H. injection H as <- <-.
  repeat split; props; reflexivity.
Qed.

Lemma steps_of_rejection env req rid blob sig s r s' :
  checkOffer env req rid blob sig s = (Ok (inl r), s') ->
  catch (purchaseSteps env req rid blob sig) (purchaseFailed env req rid) s = (Ok r, s').
Proof.
  intros H. unfold catch, purchaseSteps. rewrite (bind_ok _ _ _ _ _ H). reflexivity.
Qed.

(** A request with both fields for which nothing is replayed goes through
    the steps of the handler. *)
Lemma purchase_fresh env req s b blob g sig :
  productBlob req = Some (b :: blob) ->
  signature req = Some (g :: sig) ->
  storedResult env (idempotencyKey req) s = None ->
  exists s2,
    purchase env req s
    = catch (purchaseSteps env req (requestIdOf env s) (b :: blob) (g :: sig))
            (purchaseFailed env req (requestIdOf env s)) s2
    /\ orders s2 = orders s
    /\ pendingPayments s2 = pendingPayments s
    /\ catalogInEffect env s2 = catalogInEffect env s
    /\ idempotencyCache s2 = cacheAfterMiss req (idempotencyCache s).
Proof.
  intros Hb Hs Hnone. rewrite (purchase_present env req s b blob g sig Hb Hs).
  unfold lookup, storedResult, cacheAfterMiss in *.
  destruct (idempotencyKey req) as [[| x k] |]; cbn [truthyString default];
    try (exists (afterRequestId s); repeat split; reflexivity).
  unfold id.
  destruct (idempotencyCache s !! (x :: k)) as [existing |] eqn:Hget.
  - destruct (Z.ltb_spec (clock env (S (ticks s)) - i_timestamp existing) TTL) as [Hlive | Hold];
      [discriminate |].
    unfold bind at 1, checkIdempotency. unfold bind at 1, getState.
    change (idempotencyCache (afterRequestId s)) with (idempotencyCache s). rewrite Hget.
    unfold bind at 1, now. change (ticks (afterRequestId s)) with (S (ticks s)).
    destruct (Z.ltb_spec (clock env (S (ticks s)) - i_timestamp existing) TTL) as [Hlive | _];
      [lia |].
    unfold bind at 1, setCache, ret. cbn [Js.ToBoolean].
    eexists. split; [reflexivity |]. repeat split.
  - unfold bind at 1.
    rewrite (checkIdempotency_none env (afterRequestId s) (x :: k) Hget). cbn [Js.ToBoolean].
    exists (afterRequestId s). repeat split.
    symmetry. apply delete_id. exact Hget.
Qed.

Lemma rejection_run env stage code msg details (s : State) :
  exists r s',
    (r <- createErrorResponse env stage code msg details ;;
     ret (inl (mkResponse 400 r) : Response + CheckedOffer)) s
    = (Ok (inl (mkResponse 400 r)), s')
    /\ stageOf (mkResponse 400 r) = Some (VStr (js stage))
    /\ codeOf (mkResponse 400 r) = Some (VStr (js code))
    /\ field r "message" = Some (VStr msg)
    /\ field r "ok" = Some (VBool false)
    /\ orders s' = orders s
    /\ idempotencyCache s' = idempotencyCache s
    /\ pendingPayments s' = pendingPayments s.
Proof.
  destruct (createErrorResponse env stage code msg details s) as [[r | e] s'] eqn:E.
  2:{ destruct (createErrorResponse_run env stage code msg details s) as (? & ? & E' & _).
      rewrite E in E'. discriminate. }
  exists r, s'. rewrite (bind_ok _ _ _ _ _ E). split; [reflexivity |].
  destruct (errorResponse_fields _ _ _ _ _ _ _ _ E) as (Hok & Hstage & Hcode & Hmsg & _).
  destruct (createErrorResponse_run env stage code msg details s)
    as (r0 & s0 & E' & Hr & _ & _ & Ho & Hc & _).
  rewrite E in E'. injection E' as <- <-.
  assert (Hp : pendingPayments s' = pendingPayments s).
  { unfold createErrorResponse, bind, now, ret in E. injection E as _ <-. reflexivity. }
  subst r. repeat split; try assumption; try (props; reflexivity).
Qed.

Lemma decodeProduct_error blob e :
  decodeProduct blob = Throw e -> e = Error (js "Invalid product blob format").
Proof.
  unfold decodeProduct. destruct (JSON.parse _); [discriminate |]. intros H.
  injection H as <-. reflexivity.
Qed.

(** X14: a request whose signature has the right length and is not the
    token's is answered 400, stage [auth], code [INVALID_SIGNATURE]; the
    token is not decoded, the order API is not called, and nothing is kept
    in the ledger. *)
Theorem wrong_signature_rejected (env : Env) (req : PurchaseRequest) (s : State)
    (b g : N) (blob sig : jsstring) :
  productBlob req = Some (b :: blob) ->
  signature req = Some (g :: sig) ->
  storedResult env (idempotencyKey req) s = None ->
  verifyProductSignature env (b :: blob) (g :: sig) = Ok false ->
  exists r s',
    purchase env req s = (Ok r, s')
    /\ status r = 400
    /\ stageOf r = Some (VStr (js "auth"))
    /\ codeOf r = Some (VStr (js "INVALID_SIGNATURE"))
    /\ field (body r) "message" = Some (VStr (js "Product signature verification failed"))
    /\ orders s' = orders s
    /\ idempotencyCache s' = cacheAfterMiss req (idempotencyCache s).
Proof.
  intros Hb Hs Hfresh Hverify.
  destruct (purchase_fresh env req s b blob g sig Hb Hs Hfresh)
    as (s2 & -> & Ho2 & _ & _ & Hc2).
  match goal with
  | |- context [purchaseSteps env req ?rid _ _] =>
      destruct (rejection_run env "auth" "INVALID_SIGNATURE"
                  (js "Product signature verification failed")
                  (VObj [(js "requestId", VStr rid)]) s2)
        as (r & s' & E & Hstage & Hcode & Hmsg & _ & Ho & Hc & _)
  end.
  exists (mkResponse 400 r), s'. split.
  { apply steps_of_rejection. unfold checkOffer. rewrite Hverify.
    unfold bind at 1. rewrite lift_run. cbn [negb]. exact E. }
  repeat split; try assumption; congruence.
Qed.

Lemma wrong_signature_rejected_witness :
  productBlob forgedRequest
  = Some (hd 0 (tokenOf forgedRequest) :: tl (tokenOf forgedRequest))
  /\ signature forgedRequest
     = Some (hd 0 (signatureOf forgedRequest) :: tl (signatureOf forgedRequest))
  /\ storedResult sampleEnv (idempotencyKey forgedRequest) initialState = None
  /\ verifyProductSignature sampleEnv
       (hd 0 (tokenOf forgedRequest) :: tl (tokenOf forgedRequest))
       (hd 0 (signatureOf forgedRequest) :: tl (signatureOf forgedRequest)) = Ok false
  /\ exists r s',
       purchase sampleEnv forgedRequest initialState = (Ok r, s')
       /\ status r = 400
       /\ stageOf r = Some (VStr (js "auth"))
       /\ codeOf r = Some (VStr (js "INVALID_SIGNATURE"))
       /\ field (body r) "message" = Some (VStr (js "Product signature verification failed"))
       /\ orders s' = orders initialState
       /\ idempotencyCache s' = cacheAfterMiss forgedRequest (idempotencyCache initialState).
Proof.
  assert (Hb : productBlob forgedRequest
               = Some (hd 0 (tokenOf forgedRequest) :: tl (tokenOf forgedRequest))) by run.
  assert (Hs : signature forgedRequest
               = Some (hd 0 (signatureOf forgedRequest) :: tl (signatureOf forgedRequest)))
    by run.
  assert (Hfresh : storedResult sampleEnv (idempotencyKey forgedRequest) initialState = None)
    by run.
  assert (Hverify : verifyProductSignature sampleEnv
                      (hd 0 (tokenOf forgedRequest) :: tl (tokenOf forgedRequest))
                      (hd 0 (signatureOf forgedRequest) :: tl (signatureOf forgedRequest))
                    = Ok false) by run.
  exact (conj Hb (conj Hs (conj Hfresh (conj Hverify
           (wrong_signature_rejected sampleEnv forgedRequest initialState _ _ _ _
              Hb Hs Hfresh Hverify))))).
Defined.

(** X15: a request whose signature verifies and whose token does not
    decode to a JSON text is answered 400, stage [validation], code
    [INVALID_PRODUCT_BLOB]; the order API is not called and nothing is kept
    in the ledger. *)
Theorem undecodable_token_rejected (env : Env) (req : PurchaseRequest) (s : State)
    (b g : N) (blob sig : jsstring) (e : jsError) :
  productBlob req = Some (b :: blob) ->
  signature req = Some (g :: sig) ->
  storedResult env (idempotencyKey req) s = None ->
  verifyProductSignature env (b :: blob) (g :: sig) = Ok true ->
  decodeProduct (b :: blob) = Throw e ->
  exists r s',
    purchase env req s = (Ok r, s')
    /\ status r = 400
    /\ stageOf r = Some (VStr (js "validation"))
    /\ codeOf r = Some (VStr (js "INVALID_PRODUCT_BLOB"))
    /\ field (body r) "message"
       = Some (VStr (js "Failed to decode product data: Invalid product blob format"))
    /\ orders s' = orders s
    /\ idempotencyCache s' = cacheAfterMiss req (idempotencyCache s).
Proof.
  intros Hb Hs Hfresh Hverify Hdecode.
  pose proof (decodeProduct_error _ _ Hdecode) as ->.
  destruct (purchase_fresh env req s b blob g sig Hb Hs Hfresh)
    as (s2 & -> & Ho2 & _ & _ & Hc2).
  match goal with
  | |- context [purchaseSteps env req ?rid _ _] =>
      destruct (rejection_run env "validation" "INVALID_PRODUCT_BLOB"
                  (js "Failed to decode product data: "
                     ++ err_message (Error (js "Invalid product blob format")))
                  (VObj [(js "requestId", VStr rid)]) s2)
        as (r & s' & E & Hstage & Hcode & Hmsg & _ & Ho & Hc & _)
  end.
  exists (mkResponse 400 r), s'. split.
  { apply steps_of_rejection. unfold checkOffer. rewrite Hverify.
    unfold bind at 1. rewrite lift_run. cbn [negb]. rewrite Hdecode. exact E. }
  repeat split; try assumption; congruence.
Qed.

Lemma undecodable_token_rejected_witness :
  productBlob garbledRequest
  = Some (hd 0 (tokenOf garbledRequest) :: tl (tokenOf garbledRequest))
  /\ signature garbledRequest
     = Some (hd 0 (signatureOf garbledRequest) :: tl (signatureOf garbledRequest))
  /\ storedResult sampleEnv (idempotencyKey garbledRequest) initialState = None
  /\ verifyProductSignature sampleEnv
       (hd 0 (tokenOf garbledRequest) :: tl (tokenOf garbledRequest))
       (hd 0 (signatureOf garbledRequest) :: tl (signatureOf garbledRequest)) = Ok true
  /\ decodeProduct (hd 0 (tokenOf garbledRequest) :: tl (tokenOf garbledRequest))
     = Throw (Error (js "Invalid product blob format"))
  /\ exists r s',
       purchase sampleEnv garbledRequest initialState = (Ok r, s')
       /\ status r = 400
       /\ stageOf r = Some (VStr (js "validation"))
       /\ codeOf r = Some (VStr (js "INVALID_PRODUCT_BLOB"))
       /\ field (body r) "message"
          = Some (VStr (js "Failed to decode product data: Invalid product blob format"))
       /\ orders s' = orders initialState
       /\ idempotencyCache s'
          = cacheAfterMiss garbledRequest (idempotencyCache initialState).
Proof.
  assert (Hb : productBlob garbledRequest
               = Some (hd 0 (tokenOf garbledRequest) :: tl (tokenOf garbledRequest))) by run.
  assert (Hs : signature garbledRequest
               = Some (hd 0 (signatureOf garbledRequest) :: tl (signatureOf garbledRequest)))
    by run.
  assert (Hfresh : storedResult sampleEnv (idempotencyKey garbledRequest) initialState = None)
    by run.
  assert (Hverify : verifyProductSignature sampleEnv
                      (hd 0 (tokenOf garbledRequest) :: tl (tokenOf garbledRequest))
                      (hd 0 (signatureOf garbledRequest) :: tl (signatureOf garbledRequest))
                    = Ok true) by run.
  assert (Hdecode : decodeProduct (hd 0 (tokenOf garbledRequest) :: tl (tokenOf garbledRequest))
                    = Throw (Error (js "Invalid product blob format"))) by run.
  exact (conj Hb (conj Hs (conj Hfresh (conj Hverify (conj Hdecode
           (undecodable_token_rejected sampleEnv garbledRequest initialState _ _ _ _ _
              Hb Hs Hfresh Hverify Hdecode)))))).
Defined.


(** ** The purchase endpoint and the order API *)

Lemma grown_is_not_same {A} (l : list A) (x : A) : l ++ [x] <> l.
Proof.
  intros H. apply (f_equal (@List.length A)) in H. rewrite length_app in H. simpl in H. lia.
Qed.

Lemma samePayments_refl s : samePayments s s.
Proof. reflexivity. Qed.

Lemma samePayments_trans a b c : samePayments a b -> samePayments b c -> samePayments a c.
Proof. unfold samePayments. congruence. Qed.

Lemma now_payments env : respects samePayments (now env).
Proof. intros s r s' H. inversion H; subst. reflexivity. Qed.

Lemma random_payments env : respects samePayments (random env).
Proof. intros s r s' H. inversion H; subst. reflexivity. Qed.

Lemma setCache_payments c : respects samePayments (setCache c).
Proof. intros s r s' H. inversion H; subst. reflexivity. Qed.

Lemma setCatalog_payments c : respects samePayments (setCatalog c).
Proof. intros s r s' H. inversion H; subst. reflexivity. Qed.

Ltac payments_tac :=
  repeat first
    [ apply (respects_ret samePayments samePayments_refl)
    | apply (respects_throw samePayments samePayments_refl)
    | apply (respects_lift samePayments samePayments_refl)
    | apply (respects_getState samePayments samePayments_refl)
    | apply now_payments
    | apply random_payments
    | apply setCache_payments
    | apply setCatalog_payments
    | apply (respects_bind samePayments samePayments_trans); [| intros ?]
    | match goal with
      | |- respects _ (if ?b then _ else _) => destruct b
      | |- respects _ (match ?x with _ => _ end) => destruct x
      end ].

Lemma createErrorResponse_payments env stage code msg details :
  respects samePayments (createErrorResponse env stage code msg details).
Proof. unfold createErrorResponse. payments_tac. Qed.

Lemma validateAsin_payments env asin : respects samePayments (validateAsin env asin).
Proof. unfold validateAsin, loadProductCatalog. payments_tac. Qed.

Lemma checkIdempotency_payments env key : respects samePayments (checkIdempotency env key).
Proof. unfold checkIdempotency. payments_tac. Qed.

Lemma storeIfKeyed_payments env req r : respects samePayments (storeIfKeyed env req r).
Proof. unfold storeIfKeyed, storeIdempotencyResult. payments_tac. Qed.

Lemma lookup_payments env req : respects samePayments (lookup env req).
Proof. unfold lookup. destruct (truthyString _); [apply checkIdempotency_payments | payments_tac]. Qed.

Lemma checkOffer_payments env req rid blob sig :
  respects samePayments (checkOffer env req rid blob sig).
Proof.
  unfold checkOffer, catalogOrThrow.
  repeat first [ apply createErrorResponse_payments | apply validateAsin_payments
               | progress payments_tac ].
Qed.

Lemma prepareOrder_payments env req c : respects samePayments (prepareOrder env req c).
Proof. unfold prepareOrder. payments_tac. Qed.

Lemma includes_prefix (p rest : jsstring) : includes p (p ++ rest) = true.
Proof.
  assert (H : Num.startsWith p (p ++ rest) = true).
  { induction p as [| c p IH]; [reflexivity |]. cbn [app Num.startsWith].
    rewrite N.eqb_refl. exact IH. }
  destruct (p ++ rest); cbn [includes]; rewrite H; reflexivity.
Qed.

(** What the [catch] block answers. *)
Lemma purchaseFailed_answer env req rid e s :
  exists resp s',
    purchaseFailed env req rid e s = (Ok resp, s')
    /\ stageOf resp = Some (VStr (js (fst (fst (failureClass (err_message e))))))
    /\ codeOf resp = Some (VStr (js (snd (fst (failureClass (err_message e))))))
    /\ status resp = snd (failureClass (err_message e))
    /\ field (body resp) "message" = Some (VStr (err_message e))
    /\ field (body resp) "ok" = Some (VBool false)
    /\ orders s' = orders s
    /\ pendingPayments s' = pendingPayments s
    /\ cacheStored req (body resp) (idempotencyCache s) (idempotencyCache s').
Proof.
  unfold purchaseFailed, failureClass.
  set (triple := if includes _ _ then _ else _). destruct triple as [[stage code] statusCode].
  destruct (createErrorResponse env stage code (err_message e)
              (VObj [(js "requestId", VStr rid); (js "originalError", VStr (err_message e))]) s)
    as [[r | e0] s1] eqn:E.
  2:{ destruct (createErrorResponse_run env stage code (err_message e)
                  (VObj [(js "requestId", VStr rid);
                         (js "originalError", VStr (err_message e))]) s) as (? & ? & E' & _).
      rewrite E in E'. discriminate. }
  destruct (errorResponse_fields _ _ _ _ _ _ _ _ E) as (Hok & Hstage & Hcode & Hmsg & _).
  destruct (createErrorResponse_run env stage code (err_message e)
              (VObj [(js "requestId", VStr rid); (js "originalError", VStr (err_message e))]) s)
    as (r0 & s0 & E' & Hr & _ & _ & Ho1 & Hc1 & _).
  rewrite E in E'. injection E' as <- <-.
  pose proof (createErrorResponse_payments _ _ _ _ _ _ _ _ E) as Hp1.
  rewrite (bind_ok _ _ _ _ _ E).
  destruct (storeIfKeyed_run env req r s1) as (s2 & Hst & Ho2 & Hc2).
  pose proof (storeIfKeyed_payments _ _ _ _ _ _ Hst) as Hp2.
  rewrite (bind_ok _ _ _ _ _ Hst). unfold ret.
  exists (mkResponse statusCode r), s2. split; [reflexivity |].
  assert (Hs : stageOf (mkResponse statusCode r) = Some (VStr (js stage)))
    by (subst r; props; reflexivity).
  assert (Hcd : codeOf (mkResponse statusCode r) = Some (VStr (js code)))
    by (subst r; props; reflexivity).
  cbn [fst snd status body].
  split; [exact Hs |]. split; [exact Hcd |]. split; [reflexivity |].
  split; [exact Hmsg |]. split; [exact Hok |]. split; [congruence |].
  split; [unfold samePayments in *; congruence |].
  rewrite <- Hc1. exact Hc2.
Qed.

(** When the handler has called the order API, the answer is what the
    end of the [try] block or the [catch] block makes of the outcome of
    that call. *)
Lemma purchase_order_call env req s resp s' text :
  purchase env req s = (Ok resp, s') ->
  orders s' = orders s ++ [text] ->
  exists rid c p s3,
    text = default [] (JSON.stringify (o_request p))
    /\ orders s3 = orders s
    /\ pendingPayments s3 = pendingPayments s
    /\ valid (k_validation c) = true
    /\ catch (rawOrderData <- callCrossmintAPI env text ;;
              confirmOrder env req c p rawOrderData)
             (purchaseFailed env req rid) s3 = (Ok resp, s').
Proof.
  intros Hrun Hgrown.
  destruct (fields_present_or_missing req) as [(b & blob & g & sig & Hb & Hs) | Hmissing].
  2:{ pose proof (purchase_missing_orders env req s Hmissing) as Hsame.
      rewrite Hrun in Hsame. cbn [snd] in Hsame. rewrite Hgrown in Hsame.
      destruct (grown_is_not_same _ _ Hsame). }
  rewrite (purchase_present env req s b blob g sig Hb Hs) in Hrun.
  destruct (lookup_run env req s) as (existing & s2 & El & Ho2 & _ & _).
  pose proof (lookup_payments _ _ _ _ _ El) as Hp2. unfold samePayments in Hp2.
  change (pendingPayments (afterRequestId s)) with (pendingPayments s) in Hp2.
  rewrite (bind_ok _ _ _ _ _ El) in Hrun.
  destruct (Js.ToBoolean existing).
  { injection Hrun as _ <-. rewrite Ho2 in Hgrown. symmetry in Hgrown.
    destruct (grown_is_not_same _ _ Hgrown). }
  unfold catch at 1 in Hrun. unfold purchaseSteps in Hrun.
  destruct (checkOffer env req (requestIdOf env s) (b :: blob) (g :: sig) s2)
    as [[[rejection | c] | e] s2a] eqn:Ec;
    destruct (checkOffer_untouched _ _ _ _ _ _ _ _ Ec) as (Ho2a & _);
    pose proof (checkOffer_payments _ _ _ _ _ _ _ _ Ec) as Hp2a;
    unfold sameOrders in Ho2a; unfold samePayments in Hp2a.
  - rewrite (bind_ok _ _ _ _ _ Ec) in Hrun. injection Hrun as _ <-.
    exfalso. apply (grown_is_not_same (orders s) text). congruence.
  - rewrite (bind_ok _ _ _ _ _ Ec) in Hrun. unfold createOrder in Hrun.
    destruct (prepareOrder env req c s2a) as [[p | e] s3] eqn:Ep;
      destruct (prepareOrder_untouched _ _ _ _ _ _ Ep) as (Ho3 & _);
      pose proof (prepareOrder_payments _ _ _ _ _ _ Ep) as Hp3;
      unfold sameOrders in Ho3; unfold samePayments in Hp3.
    + rewrite (bind_ok _ _ _ _ _ Ep) in Hrun.
      exists (requestIdOf env s), c, p, s3.
      assert (Hcatch :
        catch (rawOrderData <- callCrossmintAPI env
                                 (default [] (JSON.stringify (o_request p))) ;;
               confirmOrder env req c p rawOrderData)
              (purchaseFailed env req (requestIdOf env s)) s3 = (Ok resp, s'))
        by exact Hrun.
      assert (Hcalled : orders s' = orders s3 ++ [default [] (JSON.stringify (o_request p))]).
      { clear Hrun. unfold catch in Hcatch.
        destruct (callCrossmintAPI env (default [] (JSON.stringify (o_request p))) s3)
          as [[raw | e] s4] eqn:Ecall;
          destruct (callCrossmintAPI_run _ _ _ _ _ Ecall) as (Ho4 & _).
        - rewrite (bind_ok _ _ _ _ _ Ecall) in Hcatch.
          destruct (confirmOrder env req c p raw s4) as [[r | e] s5] eqn:Econf;
            destruct (confirmOrder_run _ _ _ _ _ _ _ _ Econf) as (Ho5 & _).
          + injection Hcatch as _ <-. congruence.
          + destruct (purchaseFailed_answer env req (requestIdOf env s) e s5)
              as (r & s6 & Ef & _ & _ & _ & _ & _ & Ho6 & _).
            rewrite Ef in Hcatch. injection Hcatch as _ <-. congruence.
        - rewrite (bind_throw _ _ _ _ _ Ecall) in Hcatch.
          destruct (purchaseFailed_answer env req (requestIdOf env s) e s4)
            as (r & s6 & Ef & _ & _ & _ & _ & _ & Ho6 & _).
          rewrite Ef in Hcatch. injection Hcatch as _ <-. congruence. }
      assert (Htext : text = default [] (JSON.stringify (o_request p))).
      { rewrite Hgrown, Ho3, Ho2a, Ho2 in Hcalled. apply app_inv_head in Hcalled.
        injection Hcalled as ->. reflexivity. }
      split; [exact Htext |]. split; [congruence |]. split; [congruence |].
      split; [apply (checkOffer_inr _ _ _ _ _ _ _ _ Ec) |].
      rewrite Htext. exact Hcatch.
    + rewrite (bind_throw _ _ _ _ _ Ep) in Hrun.
      destruct (purchaseFailed_answer env req (requestIdOf env s) e s3)
        as (r & s6 & Ef & _ & _ & _ & _ & _ & Ho6 & _).
      rewrite Ef in Hrun. injection Hrun as _ <-.
      exfalso. apply (grown_is_not_same (orders s) text). congruence.
  - rewrite (bind_throw _ _ _ _ _ Ec) in Hrun.
    destruct (purchaseFailed_answer env req (requestIdOf env s) e s2a)
      as (r & s6 & Ef & _ & _ & _ & _ & _ & Ho6 & _).
    rewrite Ef in Hrun. injection Hrun as _ <-.
    exfalso. apply (grown_is_not_same (orders s) text). congruence.
Qed.

Lemma cacheStored_kept req r (s0 s' : State) c :
  cacheStored req r c (idempotencyCache s') ->
  truthyString (idempotencyKey req) = true ->
  keptResult s' (idempotencyKey req) = Some r.
Proof.
  unfold cacheStored, keptResult.
  destruct (idempotencyKey req) as [[| x k] |]; try discriminate.
  intros (t & ->) _. rewrite lookup_insert_eq. reflexivity.
Qed.

(** The failures of the order call come back through the [catch] block. *)
Lemma failed_order_call env req s resp s' text e :
  purchase env req s = (Ok resp, s') ->
  orders s' = orders s ++ [text] ->
  match crossmint env (List.length (orders s)) text with
  | Rejected e' => e' = e
  | HttpStatus code statusText errorBody =>
      e = Error (js "Crossmint API error: " ++ Num.decimalN code ++ js " " ++ statusText
                   ++ js " - " ++ errorBody)
  | HttpOk data => validateCrossmintOrderResponse data = Throw e
  end ->
  stageOf resp = Some (VStr (js (fst (fst (failureClass (err_message e))))))
  /\ codeOf resp = Some (VStr (js (snd (fst (failureClass (err_message e))))))
  /\ status resp = snd (failureClass (err_message e))
  /\ field (body resp) "message" = Some (VStr (err_message e))
  /\ pendingPayments s' = pendingPayments s
  /\ (truthyString (idempotencyKey req) = true ->
      keptResult s' (idempotencyKey req) = Some (body resp)).
Proof.
  intros Hrun Hgrown Houtcome.
  destruct (purchase_order_call env req s resp s' text Hrun Hgrown)
    as (rid & c & p & s3 & _ & Ho3 & Hp3 & _ & Hcatch).
  unfold catch in Hcatch. unfold bind at 1, callCrossmintAPI in Hcatch.
  rewrite Ho3 in Hcatch.
  assert (Hfailed : forall s4, pendingPayments s4 = pendingPayments s ->
            purchaseFailed env req rid e s4 = (Ok resp, s') ->
            stageOf resp = Some (VStr (js (fst (fst (failureClass (err_message e))))))
            /\ codeOf resp = Some (VStr (js (snd (fst (failureClass (err_message e))))))
            /\ status resp = snd (failureClass (err_message e))
            /\ field (body resp) "message" = Some (VStr (err_message e))
            /\ pendingPayments s' = pendingPayments s
            /\ (truthyString (idempotencyKey req) = true ->
                keptResult s' (idempotencyKey req) = Some (body resp))).
  { intros s4 Hp4 Hf.
    destruct (purchaseFailed_answer env req rid e s4)
      as (r & s6 & Ef & Hstage & Hcode & Hstatus & Hmsg & _ & _ & Hp6 & Hst).
    rewrite Ef in Hf. injection Hf as <- <-.
    repeat split; try assumption; [congruence |].
    apply (cacheStored_kept req (body r) s4 s6 _ Hst). }
  destruct (crossmint env (List.length (orders s)) text) as [e' | code st errorBody | data].
  - subst e'. eapply Hfailed; [| exact Hcatch]; exact Hp3.
  - subst e. eapply Hfailed; [| exact Hcatch]; exact Hp3.
  - unfold confirmOrder in Hcatch. rewrite Houtcome in Hcatch.
    unfold bind at 1, lift in Hcatch. eapply Hfailed; [| exact Hcatch]; exact Hp3.
Qed.

(** X17: when the order API answers the order call with an HTTP error
    status, the purchase is answered 502, stage [crossmint.createOrder],
    code [CROSSMINT_API_ERROR], with the status and the body of the upstream
    answer in the message; no payment is recorded, and under a non-empty
    idempotency key the failure is kept in the ledger. *)
Theorem upstream_http_error_answered_502 (env : Env) (req : PurchaseRequest) (s s' : State)
    (resp : Response) (text : jsstring) (code : N) (statusText errorBody : jsstring) :
  purchase env req s = (Ok resp, s') ->
  orders s' = orders s ++ [text] ->
  crossmint env (List.length (orders s)) text = HttpStatus code statusText errorBody ->
  status resp = 502
  /\ stageOf resp = Some (VStr (js "crossmint.createOrder"))
  /\ codeOf resp = Some (VStr (js "CROSSMINT_API_ERROR"))
  /\ field (body resp) "message"
     = Some (VStr (js "Crossmint API error: " ++ Num.decimalN code ++ js " " ++ statusText
                     ++ js " - " ++ errorBody))
  /\ pendingPayments s' = pendingPayments s
  /\ (truthyString (idempotencyKey req) = true ->
      keptResult s' (idempotencyKey req) = Some (body resp)).
Proof.
  intros Hrun Hgrown Houtcome.
  destruct (failed_order_call env req s resp s' text
              (Error (js "Crossmint API error: " ++ Num.decimalN code ++ js " " ++ statusText
                        ++ js " - " ++ errorBody)) Hrun Hgrown)
    as (Hstage & Hcode & Hstatus & Hmsg & Hp & Hkept).
  { rewrite Houtcome. reflexivity. }
  assert (Hclass : failureClass (js "Crossmint API error: " ++ Num.decimalN code ++ js " "
                                   ++ statusText ++ js " - " ++ errorBody)
                   = ("crossmint.createOrder", "CROSSMINT_API_ERROR", 502)%string).
  { unfold failureClass.
    change (js "Crossmint API error: " ++ Num.decimalN code ++ js " " ++ statusText
              ++ js " - " ++ errorBody)
      with (js "Crossmint API error"
              ++ (js ": " ++ Num.decimalN code ++ js " " ++ statusText ++ js " - " ++ errorBody)).
    rewrite includes_prefix. reflexivity. }
  cbn [err_message Error] in Hstage, Hcode, Hstatus, Hmsg.
  rewrite Hclass in Hstage, Hcode, Hstatus.
  repeat split; assumption.
Qed.

Lemma object_get (data : value) (k : jsstring) :
  Js.ToBoolean data = true -> Js.typeofObject data = true ->
  exists v, Js.get data k = Ok v.
Proof.
  destruct data; try discriminate; intros _ _; cbn [Js.get].
  - destruct (jsstring_eqb k (js "length")); [eauto |].
    destruct (Js.arrayIndex k); eauto.
  - eauto.
Qed.

Lemma validateCrossmintOrderResponse_error data e :
  validateCrossmintOrderResponse data = Throw e ->
  exists rest, err_message e = js "Invalid Crossmint response" ++ rest.
Proof.
  unfold validateCrossmintOrderResponse.
  destruct (Js.ToBoolean data) eqn:Ht; cbn [negb orb].
  2:{ intros H. injection H as <-. eexists. reflexivity. }
  destruct (Js.typeofObject data) eqn:Ho; cbn [negb].
  2:{ intros H. injection H as <-. eexists. reflexivity. }
  destruct (object_get data (js "orderId") Ht Ho) as (a & ->).
  destruct (object_get data (js "id") Ht Ho) as (b & ->).
  destruct (object_get data (js "order_id") Ht Ho) as (c & ->).
  destruct (Js.ToBoolean (Js.or (Js.or a b) c)); cbn [negb]; [discriminate |].
  intros H. injection H as <-. eexists. reflexivity.
Qed.


(** X18: when the order API answers the order call with something that
    is no object or carries none of [orderId], [id] and [order_id], the
    purchase is answered 502 although the call was made, with stage
    [crossmint.validation] and code [CROSSMINT_INVALID_RESPONSE] (or the
    stage and code of an upstream error, when the keys of the answer spell
    out [Crossmint API error]); no payment is recorded, and under a
    non-empty idempotency key the failure is kept in the ledger. *)
Theorem invalid_order_response_answered_502 (env : Env) (req : PurchaseRequest) (s s' : State)
    (resp : Response) (text : jsstring) (data : value) (e : jsError) :
  purchase env req s = (Ok resp, s') ->
  orders s' = orders s ++ [text] ->
  crossmint env (List.length (orders s)) text = HttpOk data ->
  validateCrossmintOrderResponse data = Throw e ->
  status resp = 502
  /\ (if includes (js "Crossmint API error") (err_message e)
      then stageOf resp = Some (VStr (js "crossmint.createOrder"))
           /\ codeOf resp = Some (VStr (js "CROSSMINT_API_ERROR"))
      else stageOf resp = Some (VStr (js "crossmint.validation"))
           /\ codeOf resp = Some (VStr (js "CROSSMINT_INVALID_RESPONSE")))
  /\ field (body resp) "message" = Some (VStr (err_message e))
  /\ pendingPayments s' = pendingPayments s
  /\ (truthyString (idempotencyKey req) = true ->
      keptResult s' (idempotencyKey req) = Some (body resp)).
Proof.
  intros Hrun Hgrown Houtcome Hinvalid.
  destruct (failed_order_call env req s resp s' text e Hrun Hgrown)
    as (Hstage & Hcode & Hstatus & Hmsg & Hp & Hkept).
  { rewrite Houtcome. exact Hinvalid. }
  destruct (validateCrossmintOrderResponse_error data e Hinvalid) as (rest & Hrest).
  assert (Hinc : includes (js "Invalid Crossmint response") (err_message e) = true)
    by (rewrite Hrest; apply includes_prefix).
  unfold failureClass in Hstage, Hcode, Hstatus. rewrite Hinc in Hstage, Hcode, Hstatus.
  destruct (includes (js "Crossmint API error") (err_message e));
    repeat split; assumption.
Qed.

(** X19: when the order call fails before any answer (the [fetch] is
    rejected) with a message that names none of the failures the handler
    knows, the purchase is answered 500, stage [unknown], code
    [INTERNAL_ERROR], with that message; and under a non-empty idempotency
    key this failure too is kept in the ledger, to be replayed. *)
Theorem rejected_order_call_answered_500 (env : Env) (req : PurchaseRequest) (s s' : State)
    (resp : Response) (text : jsstring) (e : jsError) :
  purchase env req s = (Ok resp, s') ->
  orders s' = orders s ++ [text] ->
  crossmint env (List.length (orders s)) text = Rejected e ->
  includes (js "Crossmint API error") (err_message e) = false ->
  includes (js "Invalid Crossmint response") (err_message e) = false ->
  includes (js "Product signature verification failed") (err_message e) = false ->
  includes (js "Invalid product blob") (err_message e) = false ->
  status resp = 500
  /\ stageOf resp = Some (VStr (js "unknown"))
  /\ codeOf resp = Some (VStr (js "INTERNAL_ERROR"))
  /\ field (body resp) "message" = Some (VStr (err_message e))
  /\ pendingPayments s' = pendingPayments s
  /\ (truthyString (idempotencyKey req) = true ->
      keptResult s' (idempotencyKey req) = Some (body resp)).
Proof.
  intros Hrun Hgrown Houtcome H1 H2 H3 H4.
  destruct (failed_order_call env req s resp s' text e Hrun Hgrown)
    as (Hstage & Hcode & Hstatus & Hmsg & Hp & Hkept).
  { rewrite Houtcome. reflexivity. }
  unfold failureClass in Hstage, Hcode, Hstatus.
  rewrite H1, H2, H3, H4 in Hstage, Hcode, Hstatus.
  repeat split; assumption.
Qed.



(** ** The purchase endpoint as a whole *)

(** X21: the ledger is consulted before anything is verified.  A request
    with both fields whose idempotency key has a live result in the ledger
    is answered 200 with that result, whatever its token and its signature
    are; nothing is verified, decoded or ordered, and the state keeps its
    ledger, its payments and its order log. *)
Theorem live_key_answered_before_verification (env : Env) (req : PurchaseRequest) (s : State)
    (b g : N) (blob sig : jsstring) (v : value) :
  productBlob req = Some (b :: blob) ->
  signature req = Some (g :: sig) ->
  storedResult env (idempotencyKey req) s = Some v ->
  Js.ToBoolean v = true ->
  exists s',
    purchase env req s = (Ok (mkResponse 200 v), s')
    /\ orders s' = orders s
    /\ idempotencyCache s' = idempotencyCache s
    /\ pendingPayments s' = pendingPayments s.
Proof.
  intros Hb Hs Hstored Htruthy.
  rewrite (purchase_present env req s b blob g sig Hb Hs).
  destruct (lookup_run env req s) as (existing & s2 & El & Ho2 & _ & Hmatch).
  pose proof (lookup_payments _ _ _ _ _ El) as Hp2. unfold samePayments in Hp2.
  change (pendingPayments (afterRequestId s)) with (pendingPayments s) in Hp2.
  rewrite Hstored in Hmatch. destruct Hmatch as (-> & Hc2 & _).
  rewrite (bind_ok _ _ _ _ _ El), Htruthy. unfold ret.
  exists s2. repeat split; assumption.
Qed.

Lemma failureClass_cases msg :
  exists stage code n, failureClass msg = (stage, code, n) /\ (n = 400 \/ n = 500 \/ n = 502).
Proof.
  unfold failureClass.
  repeat match goal with
         | |- context [if ?b then _ else _] => destruct b
         end; eexists; eexists; eexists; (split; [reflexivity |]); auto.
Qed.

(** What comes out of steps 1 to 4 as an answer is a rejection. *)
Lemma checkOffer_inl env req rid blob sig s r s' :
  checkOffer env req rid blob sig s = (Ok (inl r), s') ->
  status r = 400
  /\ exists stage code, stageOf r = Some (VStr stage) /\ codeOf r = Some (VStr code).
Proof.
  assert (Hrej : forall stage code msg details s0,
            (x <- createErrorResponse env stage code msg details ;;
             ret (inl (mkResponse 400 x) : Response + CheckedOffer)) s0 = (Ok (inl r), s') ->
            status r = 400
            /\ exists stage code, stageOf r = Some (VStr stage) /\ codeOf r = Some (VStr code)).
  { intros stage code msg details s0 H.
    destruct (rejection_run env stage code msg details s0)
      as (x & s1 & E & Hstage & Hcode & _).
    rewrite E in H. injection H as <- <-. split; [reflexivity |]. eauto. }
  unfold checkOffer. intros H.
  destruct (verifyProductSignature env blob sig) as [[|] | e] eqn:Ev;
    unfold bind at 1 in H; rewrite lift_run in H; cbn [negb] in H;
    try discriminate; try (eapply Hrej; exact H).
  destruct (decodeProduct blob) as [product | e] eqn:Ed; try (eapply Hrej; exact H).
  destruct (Js.get product (js "asin")) as [asin | e] eqn:Ea;
    unfold bind at 1 in H; rewrite lift_run in H; try discriminate.
  destruct (Js.get product (js "title")) as [title | e] eqn:Et;
    unfold bind at 1 in H; rewrite lift_run in H; try discriminate.
  destruct (validateAsin_run env asin s) as (s1 & E & _).
  rewrite (bind_ok _ _ _ _ _ E) in H.
  destruct (valid (validateAsinIn (catalogInEffect env s) asin)) eqn:Hv; cbn [negb] in H.
  2:{ apply bind_inv in H. destruct H as [(cat & s2 & _ & H) | (e & _ & He)];
        [| discriminate].
      eapply Hrej. exact H. }
  destruct (v_product (validateAsinIn (catalogInEffect env s) asin)) as [entry |] eqn:Hp;
    [| discriminate].
  rewrite priceCheck_lift in H.
  unfold bind at 1 in H; rewrite lift_run in H.
  destruct (priceCheck req product) as [[[amount expected] |] | e] eqn:Hc;
    try discriminate; try (eapply Hrej; exact H).
Qed.

(** X22: the handler always answers.  Whatever the request, the state
    and the behaviour of the order API, [POST /purchase] ends with a
    response (no exception leaves the handler); its status is 200, 400, 500
    or 502, and every answer that is not 200 carries a stage and a code. *)
Theorem purchase_always_answers (env : Env) (req : PurchaseRequest) (s : State) :
  exists resp s',
    purchase env req s = (Ok resp, s')
    /\ (status resp = 200
        \/ ((status resp = 400 \/ status resp = 500 \/ status resp = 502)
            /\ exists stage code,
                 stageOf resp = Some (VStr stage) /\ codeOf resp = Some (VStr code))).
Proof.
  assert (Hfailed : forall rid e s0,
            exists resp s',
              purchaseFailed env req rid e s0 = (Ok resp, s')
              /\ (status resp = 200
                  \/ ((status resp = 400 \/ status resp = 500 \/ status resp = 502)
                      /\ exists stage code,
                           stageOf resp = Some (VStr stage)
                           /\ codeOf resp = Some (VStr code)))).
  { intros rid e s0.
    destruct (purchaseFailed_answer env req rid e s0)
      as (resp & s' & E & Hstage & Hcode & Hstatus & _).
    destruct (failureClass_cases (err_message e)) as (stage & code & n & Hclass & Hn).
    rewrite Hclass in Hstage, Hcode, Hstatus. cbn [fst snd] in Hstage, Hcode, Hstatus.
    exists resp, s'. split; [exact E |]. right. rewrite Hstatus. split; [exact Hn |]. eauto. }
  destruct (fields_present_or_missing req) as [(b & blob & g & sig & Hb & Hs) | Hmissing].
  2:{ destruct (purchase_missing_run env req s Hmissing)
        as (r & s' & E & Hstatus & Hstage & Hcode & _).
      exists r, s'. split; [exact E |]. right. split; [auto | eauto]. }
  rewrite (purchase_present env req s b blob g sig Hb Hs).
  destruct (lookup_run env req s) as (existing & s2 & El & _).
  rewrite (bind_ok _ _ _ _ _ El).
  destruct (Js.ToBoolean existing).
  { eexists; eexists. split; [reflexivity |]. left. reflexivity. }
  unfold catch, purchaseSteps.
  destruct (checkOffer env req (requestIdOf env s) (b :: blob) (g :: sig) s2)
    as [[[rejection | c] | e] s2a] eqn:Ec.
  - rewrite (bind_ok _ _ _ _ _ Ec).
    destruct (checkOffer_inl _ _ _ _ _ _ _ _ Ec) as (Hstatus & Hfields).
    exists rejection, s2a. split; [reflexivity |]. right. split; [auto | exact Hfields].
  - rewrite (bind_ok _ _ _ _ _ Ec). unfold createOrder.
    destruct (prepareOrder env req c s2a) as [[p | e] s3] eqn:Ep.
    + rewrite (bind_ok _ _ _ _ _ Ep).
      destruct (callCrossmintAPI env (default [] (JSON.stringify (o_request p))) s3)
        as [[raw | e] s4] eqn:Ecall.
      * rewrite (bind_ok _ _ _ _ _ Ecall).
        destruct (confirmOrder env req c p raw s4) as [[r | e] s5] eqn:Econf.
        -- destruct (confirmOrder_run _ _ _ _ _ _ _ _ Econf)
             as (_ & [(e & He & _) | (body & He & _)]); [discriminate |].
           injection He as ->. eexists; eexists. split; [reflexivity |]. left. reflexivity.
        -- apply Hfailed.
      * rewrite (bind_throw _ _ _ _ _ Ecall). apply Hfailed.
    + rewrite (bind_throw _ _ _ _ _ Ep). apply Hfailed.
  - rewrite (bind_throw _ _ _ _ _ Ec). apply Hfailed.
Qed.

(** ** Product search *)

Lemma signAll_ok env products cache entries cache' :
  signAll env products cache = (Ok entries, cache') ->
  Forall (signedEntry env) entries /\ List.length entries = List.length products.
Proof.
  revert cache entries cache'.
  induction products as [| product rest IH]; intros cache entries cache' H.
  - injection H as <- <-. split; [constructor | reflexivity].
  - cbn [signAll] in H.
    destruct (Js.get product (js "asin")) as [asin | e]; [| discriminate].
    destruct (signProduct env product) as [signed | e] eqn:Hsigned; [| discriminate].
    destruct (signAll env rest (mapSet asin product cache)) as [[more | e] cache1] eqn:Hrest;
      [| discriminate].
    injection H as <- <-. destruct (IH _ _ _ Hrest) as [Hall Hlen].
    split; [| cbn [List.length]; rewrite Hlen; reflexivity].
    constructor; [| exact Hall].
    exists product, signed. split; [reflexivity |]. split; [exact Hsigned |].
    apply signProduct_accepted with (product := product). exact Hsigned.
Qed.

Lemma mapM_length {A B} (f : A -> M B) (l : list A) s bs s' :
  mapM f l s = (Ok bs, s') -> List.length bs = List.length l.
Proof.
  revert s bs s'. induction l as [| a rest IH]; intros s bs s' H.
  - injection H as <- _. reflexivity.
  - cbn [mapM] in H.
    apply bind_inv in H. destruct H as [(b & s1 & _ & H) | (e & _ & H)]; [| discriminate].
    apply bind_inv in H. destruct H as [(more & s2 & Hrest & H) | (e & _ & H)];
      [| discriminate].
    injection H as <- _. cbn [List.length]. rewrite (IH _ _ _ Hrest). reflexivity.
Qed.

(** What a search that succeeds has gone through. *)
Lemma search_ok env serp query limit st entries st' :
  searchAmazonProducts env serp query limit st = (Ok entries, st') ->
  entries = []
  \/ exists url data items products cache,
       serp url = SearchData data
       /\ Js.get data (js "organic_results") = Ok (VArr items)
       /\ List.length products = List.length items
       /\ signAll env
            (firstn (sliceCount (List.length products)
                       (match limit with VUndefined => VNum (Num.ofZ 10) | l => l end))
                    products) cache
          = (Ok entries, productCache st').
Proof.
  unfold searchAmazonProducts. intros H.
  destruct (process_env env !! js "SERP_API_KEY") as [[| c key] |]; try discriminate.
  destruct (encodeURIComponent (Js.ToString query)) as [k | e]; [| discriminate].
  match type of H with context [serp ?u] => set (url := u) in H end.
  destruct (serp url) as [e | data] eqn:Hserp; [discriminate |].
  destruct (Js.get data (js "organic_results")) as [results | e] eqn:Hget; [| discriminate].
  destruct (Js.ToBoolean results); cbn [negb] in H.
  2:{ injection H as <- _. left. reflexivity. }
  destruct results as [| | | | | items |]; try discriminate.
  destruct (mapM (toProduct env) items (server st)) as [[products | e] s1] eqn:Hmap;
    [| discriminate].
  destruct (signAll env _ (productCache st)) as [[signed | e] cache] eqn:Hsign;
    [| discriminate].
  injection H as <- <-. right.
  exists url, data, items, products, (productCache st).
  split; [exact Hserp |]. split; [exact Hget |].
  split; [apply (mapM_length _ _ _ _ _ Hmap) | exact Hsign].
Qed.

(** X23: every entry that [searchAmazonProducts] returns carries the
    token and the signature that [signProduct] makes of its product, and
    [verifyProductSignature] accepts them; and there are never more entries
    than the search service returned results. *)
Theorem search_results_verify (env : Env) (serp : jsstring -> searchOutcome)
    (query limit : value) (st st' : SearchState) (entries : list value) :
  searchAmazonProducts env serp query limit st = (Ok entries, st') ->
  Forall (signedEntry env) entries
  /\ (entries = []
      \/ exists url data items,
           serp url = SearchData data
           /\ Js.get data (js "organic_results") = Ok (VArr items)
           /\ (List.length entries <= List.length items)%nat).
Proof.
  intros H.
  destruct (search_ok _ _ _ _ _ _ _ H)
    as [-> | (url & data & items & products & cache & Hserp & Hget & Hlen & Hsign)].
  - split; [constructor | left; reflexivity].
  - destruct (signAll_ok _ _ _ _ _ Hsign) as [Hall Hcount].
    split; [exact Hall |]. right. exists url, data, items.
    split; [exact Hserp |]. split; [exact Hget |].
    rewrite Hcount, length_firstn. lia.
Qed.




(** ** Concrete runs of the further properties *)


Lemma live_key_answered_before_verification_witness :
  productBlob forgedRequest
  = Some (hd 0 (tokenOf forgedRequest) :: tl (tokenOf forgedRequest))
  /\ signature forgedRequest
     = Some (hd 0 (signatureOf forgedRequest) :: tl (signatureOf forgedRequest))
  /\ verifyProductSignature sampleEnv (tokenOf forgedRequest) (signatureOf forgedRequest)
     = Ok false
  /\ storedResult sampleEnv (idempotencyKey forgedRequest) (stateAfter keyedRequest initialState)
     = Some (body (answerTo keyedRequest initialState))
  /\ Js.ToBoolean (body (answerTo keyedRequest initialState)) = true
  /\ exists s',
       purchase sampleEnv forgedRequest (stateAfter keyedRequest initialState)
       = (Ok (mkResponse 200 (body (answerTo keyedRequest initialState))), s')
       /\ orders s' = orders (stateAfter keyedRequest initialState)
       /\ idempotencyCache s' = idempotencyCache (stateAfter keyedRequest initialState)
       /\ pendingPayments s' = pendingPayments (stateAfter keyedRequest initialState).
Proof.
  assert (Hb : productBlob forgedRequest
               = Some (hd 0 (tokenOf forgedRequest) :: tl (tokenOf forgedRequest))) by run.
  assert (Hs : signature forgedRequest
               = Some (hd 0 (signatureOf forgedRequest) :: tl (signatureOf forgedRequest)))
    by run.
  assert (Hforged : verifyProductSignature sampleEnv (tokenOf forgedRequest)
                      (signatureOf forgedRequest) = Ok false) by run.
  assert (Hstored : storedResult sampleEnv (idempotencyKey forgedRequest)
                      (stateAfter keyedRequest initialState)
                    = Some (body (answerTo keyedRequest initialState))) by run.
  assert (Htruthy : Js.ToBoolean (body (answerTo keyedRequest initialState)) = true) by run.
  exact (conj Hb (conj Hs (conj Hforged (conj Hstored (conj Htruthy
           (live_key_answered_before_verification sampleEnv forgedRequest
              (stateAfter keyedRequest initialState) _ _ _ _ _ Hb Hs Hstored Htruthy)))))).
Defined.

Lemma upstream_http_error_answered_502_witness :
  purchase unavailableEnv keyedRequest initialState
  = (Ok (answerIn unavailableEnv keyedRequest initialState),
     stateIn unavailableEnv keyedRequest initialState)
  /\ orders (stateIn unavailableEnv keyedRequest initialState)
     = orders initialState ++ [lastOrder (stateIn unavailableEnv keyedRequest initialState)]
  /\ crossmint unavailableEnv (List.length (orders initialState))
       (lastOrder (stateIn unavailableEnv keyedRequest initialState))
     = HttpStatus 503 (js "Service Unavailable") (js "upstream down")
  /\ status (answerIn unavailableEnv keyedRequest initialState) = 502
  /\ stageOf (answerIn unavailableEnv keyedRequest initialState)
     = Some (VStr (js "crossmint.createOrder"))
  /\ codeOf (answerIn unavailableEnv keyedRequest initialState)
     = Some (VStr (js "CROSSMINT_API_ERROR"))
  /\ field (body (answerIn unavailableEnv keyedRequest initialState)) "message"
     = Some (VStr (js "Crossmint API error: " ++ Num.decimalN 503 ++ js " "
                     ++ js "Service Unavailable" ++ js " - " ++ js "upstream down"))
  /\ pendingPayments (stateIn unavailableEnv keyedRequest initialState)
     = pendingPayments initialState
  /\ (truthyString (idempotencyKey keyedRequest) = true ->
      keptResult (stateIn unavailableEnv keyedRequest initialState)
        (idempotencyKey keyedRequest)
      = Some (body (answerIn unavailableEnv keyedRequest initialState))).
Proof.
  assert (Hrun : purchase unavailableEnv keyedRequest initialState
                 = (Ok (answerIn unavailableEnv keyedRequest initialState),
                    stateIn unavailableEnv keyedRequest initialState)) by run.
  assert (Hgrown : orders (stateIn unavailableEnv keyedRequest initialState)
                   = orders initialState
                       ++ [lastOrder (stateIn unavailableEnv keyedRequest initialState)])
    by run.
  assert (Houtcome : crossmint unavailableEnv (List.length (orders initialState))
                       (lastOrder (stateIn unavailableEnv keyedRequest initialState))
                     = HttpStatus 503 (js "Service Unavailable") (js "upstream down"))
    by reflexivity.
  exact (conj Hrun (conj Hgrown (conj Houtcome
           (upstream_http_error_answered_502 unavailableEnv keyedRequest initialState _ _ _
              _ _ _ Hrun Hgrown Houtcome)))).
Defined.

Lemma invalid_order_response_answered_502_witness :
  purchase queuedEnv keyedRequest initialState
  = (Ok (answerIn queuedEnv keyedRequest initialState),
     stateIn queuedEnv keyedRequest initialState)
  /\ orders (stateIn queuedEnv keyedRequest initialState)
     = orders initialState ++ [lastOrder (stateIn queuedEnv keyedRequest initialState)]
  /\ crossmint queuedEnv (List.length (orders initialState))
       (lastOrder (stateIn queuedEnv keyedRequest initialState))
     = HttpOk (VObj [(js "status", VStr (js "queued"))])
  /\ validateCrossmintOrderResponse (VObj [(js "status", VStr (js "queued"))])
     = Throw (Error (jsq "Invalid Crossmint response: missing order identifier. Response structure: ['status']"))
  /\ status (answerIn queuedEnv keyedRequest initialState) = 502
  /\ stageOf (answerIn queuedEnv keyedRequest initialState)
     = Some (VStr (js "crossmint.validation"))
  /\ codeOf (answerIn queuedEnv keyedRequest initialState)
     = Some (VStr (js "CROSSMINT_INVALID_RESPONSE"))
  /\ pendingPayments (stateIn queuedEnv keyedRequest initialState)
     = pendingPayments initialState
  /\ keptResult (stateIn queuedEnv keyedRequest initialState) (idempotencyKey keyedRequest)
     = Some (body (answerIn queuedEnv keyedRequest initialState)).
Proof.
  assert (Hrun : purchase queuedEnv keyedRequest initialState
                 = (Ok (answerIn queuedEnv keyedRequest initialState),
                    stateIn queuedEnv keyedRequest initialState)) by run.
  assert (Hgrown : orders (stateIn queuedEnv keyedRequest initialState)
                   = orders initialState
                       ++ [lastOrder (stateIn queuedEnv keyedRequest initialState)]) by run.
  assert (Houtcome : crossmint queuedEnv (List.length (orders initialState))
                       (lastOrder (stateIn queuedEnv keyedRequest initialState))
                     = HttpOk (VObj [(js "status", VStr (js "queued"))])) by reflexivity.
  assert (Hinvalid : validateCrossmintOrderResponse (VObj [(js "status", VStr (js "queued"))])
                     = Throw (Error (jsq "Invalid Crossmint response: missing order identifier. Response structure: ['status']")))
    by run.
  assert (Hkey : truthyString (idempotencyKey keyedRequest) = true) by run.
  destruct (invalid_order_response_answered_502 queuedEnv keyedRequest initialState _ _ _
              _ _ Hrun Hgrown Houtcome Hinvalid) as (Hstatus & Hclass & _ & Hp & Hkept).
  assert (Hphrase : includes (js "Crossmint API error")
                      (err_message (Error (jsq "Invalid Crossmint response: missing order identifier. Response structure: ['status']")))
                    = false) by run.
  rewrite Hphrase in Hclass. destruct Hclass as [Hstage Hcode].
  exact (conj Hrun (conj Hgrown (conj Houtcome (conj Hinvalid (conj Hstatus (conj Hstage
           (conj Hcode (conj Hp (Hkept Hkey))))))))).
Defined.

Lemma rejected_order_call_answered_500_witness :
  purchase offlineEnv keyedRequest initialState
  = (Ok (answerIn offlineEnv keyedRequest initialState),
     stateIn offlineEnv keyedRequest initialState)
  /\ orders (stateIn offlineEnv keyedRequest initialState)
     = orders initialState ++ [lastOrder (stateIn offlineEnv keyedRequest initialState)]
  /\ crossmint offlineEnv (List.length (orders initialState))
       (lastOrder (stateIn offlineEnv keyedRequest initialState))
     = Rejected (mkError "TypeError" (js "fetch failed"))
  /\ status (answerIn offlineEnv keyedRequest initialState) = 500
  /\ stageOf (answerIn offlineEnv keyedRequest initialState) = Some (VStr (js "unknown"))
  /\ codeOf (answerIn offlineEnv keyedRequest initialState)
     = Some (VStr (js "INTERNAL_ERROR"))
  /\ field (body (answerIn offlineEnv keyedRequest initialState)) "message"
     = Some (VStr (js "fetch failed"))
  /\ pendingPayments (stateIn offlineEnv keyedRequest initialState)
     = pendingPayments initialState
  /\ keptResult (stateIn offlineEnv keyedRequest initialState) (idempotencyKey keyedRequest)
     = Some (body (answerIn offlineEnv keyedRequest initialState)).
Proof.
  assert (Hrun : purchase offlineEnv keyedRequest initialState
                 = (Ok (answerIn offlineEnv keyedRequest initialState),
                    stateIn offlineEnv keyedRequest initialState)) by run.
  assert (Hgrown : orders (stateIn offlineEnv keyedRequest initialState)
                   = orders initialState
                       ++ [lastOrder (stateIn offlineEnv keyedRequest initialState)]) by run.
  assert (Houtcome : crossmint offlineEnv (List.length (orders initialState))
                       (lastOrder (stateIn offlineEnv keyedRequest initialState))
                     = Rejected (mkError "TypeError" (js "fetch failed"))) by reflexivity.
  assert (H1 : includes (js "Crossmint API error")
                 (err_message (mkError "TypeError" (js "fetch failed"))) = false) by run.
  assert (H2 : includes (js "Invalid Crossmint response")
                 (err_message (mkError "TypeError" (js "fetch failed"))) = false) by run.
  assert (H3 : includes (js "Product signature verification failed")
                 (err_message (mkError "TypeError" (js "fetch failed"))) = false) by run.
  assert (H4 : includes (js "Invalid product blob")
                 (err_message (mkError "TypeError" (js "fetch failed"))) = false) by run.
  assert (Hkey : truthyString (idempotencyKey keyedRequest) = true) by run.
  destruct (rejected_order_call_answered_500 offlineEnv keyedRequest initialState _ _ _ _
              Hrun Hgrown Houtcome H1 H2 H3 H4)
    as (Hstatus & Hstage & Hcode & Hmsg & Hp & Hkept).
  exact (conj Hrun (conj Hgrown (conj Houtcome (conj Hstatus (conj Hstage (conj Hcode
           (conj Hmsg (conj Hp (Hkept Hkey))))))))).
Defined.


Lemma search_results_verify_witness :
  searchAmazonProducts sampleEnv sampleSerp (VStr (js "airpods")) (VNum (Num.ofZ 2))
    emptySearchState
  = (Ok (foundEntries (VStr (js "airpods")) (VNum (Num.ofZ 2))),
     snd (searchAmazonProducts sampleEnv sampleSerp (VStr (js "airpods")) (VNum (Num.ofZ 2))
            emptySearchState))
  /\ List.length (foundEntries (VStr (js "airpods")) (VNum (Num.ofZ 2))) = 2%nat
  /\ Forall (signedEntry sampleEnv) (foundEntries (VStr (js "airpods")) (VNum (Num.ofZ 2)))
  /\ (foundEntries (VStr (js "airpods")) (VNum (Num.ofZ 2)) = []
      \/ exists url data items,
           sampleSerp url = SearchData data
           /\ Js.get data (js "organic_results") = Ok (VArr items)
           /\ (List.length (foundEntries (VStr (js "airpods")) (VNum (Num.ofZ 2)))
               <= List.length items)%nat).
Proof.
  assert (Hsearch : searchAmazonProducts sampleEnv sampleSerp (VStr (js "airpods"))
                      (VNum (Num.ofZ 2)) emptySearchState
                    = (Ok (foundEntries (VStr (js "airpods")) (VNum (Num.ofZ 2))),
                       snd (searchAmazonProducts sampleEnv sampleSerp (VStr (js "airpods"))
                              (VNum (Num.ofZ 2)) emptySearchState))) by run.
  assert (Hcount : List.length (foundEntries (VStr (js "airpods")) (VNum (Num.ofZ 2)))
                   = 2%nat) by run.
  exact (conj Hsearch (conj Hcount
           (search_results_verify sampleEnv sampleSerp _ _ _ _ _ Hsearch))).
Defined.

Lemma createExactPaymentResponse_passes_validation_witness :
  createExactPaymentResponse paymentEnv samplePaymentRequest = Ok samplePaymentAnswer
  /\ exists entry reference paymentId,
       Js.get samplePaymentRequest (js "reference") = Ok reference
       /\ Js.get samplePaymentRequest (js "paymentId") = Ok paymentId
       /\ field samplePaymentAnswer "accepts" = Some (VArr [entry])
       /\ validateExactAccepts (VArr [entry]) = Ok tt
       /\ field entry "reference"
          = (if Js.ToBoolean (Js.or reference paymentId)
             then Some (Js.or reference paymentId) else None)
       /\ field samplePaymentAnswer "error" = Some (VStr (js "Payment Required"))
       /\ field samplePaymentAnswer "currency" = Some (VStr (js "USDC"))
       /\ exists message,
            field samplePaymentAnswer "message" = Some (VStr message) /\ message <> [].
Proof.
  assert (Hbuilt : createExactPaymentResponse paymentEnv samplePaymentRequest
                   = Ok samplePaymentAnswer) by run.
  exact (conj Hbuilt
           (createExactPaymentResponse_passes_validation paymentEnv _ _ Hbuilt)).
Defined.

Lemma stored_result_found_until_expiry_witness :
  exists s1 s3,
    storeIdempotencyResult sampleEnv (js "retry-1") (VObj [(js "ok", VBool true)]) initialState
    = (Ok tt, s1)
    /\ idempotencyCache s1 !! js "retry-2" = idempotencyCache initialState !! js "retry-2"
    /\ checkIdempotency sampleEnv (js "retry-1") s1 = (Ok (VObj [(js "ok", VBool true)]), s3).
Proof.
  destruct (stored_result_found_until_expiry sampleEnv (js "retry-1")
              (VObj [(js "ok", VBool true)]) initialState)
    as (s1 & Hrun & _ & Hothers & Hlater).
  assert (Hother : js "retry-2" <> js "retry-1") by discriminate.
  assert (Hs1 : s1 = snd (storeIdempotencyResult sampleEnv (js "retry-1")
                            (VObj [(js "ok", VBool true)]) initialState))
    by (rewrite Hrun; reflexivity).
  destruct (Hlater s1 eq_refl) as (s3 & Hcheck & _).
  exists s1, s3.
  split; [exact Hrun |]. split; [exact (Hothers _ Hother) |].
  rewrite Hcheck. rewrite Hs1. reflexivity.
Defined.

Lemma reaper_agrees_with_checkIdempotency_witness :
  idempotencyCache staleState !! js "retry-1"
  = Some (mkRecord (VObj [(js "ok", VBool true)]) 1699996399999)
  /\ idempotencyCache (snd (reaper sampleEnv staleState)) !! js "retry-1" = None
  /\ idempotencyCache (snd (checkIdempotency sampleEnv (js "retry-1") staleState))
       !! js "retry-1" = None.
Proof.
  destruct (reaper_agrees_with_checkIdempotency sampleEnv staleState (js "retry-1"))
    as [Hagree Hline].
  assert (Hstored : idempotencyCache staleState !! js "retry-1"
                    = Some (mkRecord (VObj [(js "ok", VBool true)]) 1699996399999)) by run.
  assert (Hreaped : idempotencyCache (snd (reaper sampleEnv staleState)) !! js "retry-1" = None)
    by exact (Hline _ Hstored).
  split; [exact Hstored |]. split; [exact Hreaped |].
  rewrite <- Hagree. exact Hreaped.
Defined.

